(** * FreeRouter: a shallow embedding of the proxy's core and its properties

    The development follows the TypeScript sources:

    - [Js]       the fragment of the JavaScript runtime the code relies on
                 (UTF-16 strings, JSON values, property reads, exceptions);
    - [Provider] provider.ts (the tool-capable revision): tool and message
                 translation, the Anthropic SSE translator, the OpenAI
                 pass-through, [forwardRequest];
    - [Router]   router/index.ts and router/selector.ts: [route];
    - [Config]   config.ts: [deepMerge], [loadConfig], [reloadConfig];
    - [Server]   server.ts: [detectModeOverride], [handleChatCompletions],
                 [handleReloadConfig];
    - [Selector] router/selector.ts: [calculateModelCost],
                 [getFallbackChainFiltered];
    - [Auth]     auth.ts: [loadAuthProfiles], [getAuth], and the revision
                 that reads the configuration ([AuthConfigured]).

    Definitions come first, the theorems about them follow. *)

From Stdlib Require Import List String Ascii ZArith NArith Bool Lia.
From Stdlib Require Import DecimalString.
Import ListNotations.

Set Implicit Arguments.
Set Warnings "-register-all".
Set Warnings "-notation-overridden".
Set Warnings "-notation-incompatible-prefix".

(* ===================================================================== *)
(** * The JavaScript fragment                                             *)
(* ===================================================================== *)

Module Js.

(** A JavaScript string is a sequence of UTF-16 code units. *)
Definition jsstring : Type := list N.

(** String literals of the source, all ASCII. *)
Definition lit (s : string) : jsstring :=
  map N_of_ascii (list_ascii_of_string s).

Fixpoint str_eqb (a b : jsstring) : bool :=
  match a, b with
  | [], [] => true
  | x :: a', y :: b' => N.eqb x y && str_eqb a' b'
  | _, _ => false
  end.

(** [`${n}`] for an integer [n]. *)
Definition decimal (z : Z) : jsstring :=
  lit (NilZero.string_of_int (Z.to_int z)).

(** ** Character classes of the regular expressions

    The patterns of the source carry the [i] flag and no [u] flag.  Under
    these flags a pattern letter matches a code unit [c] exactly when [c] is
    the same ASCII letter in either case: canonicalisation never maps a code
    unit of value 128 or more to an ASCII one. *)

Definition is_upper (c : N) : bool := (65 <=? c)%N && (c <=? 90)%N.
Definition is_lower (c : N) : bool := (97 <=? c)%N && (c <=? 122)%N.

(** [[a-z]] under the [i] flag. *)
Definition is_letter (c : N) : bool := is_upper c || is_lower c.

Definition ascii_lower (c : N) : N := if is_upper c then (c + 32)%N else c.

(** [String.prototype.toLowerCase]; the source applies it to ASCII text
    only (a captured [[a-z]+] and the tier names), where it is this map. *)
Definition toLowerCase (s : jsstring) : jsstring := map ascii_lower s.

(** A pattern character against an input code unit under the [i] flag. *)
Definition ci_eqb (p c : N) : bool := N.eqb (ascii_lower p) (ascii_lower c).

(** [\s], which is also the set [String.prototype.trim] removes:
    WhiteSpace and LineTerminator of ECMA-262. *)
Definition is_space (c : N) : bool :=
  ((9 <=? c)%N && (c <=? 13)%N)
  || N.eqb c 32 || N.eqb c 160 || N.eqb c 5760
  || ((8192 <=? c)%N && (c <=? 8202)%N)
  || N.eqb c 8232 || N.eqb c 8233 || N.eqb c 8239 || N.eqb c 8287
  || N.eqb c 12288 || N.eqb c 65279.

(** ** String operations *)

Fixpoint takeWhile (p : N -> bool) (s : jsstring) : jsstring :=
  match s with
  | c :: r => if p c then c :: takeWhile p r else []
  | [] => []
  end.

Fixpoint dropWhile (p : N -> bool) (s : jsstring) : jsstring :=
  match s with
  | c :: r => if p c then dropWhile p r else s
  | [] => []
  end.

Definition trimStart (s : jsstring) : jsstring := dropWhile is_space s.
Definition trimEnd (s : jsstring) : jsstring := rev (dropWhile is_space (rev s)).
Definition trim (s : jsstring) : jsstring := trimEnd (trimStart s).

(** [s.startsWith(p)], and the same test under the [i] flag. *)
Fixpoint startsWith (p s : jsstring) : bool :=
  match p, s with
  | [], _ => true
  | x :: p', y :: s' => N.eqb x y && startsWith p' s'
  | _ :: _, [] => false
  end.

Fixpoint startsWith_ci (p s : jsstring) : bool :=
  match p, s with
  | [], _ => true
  | x :: p', y :: s' => ci_eqb x y && startsWith_ci p' s'
  | _ :: _, [] => false
  end.

(** [s.includes(p)]. *)
Fixpoint includes (p s : jsstring) : bool :=
  startsWith p s || match s with [] => false | _ :: r => includes p r end.

(** A pattern that is plain text, searched anywhere, under the [i] flag. *)
Fixpoint includes_ci (p s : jsstring) : bool :=
  startsWith_ci p s || match s with [] => false | _ :: r => includes_ci p r end.

(** [s.slice(n)] and [s.slice(0, n)] for [0 <= n]. *)
Definition slice_from (n : nat) (s : jsstring) : jsstring := skipn n s.
Definition slice_to (n : nat) (s : jsstring) : jsstring := firstn n s.

(** [s.indexOf(c)] for a one-character needle; [None] stands for -1. *)
Fixpoint indexOf (c : N) (s : jsstring) : option nat :=
  match s with
  | [] => None
  | x :: r => if N.eqb x c then Some 0 else option_map S (indexOf c r)
  end.

(** [s.split("\n")]: never empty, the last piece is what follows the last
    line feed. *)
Fixpoint split_lines (s : jsstring) : list jsstring :=
  match s with
  | [] => [[]]
  | c :: r =>
      if N.eqb c 10 then [] :: split_lines r
      else match split_lines r with
           | l :: ls => (c :: l) :: ls
           | [] => [[c]]
           end
  end.

(** [parts.join(sep)]. *)
Fixpoint join (sep : jsstring) (parts : list jsstring) : jsstring :=
  match parts with
  | [] => []
  | [p] => p
  | p :: rest => p ++ sep ++ join sep rest
  end.

(** ** JSON values

    Numbers are the integers: the translators produce integers only
    (indices, time stamps, token counts) and read no number they pass on. *)

Inductive json : Type :=
| JNull
| JBool (b : bool)
| JNum (z : Z)
| JStr (s : jsstring)
| JArr (items : list json)
| JObj (fields : list (jsstring * json)).

(** A JavaScript value as the translators see it: [None] is [undefined]. *)
Definition jsval : Type := option json.

Fixpoint assoc (A : Type) (k : jsstring) (fs : list (jsstring * A)) : option A :=
  match fs with
  | [] => None
  | (k', v) :: r => if str_eqb k k' then Some v else assoc k r
  end.

(** [obj[k] = v] on own properties: an existing key keeps its place. *)
Fixpoint set_field (A : Type) (k : jsstring) (v : A) (fs : list (jsstring * A))
  : list (jsstring * A) :=
  match fs with
  | [] => [(k, v)]
  | (k', v') :: r =>
      if str_eqb k k' then (k', v) :: r else (k', v') :: set_field k v r
  end.

(** ** Exceptions *)

(** [TimeoutError] is the class server.ts imports from provider.ts and
    tests with [instanceof]; the revision of provider.ts at hand never
    throws it. *)
Inductive error : Type :=
| TypeError
| SyntaxError
| Error (message : jsstring)
| TimeoutError (message : jsstring).

Inductive result (A : Type) : Type :=
| Ok (a : A)
| Throw (e : error).

Arguments Ok {A} a.
Arguments Throw {A} e.

(** [err.message]; the text the engine gives its own errors is not
    modelled. *)
Definition error_message (e : error) : jsstring :=
  match e with
  | TypeError => lit "TypeError"
  | SyntaxError => lit "SyntaxError"
  | Error m => m
  | TimeoutError m => m
  end.

Definition bind (A B : Type) (c : result A) (k : A -> result B) : result B :=
  match c with
  | Ok a => k a
  | Throw e => Throw e
  end.

(** ** Property reads

    [v.k] throws on [undefined] and [null]; on an object it is the own
    property; on the other JSON values it is [undefined] for every name the
    translators read ([type], [delta], [text], [model], [function], ...),
    none of which exists on a primitive or on an array. *)
Definition get (v : jsval) (k : jsstring) : result jsval :=
  match v with
  | None | Some JNull => Throw TypeError
  | Some (JObj fs) => Ok (assoc k fs)
  | Some _ => Ok None
  end.

(** [v?.k]. *)
Definition get_opt (v : jsval) (k : jsstring) : result jsval :=
  match v with
  | None | Some JNull => Ok None
  | _ => get v k
  end.

(** [if (v)]. *)
Definition truthy (v : jsval) : bool :=
  match v with
  | None | Some JNull => false
  | Some (JBool b) => b
  | Some (JNum z) => negb (Z.eqb z 0)
  | Some (JStr s) => match s with [] => false | _ => true end
  | Some (JArr _) | Some (JObj _) => true
  end.

(** [v === "..."]. *)
Definition is_str (v : jsval) (s : jsstring) : bool :=
  match v with
  | Some (JStr s') => str_eqb s' s
  | _ => false
  end.

(** [typeof v === "object" && v !== null]. *)
Definition is_object (v : jsval) : bool :=
  match v with
  | Some (JArr _) | Some (JObj _) => true
  | _ => false
  end.

(** [v ?? d]. *)
Definition nullish (v : jsval) (d : json) : json :=
  match v with
  | None | Some JNull => d
  | Some j => j
  end.

(** The runtime services the source calls without defining them. *)
Class Runtime : Type := {
  (** [JSON.parse]; [None] when it throws. *)
  JSON_parse : jsstring -> option json;
  (** [JSON.stringify] on JSON values. *)
  JSON_stringify : json -> jsstring;
  (** the value of the [n]-th call of [Date.now()] *)
  Date_now : nat -> Z
}.

End Js.

Import Js.

Declare Scope js_scope.
Notation "x <- c1 ;; c2" := (bind c1 (fun x => c2))
  (at level 61, c1 at next level, right associativity) : js_scope.
Open Scope js_scope.

(* ===================================================================== *)
(** * provider.ts: translation between the OpenAI and Anthropic formats   *)
(* ===================================================================== *)

Module Provider.

(** ** Wire types *)

Record OpenAIFunction : Type := {
  fn_name : jsstring;
  fn_description : option jsstring;
  fn_parameters : option json
}.

(** [OpenAITool]: [{ type: "function", function }]. *)
Record OpenAITool : Type := { tool_function : OpenAIFunction }.

(** [OpenAIToolCall]: [{ id, type: "function", function: { name, arguments } }]. *)
Record OpenAIToolCall : Type := {
  call_id : jsstring;
  call_name : jsstring;
  call_arguments : jsstring
}.

Record Part : Type := {
  part_type : jsstring;
  part_text : option jsstring;
  part_image_url : option jsstring
}.

Inductive Content : Type :=
| CString (s : jsstring)
| CNull
| CParts (ps : list Part).

Record ChatMessage : Type := {
  role : jsstring;
  content : Content;
  tool_calls : option (list OpenAIToolCall);
  tool_call_id : option jsstring;
  name : option jsstring
}.

Record ChatRequest : Type := {
  req_model : option jsstring;
  req_messages : option (list ChatMessage);
  req_max_tokens : option Z;
  req_temperature : option json;
  req_stream : option bool;
  req_top_p : option json;
  req_tools : option (list OpenAITool);
  req_tool_choice : jsval
}.

(** A content block of the Anthropic Messages API, on the request side
    ([text], [tool_use], [tool_result]) and on the response side
    ([{ type, text?, thinking?, id?, name?, input? }]). *)
Record ContentBlock : Type := {
  cb_type : jsstring;
  cb_text : option jsstring;
  cb_thinking : option jsstring;
  cb_id : option jsstring;
  cb_name : option jsstring;
  cb_input : jsval;
  cb_tool_use_id : option jsstring;
  cb_content : option jsstring
}.

Definition text_block (text : jsstring) : ContentBlock :=
  {| cb_type := lit "text"; cb_text := Some text; cb_thinking := None;
     cb_id := None; cb_name := None; cb_input := None;
     cb_tool_use_id := None; cb_content := None |}.

Definition tool_use_block (id name : jsstring) (input : json) : ContentBlock :=
  {| cb_type := lit "tool_use"; cb_text := None; cb_thinking := None;
     cb_id := Some id; cb_name := Some name; cb_input := Some input;
     cb_tool_use_id := None; cb_content := None |}.

Definition tool_result_block (tool_use_id content : jsstring) : ContentBlock :=
  {| cb_type := lit "tool_result"; cb_text := None; cb_thinking := None;
     cb_id := None; cb_name := None; cb_input := None;
     cb_tool_use_id := Some tool_use_id; cb_content := Some content |}.

Inductive AnthropicContent : Type :=
| AText (s : jsstring)
| ABlocks (blocks : list ContentBlock).

Record AnthropicMessage : Type := {
  am_role : jsstring;
  am_content : AnthropicContent
}.

Record AnthropicTool : Type := {
  at_name : jsstring;
  at_description : option jsstring;
  at_input_schema : json
}.

Record AnthropicToolChoice : Type := {
  choice_type : jsstring;
  choice_name : jsval
}.

Inductive ThinkingConfig : Type :=
| Adaptive
| Enabled (budget_tokens : Z).

(** ** parseModelId *)

Definition parseModelId (modelId : jsstring) : jsstring * jsstring :=
  match indexOf 47 modelId with
  | None => (lit "anthropic", modelId)
  | Some slash => (slice_to slash modelId, slice_from (slash + 1) modelId)
  end.

(** ** Thinking *)

Definition supportsAdaptiveThinking (modelId : jsstring) : bool :=
  includes (lit "opus-4-6") modelId || includes (lit "opus-4.6") modelId.

Definition getThinkingConfig (tier modelId : jsstring) : option ThinkingConfig :=
  if supportsAdaptiveThinking modelId
     && (str_eqb tier (lit "COMPLEX") || str_eqb tier (lit "REASONING"))
  then Some Adaptive
  else if str_eqb tier (lit "MEDIUM") then Some (Enabled 4096)
  else None.

(** ** Tools *)

Definition default_input_schema : json :=
  JObj [(lit "type", JStr (lit "object")); (lit "properties", JObj [])].

Definition convertToolsToAnthropic (tools : list OpenAITool) : list AnthropicTool :=
  map (fun t =>
         let f := tool_function t in
         {| at_name := fn_name f;
            at_description :=
              match fn_description f with
              | Some ((_ :: _) as d) => Some d
              | _ => None
              end;
            at_input_schema :=
              match fn_parameters f with
              | Some p => nullish (Some p) default_input_schema
              | None => default_input_schema
              end |})
      tools.

Definition choice (type : string) : AnthropicToolChoice :=
  {| choice_type := lit type; choice_name := None |}.

(** [convertToolChoiceToAnthropic]: the reads [tc.function] and
    [tc.function?.name] are kept as the fallible reads they are. *)
Definition convertToolChoiceToAnthropic (toolChoice : jsval)
  : result AnthropicToolChoice :=
  if is_str toolChoice (lit "none") then Ok (choice "none")
  else if is_str toolChoice (lit "auto")
          || match toolChoice with None => true | _ => false end
  then Ok (choice "auto")
  else if is_str toolChoice (lit "required") then Ok (choice "any")
  else if is_object toolChoice then
    fn <- get toolChoice (lit "function") ;;
    nm <- get_opt fn (lit "name") ;;
    if truthy nm
    then Ok {| choice_type := lit "tool"; choice_name := nm |}
    else Ok (choice "auto")
  else Ok (choice "auto").

(** ** convertMessagesToAnthropic *)

(** [parts.filter(b => b.type === "text").map(b => b.text).join(sep)];
    [join] prints an absent [text] as the empty string. *)
Definition parts_text (sep : jsstring) (ps : list Part) : jsstring :=
  join sep
    (map (fun b => match part_text b with Some t => t | None => [] end)
         (filter (fun b => str_eqb (part_type b) (lit "text")) ps)).

(** [typeof c === "string" ? c : (c ?? []).filter(...).map(...).join("\n")]. *)
Definition flat_text (c : Content) : jsstring :=
  match c with
  | CString s => s
  | CNull => []
  | CParts ps => parts_text [10%N] ps
  end.

Definition part_json (p : Part) : json :=
  JObj ((lit "type", JStr (part_type p))
        :: match part_text p with
           | Some t => [(lit "text", JStr t)]
           | None => []
           end
        ++ match part_image_url p with
           | Some u => [(lit "image_url", JObj [(lit "url", JStr u)])]
           | None => []
           end).

Definition is_tool_result (b : ContentBlock) : bool :=
  str_eqb (cb_type b) (lit "tool_result").

Section WithRuntime.

Context {RT : Runtime}.

(** The tool-role branch: the content of the [tool_result] block. *)
Definition tool_result_content (c : Content) : jsstring :=
  match c with
  | CString s => s
  | CNull => JSON_stringify (JStr [])
  | CParts ps => JSON_stringify (JArr (map part_json ps))
  end.

(** [try { input = JSON.parse(arguments) } catch { input = {} }]. *)
Definition parse_arguments (arguments : jsstring) : json :=
  match JSON_parse arguments with
  | Some input => input
  | None => JObj []
  end.

Definition tool_use_of_call (tc : OpenAIToolCall) : ContentBlock :=
  tool_use_block (call_id tc) (call_name tc) (parse_arguments (call_arguments tc)).

(** One iteration of the loop.  The accumulator is the system text and
    the messages pushed so far, the most recent first. *)
Definition convert_message (acc : jsstring * list AnthropicMessage) (msg : ChatMessage)
  : jsstring * list AnthropicMessage :=
  let (systemContent, messages) := acc in
  if str_eqb (role msg) (lit "system") || str_eqb (role msg) (lit "developer") then
    let text := flat_text (content msg) in
    (systemContent
       ++ (match systemContent with [] => [] | _ => [10%N] end) ++ text,
     messages)
  else if str_eqb (role msg) (lit "tool") then
    let toolResult :=
      tool_result_block
        (match tool_call_id msg with Some i => i | None => [] end)
        (tool_result_content (content msg)) in
    match messages with
    | {| am_role := r; am_content := ABlocks bs |} :: earlier =>
        if str_eqb r (lit "user") && forallb is_tool_result bs
        then (systemContent,
              {| am_role := r; am_content := ABlocks (bs ++ [toolResult]) |} :: earlier)
        else (systemContent,
              {| am_role := lit "user"; am_content := ABlocks [toolResult] |} :: messages)
    | _ =>
        (systemContent,
         {| am_role := lit "user"; am_content := ABlocks [toolResult] |} :: messages)
    end
  else
    match (if str_eqb (role msg) (lit "assistant") then tool_calls msg else None) with
    | Some ((_ :: _) as tcs) =>
        let text :=
          match content msg with
          | CString s => s
          | CNull => []
          | CParts ps => parts_text [] ps
          end in
        let textBlocks :=
          match text with [] => [] | _ => [text_block text] end in
        (systemContent,
         {| am_role := lit "assistant";
            am_content := ABlocks (textBlocks ++ map tool_use_of_call tcs) |}
         :: messages)
    | _ =>
        (systemContent,
         {| am_role := if str_eqb (role msg) (lit "assistant")
                       then lit "assistant" else lit "user";
            am_content := AText (flat_text (content msg)) |}
         :: messages)
    end.

Definition convertMessagesToAnthropic (openaiMessages : list ChatMessage)
  : jsstring * list AnthropicMessage :=
  let (systemContent, messages) := fold_left convert_message openaiMessages ([], []) in
  (systemContent, rev messages).

(** ** The client response ([ServerResponse]) *)

(** What is written to the client: an SSE event carrying a JSON value
    ([`data: ${JSON.stringify(v)}\n\n`]), the terminator
    ([data: [DONE]\n\n]), a whole JSON body ([res.end(JSON.stringify(v))])
    or raw text. *)
Inductive Write : Type :=
| WData (payload : json)
| WDone
| WJson (value : json)
| WRaw (text : jsstring).

Definition render (w : Write) : jsstring :=
  match w with
  | WData v => lit "data: " ++ JSON_stringify v ++ [10%N; 10%N]
  | WDone => lit "data: [DONE]" ++ [10%N; 10%N]
  | WJson v => JSON_stringify v
  | WRaw t => t
  end.

Record Res : Type := {
  headersSent : bool;
  writableEnded : bool;
  statusCode : option Z;
  headers : list (jsstring * jsstring);
  body : list Write
}.

Definition fresh_res : Res :=
  {| headersSent := false; writableEnded := false; statusCode := None;
     headers := []; body := [] |}.

(** The code units Node accepts in the value of a header: its test for an
    invalid one is [/[^\t\x20-\x7e\x80-\xff]/]. *)
Definition valid_header_char (c : N) : bool :=
  N.eqb c 9 || ((32 <=? c)%N && (c <=? 126)%N) || ((128 <=? c)%N && (c <=? 255)%N).

Definition valid_header_value (value : jsstring) : bool := forallb valid_header_char value.

(** [res.setHeader(name, value)] for the header names of the source: it
    throws once the headers are sent, and on a value with a code unit Node
    does not accept.  Node's own errors are named by their codes. *)
Definition setHeader (name value : jsstring) (r : Res) : result Res :=
  if headersSent r then Throw (Error (lit "ERR_HTTP_HEADERS_SENT"))
  else if negb (valid_header_value value) then Throw (Error (lit "ERR_INVALID_CHAR"))
  else Ok {| headersSent := false; writableEnded := writableEnded r;
             statusCode := statusCode r;
             headers := set_field name value (headers r);
             body := body r |}.

(** [res.writeHead(status, headers)]. *)
Definition writeHead (status : Z) (hs : list (jsstring * jsstring)) (r : Res)
  : result Res :=
  if headersSent r then Throw (Error (lit "ERR_HTTP_HEADERS_SENT"))
  else Ok {| headersSent := true; writableEnded := writableEnded r;
             statusCode := Some status;
             headers := fold_left (fun acc h => set_field (fst h) (snd h) acc) hs (headers r);
             body := body r |}.

(** [res.write(chunk)]: sends the headers if they were not sent yet; a
    write after [end] reaches nobody. *)
Definition write (w : Write) (r : Res) : Res :=
  if writableEnded r then r
  else {| headersSent := true; writableEnded := false;
          statusCode := match statusCode r with Some c => Some c | None => Some 200%Z end;
          headers := headers r;
          body := body r ++ [w] |}.

Definition write_all (ws : list Write) (r : Res) : Res := fold_left (fun acc w => write w acc) ws r.

(** [res.end()]. *)
Definition end_ (r : Res) : Res :=
  {| headersSent := true; writableEnded := true;
     statusCode := match statusCode r with Some c => Some c | None => Some 200%Z end;
     headers := headers r;
     body := body r |}.

Definition json_headers : list (jsstring * jsstring) :=
  [(lit "Content-Type", lit "application/json")].

Definition sse_headers : list (jsstring * jsstring) :=
  [(lit "Content-Type", lit "text/event-stream");
   (lit "Cache-Control", lit "no-cache");
   (lit "Connection", lit "keep-alive")].

(** ** Anthropic, non-streaming: the response as an OpenAI completion *)

Record AnthropicResponse : Type := {
  ar_content : list ContentBlock;
  ar_usage : option (Z * Z);
  ar_stop_reason : option jsstring
}.

(** [toolUseBlocks.map((b, idx) => ...)]; [clock] counts the calls of
    [Date.now()] made so far. *)
Fixpoint tool_calls_of_blocks (blocks : list ContentBlock) (idx : nat) (clock : nat)
  : list OpenAIToolCall * nat :=
  match blocks with
  | [] => ([], clock)
  | b :: rest =>
      let (id, clock1) :=
        match cb_id b with
        | Some i => (i, clock)
        | None => (lit "call_" ++ decimal (Date_now clock) ++ lit "_"
                     ++ decimal (Z.of_nat idx), S clock)
        end in
      let (calls, clock2) := tool_calls_of_blocks rest (S idx) clock1 in
      ({| call_id := id;
          call_name := match cb_name b with Some n => n | None => [] end;
          call_arguments := JSON_stringify (nullish (cb_input b) (JObj [])) |}
       :: calls, clock2)
  end.

Definition toolCalls_of_content (blocks : list ContentBlock) (clock : nat)
  : list OpenAIToolCall * nat :=
  tool_calls_of_blocks
    (filter (fun b => str_eqb (cb_type b) (lit "tool_use")) blocks) 0 clock.

Definition tool_call_json (tc : OpenAIToolCall) : json :=
  JObj [(lit "id", JStr (call_id tc));
        (lit "type", JStr (lit "function"));
        (lit "function",
         JObj [(lit "name", JStr (call_name tc));
               (lit "arguments", JStr (call_arguments tc))])].

Definition finish_reason_of (stop_reason : option jsstring) : jsstring :=
  match stop_reason with
  | Some r => if str_eqb r (lit "tool_use") then lit "tool_calls"
              else if str_eqb r (lit "end_turn") then lit "stop"
              else r
  | None => lit "stop"
  end.

(** The model name every response of the proxy carries. *)
Definition namespaced (modelName : jsstring) : jsstring :=
  lit "clawrouter/" ++ modelName.

Definition anthropic_completion (modelName : jsstring) (data : AnthropicResponse)
  (clock : nat) : json * nat :=
  let textContent :=
    List.concat (map (fun b => match cb_text b with Some t => t | None => [] end)
                (filter (fun b => str_eqb (cb_type b) (lit "text")) (ar_content data))) in
  let (toolCalls, clock1) := toolCalls_of_content (ar_content data) clock in
  let message :=
    JObj ((lit "role", JStr (lit "assistant"))
          :: (lit "content",
              match textContent, toolCalls with
              | _ :: _, _ => JStr textContent
              | [], _ :: _ => JNull
              | [], [] => JStr []
              end)
          :: match toolCalls with
             | [] => []
             | _ => [(lit "tool_calls", JArr (map tool_call_json toolCalls))]
             end) in
  let input_tokens := match ar_usage data with Some (i, _) => i | None => 0%Z end in
  let output_tokens := match ar_usage data with Some (_, o) => o | None => 0%Z end in
  (JObj [(lit "id", JStr (lit "chatcmpl-" ++ decimal (Date_now clock1)));
         (lit "object", JStr (lit "chat.completion"));
         (lit "created", JNum (Date_now (S clock1) / 1000));
         (lit "model", JStr (namespaced modelName));
         (lit "choices",
          JArr [JObj [(lit "index", JNum 0);
                      (lit "message", message);
                      (lit "finish_reason",
                       JStr (finish_reason_of (ar_stop_reason data)))]]);
         (lit "usage",
          JObj [(lit "prompt_tokens", JNum input_tokens);
                (lit "completion_tokens", JNum output_tokens);
                (lit "total_tokens", JNum (input_tokens + output_tokens))])],
   S (S clock1)).

(** ** Anthropic, streaming: the SSE translator *)

(** The variables the translator keeps across events, with the count of
    [Date.now()] calls. *)
Record StreamState : Type := {
  buffer : jsstring;
  insideThinking : bool;
  currentBlockType : json;
  currentToolIndex : Z;
  stopReason : json;
  ticks : nat
}.

Definition initial_stream (clock : nat) : StreamState :=
  {| buffer := []; insideThinking := false; currentBlockType := JNull;
     currentToolIndex := (-1)%Z; stopReason := JNull; ticks := clock |}.

Definition with_buffer (b : jsstring) (st : StreamState) : StreamState :=
  {| buffer := b; insideThinking := insideThinking st;
     currentBlockType := currentBlockType st;
     currentToolIndex := currentToolIndex st;
     stopReason := stopReason st; ticks := ticks st |}.

Definition with_block (thinking : bool) (blockType : json) (st : StreamState)
  : StreamState :=
  {| buffer := buffer st; insideThinking := thinking;
     currentBlockType := blockType;
     currentToolIndex := currentToolIndex st;
     stopReason := stopReason st; ticks := ticks st |}.

Definition with_tool_index (i : Z) (st : StreamState) : StreamState :=
  {| buffer := buffer st; insideThinking := insideThinking st;
     currentBlockType := currentBlockType st;
     currentToolIndex := i;
     stopReason := stopReason st; ticks := ticks st |}.

Definition with_stop_reason (r : json) (st : StreamState) : StreamState :=
  {| buffer := buffer st; insideThinking := insideThinking st;
     currentBlockType := currentBlockType st;
     currentToolIndex := currentToolIndex st;
     stopReason := r; ticks := ticks st |}.

Definition with_ticks (n : nat) (st : StreamState) : StreamState :=
  {| buffer := buffer st; insideThinking := insideThinking st;
     currentBlockType := currentBlockType st;
     currentToolIndex := currentToolIndex st;
     stopReason := stopReason st; ticks := n |}.

(** [makeChunk(delta, finish)]. *)
Definition makeChunk (modelName : jsstring) (delta finish : json) (clock : nat)
  : json * nat :=
  (JObj [(lit "id", JStr (lit "chatcmpl-" ++ decimal (Date_now clock)));
         (lit "object", JStr (lit "chat.completion.chunk"));
         (lit "created", JNum (Date_now (S clock) / 1000));
         (lit "model", JStr (namespaced modelName));
         (lit "choices",
          JArr [JObj [(lit "index", JNum 0);
                      (lit "delta", delta);
                      (lit "finish_reason", finish)]])],
   S (S clock)).

(** A property whose value is [undefined] is left out by [JSON.stringify]. *)
Definition opt_field (k : jsstring) (v : jsval) : list (jsstring * json) :=
  match v with
  | Some j => [(k, j)]
  | None => []
  end.

Definition emit (modelName : jsstring) (delta finish : json) (st : StreamState)
  : StreamState * list Write :=
  let (chunk, clock) := makeChunk modelName delta finish (ticks st) in
  (with_ticks clock st, [WData chunk]).

(** The body of the inner [try] for one parsed event. *)
Definition handle_event (modelName : jsstring) (st : StreamState) (event : json)
  : result (StreamState * list Write) :=
  ty <- get (Some event) (lit "type") ;;
  if is_str ty (lit "content_block_start") then
    block <- get (Some event) (lit "content_block") ;;
    bty <- get_opt block (lit "type") ;;
    if is_str bty (lit "thinking") then
      Ok (with_block true (JStr (lit "thinking")) st, [])
    else if is_str bty (lit "tool_use") then
      let st1 := with_tool_index (currentToolIndex st + 1)
                   (with_block false (JStr (lit "tool_use")) st) in
      id <- get block (lit "id") ;;
      nm <- get block (lit "name") ;;
      Ok (emit modelName
            (JObj [(lit "tool_calls",
                    JArr [JObj ((lit "index", JNum (currentToolIndex st1))
                                :: opt_field (lit "id") id
                                ++ [(lit "type", JStr (lit "function"));
                                    (lit "function",
                                     JObj (opt_field (lit "name") nm
                                           ++ [(lit "arguments", JStr [])]))])])])
            JNull st1)
    else
      Ok (with_block false (nullish bty (JStr (lit "text"))) st, [])
  else if is_str ty (lit "content_block_stop") then
    Ok (with_block false JNull st, [])
  else if is_str ty (lit "content_block_delta") then
    if insideThinking st then Ok (st, [])
    else
      delta <- get (Some event) (lit "delta") ;;
      dty <- get_opt delta (lit "type") ;;
      if is_str (Some (currentBlockType st)) (lit "tool_use")
         && is_str dty (lit "input_json_delta")
      then
        pj <- get delta (lit "partial_json") ;;
        Ok (emit modelName
              (JObj [(lit "tool_calls",
                      JArr [JObj [(lit "index", JNum (currentToolIndex st));
                                  (lit "function",
                                   JObj [(lit "arguments", nullish pj (JStr []))])]])])
              JNull st)
      else
        text <- get_opt delta (lit "text") ;;
        match text with
        | Some t => if truthy text
                    then Ok (emit modelName (JObj [(lit "content", t)]) JNull st)
                    else Ok (st, [])
        | None => Ok (st, [])
        end
  else if is_str ty (lit "message_delta") then
    delta <- get (Some event) (lit "delta") ;;
    sr <- get_opt delta (lit "stop_reason") ;;
    Ok (with_stop_reason (nullish sr JNull) st, [])
  else if is_str ty (lit "message_stop") then
    let finish := if is_str (Some (stopReason st)) (lit "tool_use")
                  then lit "tool_calls" else lit "stop" in
    Ok (emit modelName (JObj []) (JStr finish) st)
  else Ok (st, []).

(** The events carried by one line: a line that is not a [data: ] line,
    that is empty or [[DONE]], or that does not parse, carries none. *)
Definition event_of_line (line : jsstring) : option json :=
  if negb (startsWith (lit "data: ") line) then None
  else
    let jsonStr := trim (slice_from 6 line) in
    if str_eqb jsonStr (lit "[DONE]") then None
    else match jsonStr with
         | [] => None
         | _ => JSON_parse jsonStr
         end.

(** One iteration of [for (const line of lines)]: an exception of the
    event handler is caught and the line skipped. *)
Definition process_line (modelName : jsstring) (st : StreamState) (line : jsstring)
  : StreamState * list Write :=
  match event_of_line line with
  | None => (st, [])
  | Some event =>
      match handle_event modelName st event with
      | Ok r => r
      | Throw _ => (st, [])
      end
  end.

Fixpoint process_lines (modelName : jsstring) (st : StreamState) (lines : list jsstring)
  : StreamState * list Write :=
  match lines with
  | [] => (st, [])
  | line :: rest =>
      let (st1, ws1) := process_line modelName st line in
      let (st2, ws2) := process_lines modelName st1 rest in
      (st2, ws1 ++ ws2)
  end.

(** One iteration of [while (true)] after a successful [reader.read()]:
    the complete lines are processed, the unfinished one stays buffered. *)
Definition process_read (modelName : jsstring) (st : StreamState) (value : jsstring)
  : StreamState * list Write :=
  let lines := split_lines (buffer st ++ value) in
  process_lines modelName (with_buffer (last lines []) st) (removelast lines).

Fixpoint process_reads (modelName : jsstring) (st : StreamState) (values : list jsstring)
  : StreamState * list Write :=
  match values with
  | [] => (st, [])
  | value :: rest =>
      let (st1, ws1) := process_read modelName st value in
      let (st2, ws2) := process_reads modelName st1 rest in
      (st2, ws1 ++ ws2)
  end.

(** ** The upstream and the credentials *)

Record ProviderAuth : Type := {
  token : option jsstring;
  apiKey : option jsstring
}.

(** How the body of a response is delivered: the values of the successive
    [reader.read()] calls, then the end of the stream or a failure. *)
Inductive ReadEnd : Type :=
| ReadDone
| ReadThrows (e : error).

Record BodyStream : Type := {
  bs_values : list jsstring;
  bs_end : ReadEnd
}.

(** The outcome of [await fetch(...)]: it rejects, or answers with a status
    outside 2xx and a text, or answers 2xx with a body, seen through
    [response.json()] or through [response.body]. *)
Inductive Fetched (J : Type) : Type :=
| FetchThrows (e : error)
| FetchNotOk (status : Z) (text : result jsstring)
| FetchOk (json_view : result J) (stream_view : option BodyStream).

Arguments FetchThrows {J} e.
Arguments FetchNotOk {J} status text.
Arguments FetchOk {J} json_view stream_view.

Inductive SystemField : Type :=
| NoSystem
| SystemString (s : jsstring)
| SystemBlocks (texts : list jsstring).

Record AnthropicRequest : Type := {
  areq_url : jsstring;
  areq_headers : list (jsstring * jsstring);
  areq_model : jsstring;
  areq_messages : list AnthropicMessage;
  areq_max_tokens : Z;
  areq_stream : bool;
  areq_tools : option (list AnthropicTool);
  areq_tool_choice : option AnthropicToolChoice;
  areq_system : SystemField;
  areq_thinking : option ThinkingConfig;
  areq_temperature : option json
}.

Record OpenAIRequest : Type := {
  oreq_url : jsstring;
  oreq_headers : list (jsstring * jsstring);
  oreq_model : jsstring;
  oreq_messages : option (list ChatMessage);
  oreq_stream : bool;
  oreq_max_tokens : option Z;
  oreq_temperature : option json;
  oreq_top_p : option json
}.

Record Backend : Type := {
  getAuth : jsstring -> option ProviderAuth;
  fetch_anthropic : AnthropicRequest -> Fetched AnthropicResponse;
  fetch_openai : OpenAIRequest -> Fetched json
}.

(** ** PROVIDERS *)

Inductive Api : Type :=
| AnthropicMessages
| OpenAICompletions.

Record ProviderConfig : Type := {
  baseUrl : jsstring;
  api : Api;
  pc_headers : list (jsstring * jsstring)
}.

(** The names every object literal inherits from [Object.prototype]: a
    lookup [obj[k]] with one of them finds the inherited member. *)
Definition object_prototype_names : list jsstring :=
  map lit ["constructor"; "toString"; "toLocaleString"; "valueOf";
           "hasOwnProperty"; "isPrototypeOf"; "propertyIsEnumerable";
           "__proto__"; "__defineGetter__"; "__defineSetter__";
           "__lookupGetter__"; "__lookupSetter__"]%string.

Definition inherited (k : jsstring) : bool :=
  existsb (str_eqb k) object_prototype_names.

Inductive Lookup (A : Type) : Type :=
| Own (a : A)
| Inherited
| Missing.

Arguments Own {A} a.
Arguments Inherited {A}.
Arguments Missing {A}.

Definition PROVIDERS (provider : jsstring) : Lookup ProviderConfig :=
  if str_eqb provider (lit "anthropic") then
    Own {| baseUrl := lit "https://api.anthropic.com"; api := AnthropicMessages;
           pc_headers := [(lit "anthropic-version", lit "2023-06-01")] |}
  else if str_eqb provider (lit "kimi-coding") then
    Own {| baseUrl := lit "https://api.kimi.com/coding/v1"; api := OpenAICompletions;
           pc_headers := [(lit "User-Agent", lit "KimiCLI/0.77")] |}
  else if inherited provider then Inherited
  else Missing.

(** ** forwardToAnthropic *)

Definition claude_code_identity : jsstring :=
  lit "You are Claude Code, Anthropic's official CLI for Claude.".

Definition anthropic_headers (tok : jsstring) : list (jsstring * jsstring) :=
  [(lit "Content-Type", lit "application/json");
   (lit "anthropic-version", lit "2023-06-01");
   (lit "accept", lit "application/json")]
  ++ if startsWith (lit "sk-ant-oat") tok then
       [(lit "Authorization", lit "Bearer " ++ tok);
        (lit "anthropic-beta",
         lit "claude-code-20250219,oauth-2025-04-20,fine-grained-tool-streaming-2025-05-14,interleaved-thinking-2025-05-14");
        (lit "user-agent", lit "claude-cli/2.1.2 (external, cli)");
        (lit "x-app", lit "cli");
        (lit "anthropic-dangerous-direct-browser-access", lit "true")]
     else [(lit "x-api-key", tok)].

(** The request sent to [/v1/messages]. *)
Definition anthropic_request (tok : jsstring) (req : ChatRequest)
  (modelName tier : jsstring) (stream : bool) : result AnthropicRequest :=
  match req_messages req with
  | None => Throw TypeError
  | Some msgs =>
      let (systemContent, messages) := convertMessagesToAnthropic msgs in
      let thinkingConfig := getThinkingConfig tier modelName in
      let maxTokens := match req_max_tokens req with Some m => m | None => 4096%Z end in
      tool_choice <-
        match req_tools req, req_tool_choice req with
        | Some (_ :: _), Some tc =>
            c <- convertToolChoiceToAnthropic (Some tc) ;; Ok (Some c)
        | _, _ => Ok None
        end ;;
      Ok {| areq_url := lit "https://api.anthropic.com" ++ lit "/v1/messages";
            areq_headers := anthropic_headers tok;
            areq_model := modelName;
            areq_messages := messages;
            areq_max_tokens :=
              match thinkingConfig with
              | Some (Enabled budget) =>
                  if Z.eqb budget 0 then maxTokens else (maxTokens + budget)%Z
              | _ => maxTokens
              end;
            areq_stream := stream;
            areq_tools :=
              match req_tools req with
              | Some ((_ :: _) as tools) => Some (convertToolsToAnthropic tools)
              | _ => None
              end;
            areq_tool_choice := tool_choice;
            areq_system :=
              if startsWith (lit "sk-ant-oat") tok then
                SystemBlocks (claude_code_identity
                              :: match systemContent with
                                 | [] => []
                                 | _ => [systemContent]
                                 end)
              else match systemContent with
                   | [] => NoSystem
                   | _ => SystemString systemContent
                   end;
            areq_thinking := thinkingConfig;
            areq_temperature :=
              match thinkingConfig with
              | Some _ => None
              | None => req_temperature req
              end |}
  end.

(** The streaming half of [forwardToAnthropic], from [res.writeHead] on:
    the [finally] block ends the response whether the reads end or fail. *)
Definition anthropic_stream (modelName : jsstring) (stream_view : option BodyStream)
  (res : Res) (clock : nat) : Res * nat * result unit :=
  match writeHead 200 sse_headers res with
  | Throw e => (res, clock, Throw e)
  | Ok r1 =>
      match stream_view with
      | None => (r1, clock, Throw (Error (lit "No response body")))
      | Some bs =>
          let (st, ws) := process_reads modelName (initial_stream clock) (bs_values bs) in
          (end_ (write WDone (write_all ws r1)), ticks st,
           match bs_end bs with
           | ReadDone => Ok tt
           | ReadThrows e => Throw e
           end)
      end
  end.

Definition forwardToAnthropic (B : Backend) (req : ChatRequest)
  (modelName tier : jsstring) (stream : bool) (res : Res) (clock : nat)
  : Res * nat * result unit :=
  match getAuth B (lit "anthropic") with
  | Some {| token := Some ((_ :: _) as tok) |} =>
      match anthropic_request tok req modelName tier stream with
      | Throw e => (res, clock, Throw e)
      | Ok areq =>
          match fetch_anthropic B areq with
          | FetchThrows e => (res, clock, Throw e)
          | FetchNotOk status (Throw e) => (res, clock, Throw e)
          | FetchNotOk status (Ok errText) =>
              (res, clock,
               Throw (Error (lit "Anthropic API error " ++ decimal status
                               ++ lit ": " ++ errText)))
          | FetchOk json_view stream_view =>
              if stream then anthropic_stream modelName stream_view res clock
              else
                match json_view with
                | Throw e => (res, clock, Throw e)
                | Ok data =>
                    let (completion, clock1) := anthropic_completion modelName data clock in
                    match writeHead 200 json_headers res with
                    | Throw e => (res, clock1, Throw e)
                    | Ok r1 => (end_ (write (WJson completion) r1), clock1, Ok tt)
                    end
                end
          end
      end
  | _ => (res, clock, Throw (Error (lit "No Anthropic auth token")))
  end.

(** ** forwardToOpenAI *)

(** [if (v.model) v.model = `clawrouter/${modelName}`]. *)
Definition rewrite_model (modelName : jsstring) (v : json) : result json :=
  m <- get (Some v) (lit "model") ;;
  if truthy m then
    match v with
    | JObj fs => Ok (JObj (set_field (lit "model") (JStr (namespaced modelName)) fs))
    | _ => Ok v
    end
  else Ok v.

Definition passthrough_line (modelName : jsstring) (line : jsstring) : Write :=
  if startsWith (lit "data: ") line then
    let jsonStr := trim (slice_from 6 line) in
    if str_eqb jsonStr (lit "[DONE]") then WDone
    else
      match JSON_parse jsonStr with
      | None => WRaw (line ++ [10%N])
      | Some chunk =>
          match rewrite_model modelName chunk with
          | Ok chunk' => WData chunk'
          | Throw _ => WRaw (line ++ [10%N])
          end
      end
  else match trim line with
       | [] => WRaw [10%N]
       | _ => WRaw (line ++ [10%N])
       end.

(** The [while (true)] loop of the pass-through: the writes and the text
    left in the buffer. *)
Fixpoint passthrough_reads (modelName : jsstring) (buf : jsstring) (values : list jsstring)
  : list Write * jsstring :=
  match values with
  | [] => ([], buf)
  | value :: rest =>
      let lines := split_lines (buf ++ value) in
      let (ws, buf') := passthrough_reads modelName (last lines []) rest in
      (map (passthrough_line modelName) (removelast lines) ++ ws, buf')
  end.

Definition openai_stream (modelName : jsstring) (stream_view : option BodyStream)
  (res : Res) : Res * result unit :=
  match writeHead 200 sse_headers res with
  | Throw e => (res, Throw e)
  | Ok r1 =>
      match stream_view with
      | None => (r1, Throw (Error (lit "No response body")))
      | Some bs =>
          let r2 := write_all (fst (passthrough_reads modelName [] (bs_values bs))) r1 in
          (if writableEnded r2 then r2 else end_ (write WDone r2),
           match bs_end bs with
           | ReadDone => Ok tt
           | ReadThrows e => Throw e
           end)
      end
  end.

Definition forwardToOpenAI (B : Backend) (req : ChatRequest)
  (provider modelName tier : jsstring) (stream : bool) (res : Res)
  : Res * result unit :=
  match getAuth B provider with
  | Some {| apiKey := Some ((_ :: _) as key) |} =>
      match PROVIDERS provider with
      | Missing => (res, Throw (Error (lit "Unknown provider: " ++ provider)))
      | Inherited =>
          (* [config.baseUrl] is [undefined]: [fetch] rejects the URL *)
          (res, Throw TypeError)
      | Own config =>
          match fetch_openai B
                  {| oreq_url := baseUrl config ++ lit "/chat/completions";
                     oreq_headers :=
                       fold_left (fun acc h => set_field (fst h) (snd h) acc)
                         (pc_headers config)
                         [(lit "Content-Type", lit "application/json");
                          (lit "Authorization", lit "Bearer " ++ key)];
                     oreq_model := modelName;
                     oreq_messages := req_messages req;
                     oreq_stream := stream;
                     oreq_max_tokens :=
                       match req_max_tokens req with
                       | Some m => if Z.eqb m 0 then None else Some m
                       | None => None
                       end;
                     oreq_temperature := req_temperature req;
                     oreq_top_p := req_top_p req |}
          with
          | FetchThrows e => (res, Throw e)
          | FetchNotOk status (Throw e) => (res, Throw e)
          | FetchNotOk status (Ok errText) =>
              (res, Throw (Error (provider ++ lit " API error " ++ decimal status
                                    ++ lit ": " ++ errText)))
          | FetchOk json_view stream_view =>
              if stream then openai_stream modelName stream_view res
              else
                match json_view with
                | Throw e => (res, Throw e)
                | Ok data =>
                    match rewrite_model modelName data with
                    | Throw e => (res, Throw e)
                    | Ok data' =>
                        match writeHead 200 json_headers res with
                        | Throw e => (res, Throw e)
                        | Ok r1 => (end_ (write (WJson data') r1), Ok tt)
                        end
                    end
                end
          end
      end
  | _ => (res, Throw (Error (lit "No API key for " ++ provider)))
  end.

(** ** forwardRequest *)

Definition forwardRequest (B : Backend) (chatReq : ChatRequest)
  (routedModel tier : jsstring) (stream : bool) (res : Res) (clock : nat)
  : Res * nat * result unit :=
  let (provider, model) := parseModelId routedModel in
  match PROVIDERS provider with
  | Missing => (res, clock, Throw (Error (lit "Unsupported provider: " ++ provider)))
  | Own {| api := AnthropicMessages |} =>
      forwardToAnthropic B chatReq model tier stream res clock
  | _ =>
      let (res', outcome) := forwardToOpenAI B chatReq provider model tier stream res in
      (res', clock, outcome)
  end.

End WithRuntime.

Arguments FetchThrows {J} e.
Arguments FetchNotOk {J} status text.
Arguments FetchOk {J} json_view stream_view.
Arguments Own {A} a.
Arguments Inherited {A}.
Arguments Missing {A}.

End Provider.

(** The revision of provider.ts that precedes tool calls (src/provider.ts
    in the source tree): the same loop over the reads and the lines, an
    event handler that knows text and thinking blocks only, and a
    completion without [tool_calls]. *)
Module ProviderWithoutTools.

Import Provider.

Section WithRuntime.

Context {RT : Runtime}.

(** The chunk literal of the text branch and of the [message_stop] branch. *)
Definition chunk (modelName : jsstring) (delta finish : json) (clock : nat)
  : json * nat :=
  (JObj [(lit "id", JStr (lit "chatcmpl-" ++ decimal (Date_now clock)));
         (lit "object", JStr (lit "chat.completion.chunk"));
         (lit "created", JNum (Date_now (S clock) / 1000));
         (lit "model", JStr (namespaced modelName));
         (lit "choices",
          JArr [JObj [(lit "index", JNum 0);
                      (lit "delta", delta);
                      (lit "finish_reason", finish)]])],
   S (S clock)).

(** The body of the inner [try]: the state is [insideThinking] and the
    count of [Date.now()] calls. *)
Definition handle_event (modelName : jsstring) (st : bool * nat) (event : json)
  : result (bool * nat * list Write) :=
  let (insideThinking, clock) := st in
  ty <- get (Some event) (lit "type") ;;
  if is_str ty (lit "content_block_start") then
    block <- get (Some event) (lit "content_block") ;;
    bty <- get_opt block (lit "type") ;;
    Ok (is_str bty (lit "thinking"), clock, [])
  else if is_str ty (lit "content_block_stop") then Ok (false, clock, [])
  else if is_str ty (lit "content_block_delta") then
    if insideThinking then Ok (st, [])
    else
      delta <- get (Some event) (lit "delta") ;;
      text <- get_opt delta (lit "text") ;;
      match text with
      | Some t =>
          if truthy text
          then let (c, clock1) := chunk modelName (JObj [(lit "content", t)]) JNull clock in
               Ok (insideThinking, clock1, [WData c])
          else Ok (st, [])
      | None => Ok (st, [])
      end
  else if is_str ty (lit "message_stop") then
    let (c, clock1) := chunk modelName (JObj []) (JStr (lit "stop")) clock in
    Ok (insideThinking, clock1, [WData c])
  else Ok (st, []).

Definition completion (modelName : jsstring) (data : AnthropicResponse) (clock : nat)
  : json * nat :=
  let textContent :=
    List.concat (map (fun b => match cb_text b with Some t => t | None => [] end)
                     (filter (fun b => str_eqb (cb_type b) (lit "text")) (ar_content data))) in
  let input_tokens := match ar_usage data with Some (i, _) => i | None => 0%Z end in
  let output_tokens := match ar_usage data with Some (_, o) => o | None => 0%Z end in
  (JObj [(lit "id", JStr (lit "chatcmpl-" ++ decimal (Date_now clock)));
         (lit "object", JStr (lit "chat.completion"));
         (lit "created", JNum (Date_now (S clock) / 1000));
         (lit "model", JStr (namespaced modelName));
         (lit "choices",
          JArr [JObj [(lit "index", JNum 0);
                      (lit "message",
                       JObj [(lit "role", JStr (lit "assistant"));
                             (lit "content", JStr textContent)]);
                      (lit "finish_reason",
                       JStr (match ar_stop_reason data with
                             | Some r => if str_eqb r (lit "end_turn") then lit "stop" else r
                             | None => lit "stop"
                             end))]]);
         (lit "usage",
          JObj [(lit "prompt_tokens", JNum input_tokens);
                (lit "completion_tokens", JNum output_tokens);
                (lit "total_tokens", JNum (input_tokens + output_tokens))])],
   S (S clock)).

End WithRuntime.

End ProviderWithoutTools.

(* ===================================================================== *)
(** * router/: tiers, model selection and [route]                         *)
(* ===================================================================== *)

Module Router.

Inductive Tier : Type :=
| SIMPLE
| MEDIUM
| COMPLEX
| REASONING.

Definition tier_name (t : Tier) : jsstring :=
  match t with
  | SIMPLE => lit "SIMPLE"
  | MEDIUM => lit "MEDIUM"
  | COMPLEX => lit "COMPLEX"
  | REASONING => lit "REASONING"
  end.

(** [tierRank] of [route]. *)
Definition tierRank (t : Tier) : Z :=
  match t with
  | SIMPLE => 0%Z
  | MEDIUM => 1%Z
  | COMPLEX => 2%Z
  | REASONING => 3%Z
  end.

Record TierConfig : Type := {
  primary : jsstring;
  fallback : list jsstring
}.

(** [Record<Tier, TierConfig>] as the configuration file fills it: a tier
    may be missing. *)
Definition TierTable : Type := Tier -> option TierConfig.

Record OverridesConfig : Type := {
  maxTokensForceComplex : Z;
  structuredOutputMinTier : Tier;
  ambiguousDefaultTier : Tier;
  agenticMode : option bool
}.

(** [ScoringResult], over the type of its numbers. *)
Record ScoringResult (number : Type) : Type := {
  score : number;
  tier : option Tier;
  confidence : number;
  signals : list jsstring;
  agenticScore : option number
}.

(** The numbers of the scorer and of the cost estimate are IEEE doubles;
    they are kept abstract, with the constants and operations [route] and
    [selectModel] use.  The classifier [classifyByRules] (router/rules.ts)
    is a parameter as well. *)
Class Scorer : Type := {
  number : Type;
  ScoringConfig : Type;
  num_of_Z : Z -> number;
  num_0_95 : number;
  num_0_5 : number;
  num_add : number -> number -> number;
  num_sub : number -> number -> number;
  num_mul : number -> number -> number;
  num_div : number -> number -> number;
  num_gtb : number -> number -> bool;
  (** [x >= 0.69] *)
  num_ge_0_69 : number -> bool;
  (** [Math.max(0, x)] *)
  num_max0 : number -> number;
  (** [x.toFixed(2)] *)
  toFixed2 : number -> jsstring;
  classifyByRules : jsstring -> option jsstring -> Z -> ScoringConfig
                    -> ScoringResult number
}.

Section WithScorer.

Context {SC : Scorer}.

Record RoutingConfig : Type := {
  scoring : ScoringConfig;
  tiers : TierTable;
  agenticTiers : option TierTable;
  overrides : OverridesConfig
}.

Record ModelPricing : Type := {
  inputPrice : number;
  outputPrice : number
}.

Record RouterOptions : Type := {
  config : RoutingConfig;
  modelPricing : jsstring -> option ModelPricing
}.

Record RoutingDecision : Type := {
  rd_model : jsstring;
  rd_tier : Tier;
  rd_confidence : number;
  rd_method : jsstring;
  rd_reasoning : jsstring;
  rd_costEstimate : number;
  rd_baselineCost : number;
  rd_savings : number
}.

(** ** selector.ts *)

Definition selectModel (t : Tier) (conf : number) (method reasoning : jsstring)
  (tierConfigs : TierTable) (pricing : jsstring -> option ModelPricing)
  (estimatedInputTokens maxOutputTokens : Z) : result RoutingDecision :=
  match tierConfigs t with
  | None => Throw TypeError
  | Some tierConfig =>
      let model := primary tierConfig in
      let million := num_of_Z 1000000%Z in
      let price (p : option ModelPricing) (f : ModelPricing -> number) (d : Z) :=
        match p with Some x => f x | None => num_of_Z d end in
      let cost (inP outP : number) :=
        num_add (num_mul (num_div (num_of_Z estimatedInputTokens) million) inP)
                (num_mul (num_div (num_of_Z maxOutputTokens) million) outP) in
      let costEstimate :=
        cost (price (pricing model) inputPrice 0%Z) (price (pricing model) outputPrice 0%Z) in
      let opus := pricing (lit "anthropic/claude-opus-4-6") in
      let baselineCost := cost (price opus inputPrice 15%Z) (price opus outputPrice 75%Z) in
      Ok {| rd_model := model; rd_tier := t; rd_confidence := conf;
            rd_method := method; rd_reasoning := reasoning;
            rd_costEstimate := costEstimate;
            rd_baselineCost := baselineCost;
            rd_savings :=
              if num_gtb baselineCost (num_of_Z 0%Z)
              then num_max0 (num_div (num_sub baselineCost costEstimate) baselineCost)
              else num_of_Z 0%Z |}
  end.

Definition getFallbackChain (t : Tier) (tierConfigs : TierTable) : result (list jsstring) :=
  match tierConfigs t with
  | None => Throw TypeError
  | Some c => Ok (primary c :: fallback c)
  end.

(** ** index.ts *)

(** [Math.ceil(length / 4)]. *)
Definition estimate_tokens (length : nat) : Z := ((Z.of_nat length + 3) / 4)%Z.

(** [/json|structured|schema/i.test(s)]. *)
Definition structured_output_regex (s : jsstring) : bool :=
  includes_ci (lit "json") s || includes_ci (lit "structured") s
  || includes_ci (lit "schema") s.

Definition route (prompt : jsstring) (systemPrompt : option jsstring)
  (maxOutputTokens : Z) (options : RouterOptions) : result RoutingDecision :=
  let cfg := config options in
  let estimatedUserTokens := estimate_tokens (List.length prompt) in
  let estimatedTotalTokens :=
    estimate_tokens
      (List.length (match systemPrompt with Some s => s | None => [] end) + 1
         + List.length prompt) in
  let ruleResult := classifyByRules prompt systemPrompt estimatedUserTokens (scoring cfg) in
  let isAutoAgentic :=
    match agenticScore ruleResult with
    | Some a => num_ge_0_69 a
    | None => num_ge_0_69 (num_of_Z 0%Z)
    end in
  let isExplicitAgentic :=
    match agenticMode (overrides cfg) with Some b => b | None => false end in
  let useAgenticTiers :=
    (isAutoAgentic || isExplicitAgentic)
    && match agenticTiers cfg with Some _ => true | None => false end in
  let tierConfigs :=
    match agenticTiers cfg with
    | Some a => if useAgenticTiers then a else tiers cfg
    | None => tiers cfg
    end in
  if (maxTokensForceComplex (overrides cfg) <? estimatedTotalTokens)%Z then
    selectModel COMPLEX num_0_95 (lit "rules")
      (lit "Input exceeds " ++ decimal (maxTokensForceComplex (overrides cfg))
         ++ lit " tokens" ++ (if useAgenticTiers then lit " | agentic" else []))
      tierConfigs (modelPricing options) estimatedTotalTokens maxOutputTokens
  else
    let hasStructuredOutput := structured_output_regex prompt in
    let reasoning0 :=
      lit "score=" ++ toFixed2 (score ruleResult) ++ lit " | "
        ++ join (lit ", ") (signals ruleResult) in
    let '(tier1, conf, reasoning1) :=
      match tier ruleResult with
      | Some t => (t, confidence ruleResult, reasoning0)
      | None =>
          let t := ambiguousDefaultTier (overrides cfg) in
          (t, num_0_5, reasoning0 ++ lit " | ambiguous -> default: " ++ tier_name t)
      end in
    let minTier := structuredOutputMinTier (overrides cfg) in
    let '(tier2, reasoning2) :=
      if hasStructuredOutput && (tierRank tier1 <? tierRank minTier)%Z
      then (minTier,
            reasoning1 ++ lit " | upgraded to " ++ tier_name minTier
              ++ lit " (structured output)")
      else (tier1, reasoning1) in
    let reasoning3 :=
      if isAutoAgentic then reasoning2 ++ lit " | auto-agentic"
      else if isExplicitAgentic then reasoning2 ++ lit " | agentic"
      else reasoning2 in
    selectModel tier2 conf (lit "rules") reasoning3
      tierConfigs (modelPricing options) estimatedTotalTokens maxOutputTokens.

End WithScorer.

End Router.

(** The revision of router/index.ts that precedes the structured-output
    fix of release 1.2.0: one token estimate for everything, and the
    structured-output pattern tested on the system prompt. *)
Module RouterBefore_1_2_0.

Import Router.

Section WithScorer.

Context {SC : Scorer}.

Definition route (prompt : jsstring) (systemPrompt : option jsstring)
  (maxOutputTokens : Z) (options : RouterOptions) : result RoutingDecision :=
  let cfg := config options in
  let estimatedTokens :=
    estimate_tokens
      (List.length (match systemPrompt with Some s => s | None => [] end) + 1
         + List.length prompt) in
  let ruleResult := classifyByRules prompt systemPrompt estimatedTokens (scoring cfg) in
  let isAutoAgentic :=
    match agenticScore ruleResult with
    | Some a => num_ge_0_69 a
    | None => num_ge_0_69 (num_of_Z 0%Z)
    end in
  let isExplicitAgentic :=
    match agenticMode (overrides cfg) with Some b => b | None => false end in
  let useAgenticTiers :=
    (isAutoAgentic || isExplicitAgentic)
    && match agenticTiers cfg with Some _ => true | None => false end in
  let tierConfigs :=
    match agenticTiers cfg with
    | Some a => if useAgenticTiers then a else tiers cfg
    | None => tiers cfg
    end in
  if (maxTokensForceComplex (overrides cfg) <? estimatedTokens)%Z then
    selectModel COMPLEX num_0_95 (lit "rules")
      (lit "Input exceeds " ++ decimal (maxTokensForceComplex (overrides cfg))
         ++ lit " tokens" ++ (if useAgenticTiers then lit " | agentic" else []))
      tierConfigs (modelPricing options) estimatedTokens maxOutputTokens
  else
    let hasStructuredOutput :=
      match systemPrompt with
      | Some ((_ :: _) as s) => structured_output_regex s
      | _ => false
      end in
    let reasoning0 :=
      lit "score=" ++ toFixed2 (score ruleResult) ++ lit " | "
        ++ join (lit ", ") (signals ruleResult) in
    let '(tier1, conf, reasoning1) :=
      match tier ruleResult with
      | Some t => (t, confidence ruleResult, reasoning0)
      | None =>
          let t := ambiguousDefaultTier (overrides cfg) in
          (t, num_0_5, reasoning0 ++ lit " | ambiguous -> default: " ++ tier_name t)
      end in
    let minTier := structuredOutputMinTier (overrides cfg) in
    let '(tier2, reasoning2) :=
      if hasStructuredOutput && (tierRank tier1 <? tierRank minTier)%Z
      then (minTier,
            reasoning1 ++ lit " | upgraded to " ++ tier_name minTier
              ++ lit " (structured output)")
      else (tier1, reasoning1) in
    let reasoning3 :=
      if isAutoAgentic then reasoning2 ++ lit " | auto-agentic"
      else if isExplicitAgentic then reasoning2 ++ lit " | agentic"
      else reasoning2 in
    selectModel tier2 conf (lit "rules") reasoning3
      tierConfigs (modelPricing options) estimatedTokens maxOutputTokens.

End WithScorer.

End RouterBefore_1_2_0.

(* ===================================================================== *)
(** * config.ts: the configuration file                                   *)
(* ===================================================================== *)

Module Config.

Definition str (s : string) : json := JStr (lit s).

Definition tier_mapping (primary fallback : string) : json :=
  JObj [(lit "primary", str primary); (lit "fallback", JArr [str fallback])].

Definition default_tiers : json :=
  JObj [(lit "SIMPLE", tier_mapping "kimi-coding/kimi-for-coding" "anthropic/claude-haiku-4-5");
        (lit "MEDIUM", tier_mapping "anthropic/claude-sonnet-4-5" "anthropic/claude-opus-4-6");
        (lit "COMPLEX", tier_mapping "anthropic/claude-opus-4-6" "anthropic/claude-haiku-4-5");
        (lit "REASONING", tier_mapping "anthropic/claude-opus-4-6" "anthropic/claude-haiku-4-5")].

Definition DEFAULT_CONFIG : list (jsstring * json) :=
  [(lit "port", JNum 18800);
   (lit "host", str "127.0.0.1");
   (lit "providers",
    JObj [(lit "anthropic",
           JObj [(lit "baseUrl", str "https://api.anthropic.com");
                 (lit "api", str "anthropic")]);
          (lit "kimi-coding",
           JObj [(lit "baseUrl", str "https://api.kimi.com/coding/v1");
                 (lit "api", str "openai");
                 (lit "headers", JObj [(lit "User-Agent", str "KimiCLI/0.77")])])]);
   (lit "tiers", default_tiers);
   (lit "agenticTiers", default_tiers);
   (lit "thinking",
    JObj [(lit "adaptive", JArr [str "claude-opus-4-6"; str "claude-opus-4.6"]);
          (lit "enabled",
           JObj [(lit "models", JArr [str "claude-sonnet-4-5"]);
                 (lit "budget", JNum 4096)])]);
   (lit "auth",
    JObj [(lit "default", str "openclaw");
          (lit "openclaw",
           JObj [(lit "type", str "openclaw");
                 (lit "profilesPath",
                  str "~/.openclaw/agents/main/agent/auth-profiles.json")])])].

(** ** deepMerge *)

(** What [deepMerge] stores under a key whose source value is [sv] and
    whose target value is [tv]: the merge of the two when both are plain
    objects, [sv] otherwise. *)
Fixpoint merge_value (tv : option json) (sv : json) {struct sv} : json :=
  match sv, tv with
  | JObj sfs, Some (JObj tfs) =>
      JObj ((fix go (fs acc : list (jsstring * json)) {struct fs}
               : list (jsstring * json) :=
               match fs with
               | [] => acc
               | (k, v) :: rest =>
                   go rest (set_field k (merge_value (assoc k tfs) v) acc)
               end) sfs tfs)
  | _, _ => sv
  end.

(** [deepMerge(target, source)] on the own properties of two objects, by
    key.  The lists keep the order in which the keys were added;
    JavaScript enumerates a key that is an array index before the others,
    and an assignment to [__proto__] sets the prototype and adds no
    property: neither is expressed here, and neither changes what is
    found under any other key. *)
Definition deepMerge (target source : list (jsstring * json)) : list (jsstring * json) :=
  fold_left (fun result kv => set_field (fst kv) (merge_value (assoc (fst kv) target) (snd kv)) result)
            source target.

Fixpoint indexed (A : Type) (i : nat) (l : list A) : list (jsstring * A) :=
  match l with
  | [] => []
  | a :: r => (decimal (Z.of_nat i), a) :: indexed (S i) r
  end.

(** [Object.keys(v)] with the values under them; it throws on [null]. *)
Definition own_entries (v : json) : result (list (jsstring * json)) :=
  match v with
  | JNull => Throw TypeError
  | JBool _ | JNum _ => Ok []
  | JStr s => Ok (indexed 0 (map (fun c => JStr [c]) s))
  | JArr l => Ok (indexed 0 l)
  | JObj fs => Ok fs
  end.

(** ** The file system and the environment *)

Record FsEnv : Type := {
  FREEROUTER_CONFIG : option jsstring;
  cwd : jsstring;
  homedir : jsstring;
  existsSync : jsstring -> bool;
  readFileSync : jsstring -> result jsstring
}.

(** [path.join] of plain segments. *)
Definition path_join (segments : list jsstring) : jsstring := join (lit "/") segments.

Definition findConfigFile (fs : FsEnv) : option jsstring :=
  let cwdPath := path_join [cwd fs; lit "freerouter.config.json"] in
  let homePath := path_join [homedir fs; lit ".config"; lit "freerouter"; lit "config.json"] in
  match FREEROUTER_CONFIG fs with
  | Some ((_ :: _) as envPath) =>
      if existsSync fs envPath then Some envPath
      else if existsSync fs cwdPath then Some cwdPath
      else if existsSync fs homePath then Some homePath
      else None
  | _ =>
      if existsSync fs cwdPath then Some cwdPath
      else if existsSync fs homePath then Some homePath
      else None
  end.

(** ** The singleton *)

Record ConfigState : Type := {
  _config : option (list (jsstring * json));
  _configPath : option jsstring
}.

Definition defaults_state : ConfigState :=
  {| _config := Some DEFAULT_CONFIG; _configPath := None |}.

Section WithRuntime.

Context {RT : Runtime}.

(** The body of the [try] in [loadConfig]: read, parse, merge, and the two
    log lines that list [Object.keys] of the merged providers and tiers. *)
Definition load_from (fs : FsEnv) (configPath : jsstring)
  : result (list (jsstring * json)) :=
  raw <- readFileSync fs configPath ;;
  fileConfig <- match JSON_parse raw with
                | Some v => Ok v
                | None => Throw SyntaxError
                end ;;
  entries <- own_entries fileConfig ;;
  let merged := deepMerge DEFAULT_CONFIG entries in
  _ <- own_entries (nullish (assoc (lit "providers") merged) JNull) ;;
  _ <- own_entries (nullish (assoc (lit "tiers") merged) JNull) ;;
  Ok merged.

(** [loadConfig]: every path assigns both variables of the singleton. *)
Definition loadConfig (fs : FsEnv) (st : ConfigState) : ConfigState :=
  match findConfigFile fs with
  | None => defaults_state
  | Some configPath =>
      match load_from fs configPath with
      | Ok merged => {| _config := Some merged; _configPath := Some configPath |}
      | Throw _ => defaults_state
      end
  end.

Definition reloadConfig (fs : FsEnv) (st : ConfigState) : ConfigState :=
  loadConfig fs {| _config := None; _configPath := _configPath st |}.

(** [getConfig]: the state after the call and the configuration returned. *)
Definition getConfig (fs : FsEnv) (st : ConfigState)
  : ConfigState * list (jsstring * json) :=
  match _config st with
  | Some c => (st, c)
  | None =>
      let st' := loadConfig fs st in
      (st', match _config st' with Some c => c | None => DEFAULT_CONFIG end)
  end.

End WithRuntime.

End Config.

(* ===================================================================== *)
(** * server.ts: the request lifecycle                                    *)
(* ===================================================================== *)

Module Server.

Import Provider Router.

(** ** extractPromptForClassification *)

(** The text of a message: a string as it is, the [text] parts of a list
    joined by line feeds. *)
Definition message_text (c : Content) : jsstring :=
  match c with
  | CString s => s
  | CNull => []
  | CParts ps => parts_text [10%N] ps
  end.

(** [l.slice(-n)]. *)
Definition last_n (A : Type) (n : nat) (l : list A) : list A :=
  skipn (List.length l - n) l.

Definition extractPromptForClassification (messages : list ChatMessage)
  : jsstring * option jsstring :=
  let contextWindow := 3 in
  let '(systemPrompt, conversationMsgs) :=
    fold_left
      (fun (acc : option jsstring * list (jsstring * jsstring)) msg =>
         let text := message_text (content msg) in
         if str_eqb (role msg) (lit "system") || str_eqb (role msg) (lit "developer")
         then (Some (match fst acc with
                     | Some ((_ :: _) as sp) => sp ++ [10%N]
                     | _ => []
                     end ++ text),
               snd acc)
         else (fst acc, snd acc ++ [(role msg, text)]))
      messages (None, []) in
  let recentMsgs := last_n contextWindow conversationMsgs in
  let lastUserMsg :=
    match rev (filter (fun m => str_eqb (fst m) (lit "user")) recentMsgs) with
    | m :: _ => snd m
    | [] => []
    end in
  let contextParts :=
    map (fun m => slice_to 500 (snd m))
        (filter (fun m => negb (str_eqb (snd m) lastUserMsg)) recentMsgs) in
  (match contextParts with
   | [] => lastUserMsg
   | _ => join [10%N] contextParts ++ [10%N] ++ lastUserMsg
   end,
   systemPrompt).

(** ** detectModeOverride *)

(** [modeMap[mode]] is read from an object literal: besides the eleven own
    keys it finds the members inherited from [Object.prototype]. *)
Definition modeMap (mode : jsstring) : Lookup Tier :=
  if str_eqb mode (lit "simple") || str_eqb mode (lit "basic")
     || str_eqb mode (lit "cheap") then Own SIMPLE
  else if str_eqb mode (lit "medium") || str_eqb mode (lit "balanced") then Own MEDIUM
  else if str_eqb mode (lit "complex") || str_eqb mode (lit "advanced") then Own COMPLEX
  else if str_eqb mode (lit "max") || str_eqb mode (lit "reasoning")
          || str_eqb mode (lit "think") || str_eqb mode (lit "deep") then Own REASONING
  else if inherited mode then Inherited
  else Missing.

(** The three patterns.  Each is anchored at the start, and the character
    classes that follow one another are disjoint, so the greedy match is
    the only one: the result is the captured word and the length of the
    whole match. *)

(** [/^\/([a-z]+)\s+/i]. *)
Definition match_slash (prompt : jsstring) : option (jsstring * nat) :=
  match prompt with
  | c :: r =>
      if N.eqb c 47 then
        match takeWhile is_letter r, takeWhile is_space (dropWhile is_letter r) with
        | (_ :: _) as w, (_ :: _) as ws => Some (w, 1 + List.length w + List.length ws)
        | _, _ => None
        end
      else None
  | [] => None
  end.

(** [[:\s,]]. *)
Definition is_mode_sep (c : N) : bool := N.eqb c 58 || is_space c || N.eqb c 44.

(** [/^([a-z]+)\s+mode[:\s,]+/i]. *)
Definition match_prefix (prompt : jsstring) : option (jsstring * nat) :=
  let w := takeWhile is_letter prompt in
  let r1 := dropWhile is_letter prompt in
  let ws := takeWhile is_space r1 in
  let r2 := dropWhile is_space r1 in
  if startsWith_ci (lit "mode") r2 then
    match w, ws, takeWhile is_mode_sep (skipn 4 r2) with
    | _ :: _, _ :: _, (_ :: _) as sep =>
        Some (w, List.length w + List.length ws + 4 + List.length sep)
    | _, _, _ => None
    end
  else None.

(** [/^\[([a-z]+)\]\s*/i]. *)
Definition match_bracket (prompt : jsstring) : option (jsstring * nat) :=
  match prompt with
  | c :: r =>
      if N.eqb c 91 then
        match takeWhile is_letter r, dropWhile is_letter r with
        | (_ :: _) as w, c' :: r1 =>
            if N.eqb c' 93
            then Some (w, 1 + List.length w + 1 + List.length (takeWhile is_space r1))
            else None
        | _, _ => None
        end
      else None
  | [] => None
  end.

(** The [tier] field of the result: a tier name for an own key of
    [modeMap], the inherited member otherwise. *)
Inductive ModeTier : Type :=
| TierName (t : Tier)
| InheritedMember (name : jsstring).

Record ModeOverride : Type := {
  mo_tier : ModeTier;
  cleanedPrompt : jsstring
}.

(** One of the three [if (m) { ... if (modeMap[mode]) return ... }] blocks. *)
Definition override_of (prompt : jsstring) (m : option (jsstring * nat))
  : option ModeOverride :=
  match m with
  | None => None
  | Some (word, len) =>
      let mode := toLowerCase word in
      let cleaned := trim (slice_from len prompt) in
      match modeMap mode with
      | Own t => Some {| mo_tier := TierName t; cleanedPrompt := cleaned |}
      | Inherited => Some {| mo_tier := InheritedMember mode; cleanedPrompt := cleaned |}
      | Missing => None
      end
  end.

Definition detectModeOverride (prompt : jsstring) : option ModeOverride :=
  match override_of prompt (match_slash prompt) with
  | Some r => Some r
  | None =>
      match override_of prompt (match_prefix prompt) with
      | Some r => Some r
      | None => override_of prompt (match_bracket prompt)
      end
  end.

(** ** Statistics *)

Record Stats : Type := {
  requests : Z;
  errors : Z;
  timeouts : Z;
  byTier : list (jsstring * Z);
  byModel : list (jsstring * Z)
}.

(** [m[k] = (m[k] ?? 0) + 1]. *)
Definition bump (k : jsstring) (m : list (jsstring * Z)) : list (jsstring * Z) :=
  set_field k (match assoc k m with Some n => (n + 1)%Z | None => 1%Z end) m.

Definition count_request (tier routedModel : jsstring) (s : Stats) : Stats :=
  {| requests := (requests s + 1)%Z; errors := errors s; timeouts := timeouts s;
     byTier := bump tier (byTier s); byModel := bump routedModel (byModel s) |}.

Definition count_timeout (s : Stats) : Stats :=
  {| requests := requests s; errors := errors s; timeouts := (timeouts s + 1)%Z;
     byTier := byTier s; byModel := byModel s |}.

Definition count_error (s : Stats) : Stats :=
  {| requests := requests s; errors := (errors s + 1)%Z; timeouts := timeouts s;
     byTier := byTier s; byModel := byModel s |}.

Definition is_timeout (e : error) : bool :=
  match e with
  | TimeoutError _ => true
  | _ => false
  end.

Section WithRuntime.

Context {RT : Runtime} {SC : Scorer}.

(** ** sendError *)

Definition error_body (status : Z) (message type : jsstring) : json :=
  JObj [(lit "error",
         JObj [(lit "message", JStr message);
               (lit "type", JStr type);
               (lit "code", JNum status)])].

Definition sendError (status : Z) (message type : jsstring) (res : Res) : result Res :=
  r <- writeHead status json_headers res ;;
  Ok (end_ (write (WJson (error_body status message type)) r)).

(** ** The fallback loop of handleChatCompletions *)

Inductive LoopEnd : Type :=
| Succeeded
| Failed (lastError : jsstring).

(** [for (const modelToTry of modelsToTry) { try { ... } catch { ... } }]. *)
Fixpoint try_models (B : Backend) (chatReq : ChatRequest) (routedModel tier : jsstring)
  (stream : bool) (modelsToTry : list jsstring) (lastError : jsstring)
  (stats : Stats) (res : Res) (clock : nat) : Stats * Res * nat * LoopEnd :=
  match modelsToTry with
  | [] => (stats, res, clock, Failed lastError)
  | modelToTry :: rest =>
      let attempt :=
        match (if str_eqb modelToTry routedModel then Ok res
               else setHeader (lit "X-ClawRouter-Model") modelToTry res) with
        | Throw e => (res, clock, Throw e)
        | Ok r0 => forwardRequest B chatReq modelToTry tier stream r0 clock
        end in
      match attempt with
      | (res1, clock1, Ok _) => (stats, res1, clock1, Succeeded)
      | (res1, clock1, Throw err) =>
          let stats1 := if is_timeout err then count_timeout stats else stats in
          if headersSent res1
          then (stats1, res1, clock1, Failed (error_message err))
          else try_models B chatReq routedModel tier stream rest (error_message err)
                 stats1 res1 clock1
      end
  end.

(** What follows the loop when no attempt succeeded. *)
Definition fail_response (lastError : jsstring) (res : Res) : result Res :=
  if negb (headersSent res) then
    sendError 502 (lit "Backend error: " ++ lastError) (lit "upstream_error") res
  else if negb (writableEnded res) then
    Ok (end_ (write WDone
                (write (WData (JObj [(lit "error",
                                      JObj [(lit "message", JStr lastError)])]))
                       res)))
  else Ok res.

(** [modelsToTry]: the routed model, then the fallbacks of its tier. *)
Definition models_to_try (routingCfg : RoutingConfig) (routedModel : jsstring)
  (tier : option Tier) : list jsstring :=
  routedModel
  :: match tier with
     | None => []
     | Some t =>
         match tiers routingCfg t with
         | Some tierConfig =>
             filter (fun fb => negb (str_eqb fb routedModel)) (fallback tierConfig)
         | None => []
         end
     end.

Definition is_auto (requestedModel : jsstring) : bool :=
  str_eqb requestedModel (lit "auto") || str_eqb requestedModel (lit "clawrouter/auto")
  || str_eqb requestedModel (lit "blockrun/auto").

(** The routing step: the routed model, the tier ([None] for an explicit
    model) and the reasoning. *)
Definition choose_model (routingCfg : RoutingConfig)
  (pricing : jsstring -> option ModelPricing)
  (requestedModel prompt : jsstring) (systemPrompt : option jsstring) (maxTokens : Z)
  : result (jsstring * option Tier * jsstring) :=
  if is_auto requestedModel then
    match detectModeOverride prompt with
    | Some modeOverride =>
        match mo_tier modeOverride with
        | TierName t =>
            Ok (match tiers routingCfg t with
                | Some tierConfig => primary tierConfig
                | None => lit "anthropic/claude-opus-4-6"
                end,
                Some t,
                lit "user-mode: " ++ toLowerCase (tier_name t))
        | InheritedMember _ =>
            (* [modeOverride.tier.toLowerCase] is not a function *)
            Throw TypeError
        end
    | None =>
        decision <- route prompt systemPrompt maxTokens
                      {| config := routingCfg; modelPricing := pricing |} ;;
        Ok (rd_model decision, Some (rd_tier decision), rd_reasoning decision)
    end
  else
    Ok (requestedModel, None, lit "explicit model: " ++ requestedModel).

Definition tier_label (tier : option Tier) : jsstring :=
  match tier with
  | Some t => tier_name t
  | None => lit "EXPLICIT"
  end.

(** The three [res.setHeader] calls that follow the routing: the response
    keeps the headers set before a call that throws. *)
Definition set_routing_headers (routedModel tier reasoning : jsstring) (res : Res)
  : Res * result unit :=
  match setHeader (lit "X-ClawRouter-Model") routedModel res with
  | Throw e => (res, Throw e)
  | Ok r1 =>
      match setHeader (lit "X-ClawRouter-Tier") tier r1 with
      | Throw e => (r1, Throw e)
      | Ok r2 =>
          match setHeader (lit "X-ClawRouter-Reasoning") (slice_to 200 reasoning) r2 with
          | Throw e => (r2, Throw e)
          | Ok r3 => (r3, Ok tt)
          end
      end
  end.

(** ** handleChatCompletions

    [body] is the parsed request body, [None] when [JSON.parse] throws;
    [routingCfg] is what [getRoutingConfig()] returns during the request. *)
Definition handleChatCompletions (B : Backend) (routingCfg : RoutingConfig)
  (pricing : jsstring -> option ModelPricing) (body : option ChatRequest)
  (stats : Stats) (res : Res) (clock : nat) : Stats * Res * nat * result unit :=
  let reject (message : jsstring) :=
    match sendError 400 message (lit "server_error") res with
    | Ok r => (stats, r, clock, Ok tt)
    | Throw e => (stats, res, clock, Throw e)
    end in
  match body with
  | None => reject (lit "Invalid JSON body")
  | Some chatReq =>
      match req_model chatReq, req_messages chatReq with
      | Some ((_ :: _) as requestedModel), Some ((_ :: _) as messages) =>
          let stream := match req_stream chatReq with Some b => b | None => false end in
          let maxTokens := match req_max_tokens chatReq with Some m => m | None => 4096%Z end in
          let (prompt, systemPrompt) := extractPromptForClassification messages in
          match prompt with
          | [] => reject (lit "No user message found")
          | _ =>
              match choose_model routingCfg pricing requestedModel prompt systemPrompt maxTokens with
              | Throw e => (stats, res, clock, Throw e)
              | Ok (routedModel, tier, reasoning) =>
                  let stats1 := count_request (tier_label tier) routedModel stats in
                  match set_routing_headers routedModel (tier_label tier) reasoning res with
                  | (r, Throw e) => (stats1, r, clock, Throw e)
                  | (res1, Ok _) =>
                      match try_models B chatReq routedModel (tier_label tier) stream
                              (models_to_try routingCfg routedModel tier) []
                              stats1 res1 clock
                      with
                      | (stats2, res2, clock2, Succeeded) => (stats2, res2, clock2, Ok tt)
                      | (stats2, res2, clock2, Failed lastError) =>
                          match fail_response lastError res2 with
                          | Ok res3 => (count_error stats2, res3, clock2, Ok tt)
                          | Throw e => (count_error stats2, res2, clock2, Throw e)
                          end
                      end
                  end
              end
          end
      | None, _ | Some [], _ => reject (lit "model field is required")
      | _, _ => reject (lit "messages array is required")
      end
  end.

(** The [try ... catch] of [handleRequest] around the chat endpoint. *)
Definition handleRequest_chat (B : Backend) (routingCfg : RoutingConfig)
  (pricing : jsstring -> option ModelPricing) (body : option ChatRequest)
  (stats : Stats) (res : Res) (clock : nat) : Stats * Res * nat :=
  match handleChatCompletions B routingCfg pricing body stats res clock with
  | (stats1, res1, clock1, Ok _) => (stats1, res1, clock1)
  | (stats1, res1, clock1, Throw err) =>
      if headersSent res1 then (stats1, res1, clock1)
      else match sendError 500 (error_message err) (lit "server_error") res1 with
           | Ok r => (stats1, r, clock1)
           | Throw _ => (stats1, res1, clock1)
           end
  end.

(** ** handleReloadConfig *)

Definition keys_json (v : jsval) : result json :=
  entries <- Config.own_entries (nullish v JNull) ;;
  Ok (JArr (map (fun kv => JStr (fst kv)) entries)).

(** [reloadConfig(); reloadAuth(); const cfg = getConfig(); ...]: the
    configuration state after the call and the response. *)
Definition handleReloadConfig (fs : Config.FsEnv) (st : Config.ConfigState) (res : Res)
  : Config.ConfigState * result Res :=
  let st1 := Config.reloadConfig fs st in
  let (st2, cfg) := Config.getConfig fs st1 in
  (st2,
   r <- writeHead 200 json_headers res ;;
   providers <- keys_json (assoc (lit "providers") cfg) ;;
   tierKeys <- keys_json (assoc (lit "tiers") cfg) ;;
   Ok (end_ (write (WJson (JObj [(lit "status", JStr (lit "reloaded"));
                                 (lit "configPath",
                                  match Config._configPath st2 with
                                  | Some p => JStr p
                                  | None => JNull
                                  end);
                                 (lit "providers", providers);
                                 (lit "tiers", tierKeys)]))
                   r))).

End WithRuntime.

End Server.

(* ===================================================================== *)
(** * router/selector.ts: costs and filtered chains                       *)
(* ===================================================================== *)

Module Selector.

Import Router.

Section WithScorer.

Context {SC : Scorer}.

(** [{ costEstimate, baselineCost, savings }]. *)
Record ModelCost : Type := {
  costEstimate : number;
  baselineCost : number;
  savings : number
}.

Definition calculateModelCost (model : jsstring)
  (modelPricing : jsstring -> option ModelPricing)
  (estimatedInputTokens maxOutputTokens : Z) : ModelCost :=
  let pricing := modelPricing model in
  let million := num_of_Z 1000000%Z in
  let inputPrice :=
    match pricing with Some p => Router.inputPrice p | None => num_of_Z 0%Z end in
  let outputPrice :=
    match pricing with Some p => Router.outputPrice p | None => num_of_Z 0%Z end in
  let inputCost := num_mul (num_div (num_of_Z estimatedInputTokens) million) inputPrice in
  let outputCost := num_mul (num_div (num_of_Z maxOutputTokens) million) outputPrice in
  let costEstimate := num_add inputCost outputCost in
  let opusPricing := modelPricing (lit "anthropic/claude-opus-4-6") in
  let opusInputPrice :=
    match opusPricing with Some p => Router.inputPrice p | None => num_of_Z 15%Z end in
  let opusOutputPrice :=
    match opusPricing with Some p => Router.outputPrice p | None => num_of_Z 75%Z end in
  let baselineInput :=
    num_mul (num_div (num_of_Z estimatedInputTokens) million) opusInputPrice in
  let baselineOutput :=
    num_mul (num_div (num_of_Z maxOutputTokens) million) opusOutputPrice in
  let baselineCost := num_add baselineInput baselineOutput in
  {| costEstimate := costEstimate;
     baselineCost := baselineCost;
     savings :=
       if num_gtb baselineCost (num_of_Z 0%Z)
       then num_max0 (num_div (num_sub baselineCost costEstimate) baselineCost)
       else num_of_Z 0%Z |}.

(** [contextWindow >= estimatedTotalTokens * 1.1], a comparison of
    doubles: [holds contextWindow estimatedTotalTokens]. *)
Variable holds : Z -> Z -> bool.

Definition getFallbackChainFiltered (t : Tier) (tierConfigs : TierTable)
  (estimatedTotalTokens : Z) (getContextWindow : jsstring -> option Z)
  : result (list jsstring) :=
  fullChain <- getFallbackChain t tierConfigs ;;
  let filtered :=
    filter (fun modelId =>
              match getContextWindow modelId with
              | None => true
              | Some contextWindow => holds contextWindow estimatedTotalTokens
              end)
           fullChain in
  Ok (match filtered with
      | [] => fullChain
      | _ => filtered
      end).

End WithScorer.

End Selector.

(* ===================================================================== *)
(** * auth.ts: credentials from auth-profiles.json                        *)
(* ===================================================================== *)

Module Auth.

(** [ProviderAuth]. *)
Record ProviderAuth : Type := {
  provider : jsstring;
  profileName : jsstring;
  token : option jsstring;
  apiKey : option jsstring
}.

(** ["token" | "api_key"]. *)
Inductive ProfileType : Type :=
| TokenProfile
| ApiKeyProfile.

(** A profile of [AuthProfilesFile]. *)
Record Profile : Type := {
  p_type : ProfileType;
  p_provider : jsstring;
  p_token : option jsstring;
  p_key : option jsstring
}.

(** [AuthProfilesFile], the type at which the source reads the parsed
    file; [profiles] lists [Object.entries(data.profiles)] in their
    order. *)
Record AuthProfilesFile : Type := {
  version : Z;
  profiles : list (jsstring * Profile);
  lastGood : option (list (jsstring * jsstring))
}.

(** [Map<string, ProviderAuth>]: [map.get] is [assoc], [map.set] is
    [set_field]. *)
Definition AuthMap : Type := list (jsstring * ProviderAuth).

Definition auth_of (name : jsstring) (profile : Profile) : ProviderAuth :=
  {| provider := p_provider profile;
     profileName := name;
     token := match p_type profile with
              | TokenProfile => p_token profile
              | ApiKeyProfile => None
              end;
     apiKey := match p_type profile with
               | ApiKeyProfile => p_key profile
               | TokenProfile => None
               end |}.

(** One turn of the loop over the profiles. *)
Definition visit (lastGood : list (jsstring * jsstring)) (map : AuthMap)
  (entry : jsstring * Profile) : AuthMap :=
  let name := fst entry in
  let profile := snd entry in
  let provider := p_provider profile in
  let existing := assoc provider map in
  let isLastGood :=
    match assoc provider lastGood with
    | Some good => str_eqb good name
    | None => false
    end in
  match existing with
  | Some _ =>
      if negb isLastGood then map
      else set_field provider (auth_of name profile) map
  | None => set_field provider (auth_of name profile) map
  end.

(** The map [loadAuthProfiles] builds from the parsed file. *)
Definition best_profiles (data : AuthProfilesFile) : AuthMap :=
  fold_left (visit (match lastGood data with Some l => l | None => [] end))
            (profiles data) [].

(** The file system: [path.join], and [JSON.parse(readFileSync(path))] read
    at the type [AuthProfilesFile]. *)
Record AuthEnv : Type := {
  homedir : jsstring;
  path_join : list jsstring -> jsstring;
  read_profiles : jsstring -> result AuthProfilesFile
}.

Definition loadAuthProfiles (env : AuthEnv) : AuthMap :=
  let filePath :=
    path_join env [homedir env; lit ".openclaw"; lit "agents"; lit "main"; lit "agent";
                   lit "auth-profiles.json"] in
  match read_profiles env filePath with
  | Ok data => best_profiles data
  | Throw _ => []
  end.

(** [getAuth]: the cache after the call and the answer. *)
Definition getAuth (env : AuthEnv) (authCache : option AuthMap) (provider : jsstring)
  : option AuthMap * option ProviderAuth :=
  let cache :=
    match authCache with
    | Some map => map
    | None => loadAuthProfiles env
    end in
  (Some cache, assoc provider cache).

Definition reloadAuth (authCache : option AuthMap) : option AuthMap := None.

Definition nonempty (s : option jsstring) : bool :=
  match s with
  | Some (_ :: _) => true
  | _ => false
  end.

Definition getAuthHeader (env : AuthEnv) (authCache : option AuthMap) (provider : jsstring)
  : option AuthMap * option jsstring :=
  let (cache, auth) := getAuth env authCache provider in
  (cache,
   match auth with
   | None => None
   | Some a =>
       if nonempty (token a) then token a
       else if nonempty (apiKey a) then apiKey a
       else None
   end).

End Auth.

(** The revision of auth.ts that reads the configuration: the path of the
    profiles file comes from the default strategy, and a provider whose
    configuration names an environment variable takes its key from
    there. *)
Module AuthConfigured.

Import Auth.

(** ["openclaw" | "env" | "file" | "keychain"]. *)
Inductive AuthType : Type :=
| OpenclawAuth
| EnvAuth
| FileAuth
| KeychainAuth.

(** [AuthConfig]. *)
Record AuthConfig : Type := {
  type : AuthType;
  key : option jsstring;
  profilesPath : option jsstring;
  filePath : option jsstring;
  service : option jsstring;
  account : option jsstring
}.

(** [ProviderConfigEntry]. *)
Record ProviderConfigEntry : Type := {
  baseUrl : jsstring;
  api : jsstring;
  headers : option (list (jsstring * jsstring));
  auth : option AuthConfig
}.

(** What [loadAuthProfiles] reads of a strategy:
    [{ type?: string; profilesPath?: string }]. *)
Record Strategy : Type := {
  s_type : option jsstring;
  s_profilesPath : option jsstring
}.

(** The part of [FreeRouterConfig] auth.ts reads: [providers], and [auth]
    with its [default] and its strategies. *)
Record FreeRouterConfig : Type := {
  providers : list (jsstring * ProviderConfigEntry);
  auth_default : jsstring;
  auth_strategies : list (jsstring * Strategy)
}.

(** [authCfg[authCfg.default]]: under the name [default] it is the string
    [authCfg.default] itself, which has no [profilesPath]. *)
Definition defaultAuth (cfg : FreeRouterConfig) : option Strategy :=
  if str_eqb (auth_default cfg) (lit "default") then None
  else assoc (auth_default cfg) (auth_strategies cfg).

Definition loadAuthProfiles (cfg : FreeRouterConfig) (env : AuthEnv) : AuthMap :=
  let filePath :=
    match defaultAuth cfg with
    | Some {| s_profilesPath := Some ((_ :: _) as p) |} =>
        if startsWith (lit "~/") p
        then path_join env [homedir env; slice_from 2 p]
        else p
    | _ =>
        path_join env [homedir env; lit ".openclaw"; lit "agents"; lit "main"; lit "agent";
                       lit "auth-profiles.json"]
    end in
  match read_profiles env filePath with
  | Ok data => best_profiles data
  | Throw _ => []
  end.

(** [getEnvAuth]; [process_env] is [process.env]. *)
Definition getEnvAuth (cfg : FreeRouterConfig) (process_env : jsstring -> option jsstring)
  (provider : jsstring) : option ProviderAuth :=
  match assoc provider (providers cfg) with
  | Some {| auth := Some {| type := EnvAuth; key := Some ((_ :: _) as envKey) |} |} =>
      match process_env envKey with
      | Some ((_ :: _) as value) =>
          Some {| Auth.provider := provider;
                  profileName := envKey;
                  token := None;
                  apiKey := Some value |}
      | _ => None
      end
  | _ => None
  end.

Definition getAuth (cfg : FreeRouterConfig) (process_env : jsstring -> option jsstring)
  (env : AuthEnv) (authCache : option AuthMap) (provider : jsstring)
  : option AuthMap * option ProviderAuth :=
  match getEnvAuth cfg process_env provider with
  | Some envAuth => (authCache, Some envAuth)
  | None =>
      let cache :=
        match authCache with
        | Some map => map
        | None => loadAuthProfiles cfg env
        end in
      (Some cache, assoc provider cache)
  end.

End AuthConfigured.

(* ===================================================================== *)
(** * Specifications                                                      *)
(* ===================================================================== *)

(** The predicates the theorems are stated with, and the sample runtime,
    scorer and upstreams on which they are evaluated. *)
Module Spec.

Import Provider Router Server.

(** ** tool_choice *)

(** The tool_choice values with a translation of their own: the three
    keywords, [undefined], and an object carrying a truthy
    [function.name]. *)
Definition names_function (toolChoice : jsval) : bool :=
  match toolChoice with
  | Some (JObj fs) =>
      match assoc (lit "function") fs with
      | Some (JObj f) => truthy (assoc (lit "name") f)
      | _ => false
      end
  | _ => false
  end.

Definition has_own_translation (toolChoice : jsval) : bool :=
  is_str toolChoice (lit "none") || is_str toolChoice (lit "auto")
  || is_str toolChoice (lit "required")
  || match toolChoice with None => true | _ => false end
  || names_function toolChoice.

(** ** The tool-call round trip *)

(** An assistant turn that only calls tools. *)
Definition assistant_calling (calls : list OpenAIToolCall) : ChatMessage :=
  {| role := lit "assistant"; content := CNull; tool_calls := Some calls;
     tool_call_id := None; name := None |}.

Section WithRuntime.

Context {RT : Runtime}.

(** OpenAI tool calls to Anthropic [tool_use] blocks (the request
    translation) and back (the translation of a non-streaming response
    that carries these blocks). *)
Definition roundtrip (calls : list OpenAIToolCall) (clock : nat) : list OpenAIToolCall :=
  match snd (convertMessagesToAnthropic [assistant_calling calls]) with
  | [{| am_content := ABlocks blocks |}] => fst (toolCalls_of_content blocks clock)
  | _ => []
  end.

(** What the round trip is to preserve: the id, the name, and the JSON
    value the arguments parse to. *)
Definition preserved (tc tc' : OpenAIToolCall) : Prop :=
  call_id tc' = call_id tc
  /\ call_name tc' = call_name tc
  /\ exists v, JSON_parse (call_arguments tc) = Some v
               /\ JSON_parse (call_arguments tc') = Some v.

(** Arguments that parse to a JSON value other than [null], which
    [JSON.stringify] and [JSON.parse] carry back to itself. *)
Definition carried_arguments (tc : OpenAIToolCall) : Prop :=
  exists v, JSON_parse (call_arguments tc) = Some v
            /\ v <> JNull
            /\ JSON_parse (JSON_stringify v) = Some v.

End WithRuntime.

(** ** The Anthropic stream, event by event *)

(** [event.type] and [event.content_block?.type], [undefined] where the
    read throws. *)
Definition event_type (event : json) : jsval :=
  match get (Some event) (lit "type") with
  | Ok v => v
  | Throw _ => None
  end.

Definition block_type (event : json) : jsval :=
  match (block <- get (Some event) (lit "content_block") ;; get_opt block (lit "type")) with
  | Ok v => v
  | Throw _ => None
  end.

Definition is_delta (event : json) : bool :=
  is_str (event_type event) (lit "content_block_delta").

(** Whether the upstream is inside a thinking block after [events]: the
    last block to start was a thinking block and it has not stopped. *)
Fixpoint inside_thinking_after (events : list json) (inside : bool) : bool :=
  match events with
  | [] => inside
  | e :: rest =>
      inside_thinking_after rest
        (if is_str (event_type e) (lit "content_block_start")
         then is_str (block_type e) (lit "thinking")
         else if is_str (event_type e) (lit "content_block_stop") then false
         else inside)
  end.

(** What a chunk of the chat-completion stream has to look like. *)
Definition chunk_shape (c : json) : Prop :=
  get (Some c) (lit "object") = Ok (Some (JStr (lit "chat.completion.chunk")))
  /\ exists choice0,
       get (Some c) (lit "choices") = Ok (Some (JArr [choice0]))
       /\ get (Some choice0) (lit "index") = Ok (Some (JNum 0)).

(** The writes of the Anthropic stream translator: chunks of that shape and
    the terminator. *)
Definition translator_write (w : Write) : Prop :=
  match w with
  | WData c => chunk_shape c
  | WDone => True
  | WJson _ | WRaw _ => False
  end.

(** The [model] field of what is written. *)
Definition model_field (w : Write) : jsval :=
  match w with
  | WData c | WJson c =>
      match get (Some c) (lit "model") with
      | Ok v => v
      | Throw _ => None
      end
  | WDone | WRaw _ => None
  end.

(** On the Anthropic path every JSON value written names the model in the
    proxy's namespace. *)
Definition names_model (modelName : jsstring) (w : Write) : Prop :=
  match w with
  | WData _ | WJson _ => model_field w = Some (JStr (namespaced modelName))
  | WDone => True
  | WRaw _ => False
  end.





Section PassThroughLines.

Context {RT : Runtime}.



End PassThroughLines.

Section Events.

Context {RT : Runtime}.

Definition handle_or_skip (modelName : jsstring) (st : StreamState) (event : json)
  : StreamState * list Write :=
  match handle_event modelName st event with
  | Ok r => r
  | Throw _ => (st, [])
  end.

(** The translator run on the parsed events. *)
Fixpoint handle_events (modelName : jsstring) (st : StreamState) (events : list json)
  : StreamState * list Write :=
  match events with
  | [] => (st, [])
  | e :: rest =>
      let (st1, ws1) := handle_or_skip modelName st e in
      let (st2, ws2) := handle_events modelName st1 rest in
      (st2, ws1 ++ ws2)
  end.

Definition events_of_lines (lines : list jsstring) : list json :=
  flat_map (fun l => match event_of_line l with Some e => [e] | None => [] end) lines.

(** The complete lines the reads deliver, in order. *)
Fixpoint lines_of_reads (buf : jsstring) (values : list jsstring) : list jsstring :=
  match values with
  | [] => []
  | value :: rest =>
      let lines := split_lines (buf ++ value) in
      removelast lines ++ lines_of_reads (last lines []) rest
  end.

(** The events an upstream body delivers to the translator. *)
Definition events_of_reads (values : list jsstring) : list json :=
  events_of_lines (lines_of_reads [] values).

(** What the client has received when the translator has run on [events]
    and the stream has ended. *)
Definition client_sees (modelName : jsstring) (events : list json) (res : Res)
  (clock : nat) : Res :=
  match writeHead 200 sse_headers res with
  | Throw _ => res
  | Ok r1 =>
      end_ (write WDone
              (write_all (snd (handle_events modelName (initial_stream clock) events)) r1))
  end.

End Events.

(** ** A sample runtime

    [JSON.parse] and [JSON.stringify] on a fragment of JSON that is enough
    for the examples: [null], strings without escapes, and objects of
    these, written without white space; and a clock. *)

Definition quote : N := 34%N.

Definition not_quote (c : N) : bool := negb (N.eqb c quote).

(** A JSON string literal. *)
Definition quoted (s : string) : jsstring := [quote] ++ lit s ++ [quote].

Fixpoint sample_print (v : json) : jsstring :=
  match v with
  | JStr s => [quote] ++ s ++ [quote]
  | JObj fs =>
      lit "{"
      ++ (fix members (fs : list (jsstring * json)) : jsstring :=
            match fs with
            | [] => []
            | [(k, x)] => [quote] ++ k ++ [quote] ++ lit ":" ++ sample_print x
            | (k, x) :: rest =>
                [quote] ++ k ++ [quote] ++ lit ":" ++ sample_print x ++ lit ","
                  ++ members rest
            end) fs
      ++ lit "}"
  | _ => lit "null"
  end.

(** A value at the start of [s], and what follows it. *)
Fixpoint sample_value (fuel : nat) (s : jsstring) : option (json * jsstring) :=
  match fuel with
  | O => None
  | S fuel' =>
      match s with
      | 110%N :: 117%N :: 108%N :: 108%N :: r => Some (JNull, r)
      | 34%N :: r =>
          match dropWhile not_quote r with
          | 34%N :: r' => Some (JStr (takeWhile not_quote r), r')
          | _ => None
          end
      | 123%N :: 125%N :: r => Some (JObj [], r)
      | 123%N :: r =>
          (fix members (n : nat) (r : jsstring) (acc : list (jsstring * json))
             : option (json * jsstring) :=
             match n with
             | O => None
             | S n' =>
                 match r with
                 | 34%N :: r1 =>
                     match dropWhile not_quote r1 with
                     | 34%N :: 58%N :: r2 =>
                         match sample_value fuel' r2 with
                         | Some (x, 44%N :: r3) =>
                             members n' r3 (acc ++ [(takeWhile not_quote r1, x)])
                         | Some (x, 125%N :: r3) =>
                             Some (JObj (acc ++ [(takeWhile not_quote r1, x)]), r3)
                         | _ => None
                         end
                     | _ => None
                     end
                 | _ => None
                 end
             end) fuel' r []
      | _ => None
      end
  end.

Definition sample_parse (s : jsstring) : option json :=
  match sample_value (S (List.length s)) s with
  | Some (v, []) => Some v
  | _ => None
  end.

Definition sample_runtime : Runtime :=
  {| JSON_parse := sample_parse;
     JSON_stringify := sample_print;
     Date_now := fun n => (1700000000000 + Z.of_nat n)%Z |}.

Definition paris_call : OpenAIToolCall :=
  {| call_id := lit "call_1"; call_name := lit "get_weather";
     call_arguments := lit "{" ++ quoted "city" ++ lit ":" ++ quoted "Paris" ++ lit "}" |}.

(** A call whose arguments are the JSON text [null]. *)
Definition null_call : OpenAIToolCall :=
  {| call_id := lit "call_2"; call_name := lit "ping"; call_arguments := lit "null" |}.

(** ** Sample upstreams *)

(** A JSON object text from its members. *)
Definition object_text (members : list (string * jsstring)) : jsstring :=
  lit "{" ++ join (lit ",") (map (fun m => quoted (fst m) ++ lit ":" ++ snd m) members)
      ++ lit "}".

(** An SSE line. *)
Definition data_line (payload : jsstring) : jsstring :=
  lit "data: " ++ payload ++ [10%N].

Definition block_start (type : string) : jsstring :=
  data_line (object_text [("type", quoted "content_block_start");
                          ("content_block", object_text [("type", quoted type)])]%string).

Definition text_delta (text : string) : jsstring :=
  data_line (object_text [("type", quoted "content_block_delta");
                          ("delta", object_text [("type", quoted "text_delta");
                                                 ("text", quoted text)])]%string).

Definition block_stop : jsstring :=
  data_line (object_text [("type", quoted "content_block_stop")]%string).

Definition message_stop : jsstring :=
  data_line (object_text [("type", quoted "message_stop")]%string).

(** The parsed form of [text_delta]. *)
Definition text_delta_event (text : string) : json :=
  JObj [(lit "type", JStr (lit "content_block_delta"));
        (lit "delta", JObj [(lit "type", JStr (lit "text_delta"));
                            (lit "text", JStr (lit text))])].

Definition block_start_event (type : string) : json :=
  JObj [(lit "type", JStr (lit "content_block_start"));
        (lit "content_block", JObj [(lit "type", JStr (lit type))])].

(** A reply that thinks before it answers, delivered in three reads that
    cut through the lines. *)
Definition thinking_reply : BodyStream :=
  {| bs_values :=
       [block_start "thinking" ++ lit "data: ";
        skipn 6 (text_delta "the secret plan") ++ block_stop ++ block_start "text";
        text_delta "Hello" ++ block_stop ++ message_stop];
     bs_end := ReadDone |}.

(** A reply whose connection breaks after the first words. *)
Definition broken_reply : BodyStream :=
  {| bs_values := [block_start "text" ++ text_delta "Hel"];
     bs_end := ReadThrows (Error (lit "terminated")) |}.

Definition hello_response : AnthropicResponse :=
  {| ar_content := [text_block (lit "Hello")];
     ar_usage := Some (3%Z, 5%Z);
     ar_stop_reason := Some (lit "end_turn") |}.

Definition sample_auth (provider : jsstring) : option ProviderAuth :=
  if str_eqb provider (lit "anthropic")
  then Some {| token := Some (lit "sk-ant-api03-sample"); apiKey := None |}
  else if str_eqb provider (lit "kimi-coding")
  then Some {| token := None; apiKey := Some (lit "sk-kimi-sample") |}
  else None.

(** An upstream that answers every request. *)
Definition healthy_backend : Backend :=
  {| getAuth := sample_auth;
     fetch_anthropic := fun _ => FetchOk (Ok hello_response) (Some thinking_reply);
     fetch_openai :=
       fun _ => FetchOk (Ok (JObj [(lit "model", JStr (lit "kimi-for-coding"))]))
                        (Some {| bs_values := []; bs_end := ReadDone |}) |}.



(** An upstream whose Anthropic streams break after the headers. *)
Definition breaking_backend : Backend :=
  {| getAuth := sample_auth;
     fetch_anthropic := fun _ => FetchOk (Throw SyntaxError) (Some broken_reply);
     fetch_openai := fun _ => FetchThrows (Error (lit "fetch failed")) |}.

Definition user_message (text : jsstring) : ChatMessage :=
  {| role := lit "user"; content := CString text; tool_calls := None;
     tool_call_id := None; name := None |}.

Definition chat_request (model : string) (prompt : jsstring) (stream : bool) : ChatRequest :=
  {| req_model := Some (lit model);
     req_messages := Some [user_message prompt];
     req_max_tokens := None; req_temperature := None;
     req_stream := Some stream; req_top_p := None;
     req_tools := None; req_tool_choice := None |}.

(** ** A sample scorer and the default routing table *)

(** Numbers are integers that count hundredths; every prompt is scored
    SIMPLE with full confidence. *)
Definition sample_scorer : Scorer :=
  {| number := Z;
     ScoringConfig := unit;
     num_of_Z := fun z => (100 * z)%Z;
     num_0_95 := 95%Z;
     num_0_5 := 50%Z;
     num_add := Z.add;
     num_sub := Z.sub;
     num_mul := fun a b => (a * b / 100)%Z;
     num_div := fun a b => (100 * a / b)%Z;
     num_gtb := Z.gtb;
     num_ge_0_69 := fun x => (69 <=? x)%Z;
     num_max0 := Z.max 0;
     toFixed2 := fun _ => lit "-0.10";
     classifyByRules :=
       fun _ _ _ _ =>
         {| score := (-10)%Z; tier := Some SIMPLE; confidence := 100%Z;
            signals := [lit "short"]; agenticScore := None |} |}.

(** The tiers of [DEFAULT_CONFIG]. *)
Definition default_tier_table : TierTable :=
  fun t =>
    Some match t with
         | SIMPLE => {| primary := lit "kimi-coding/kimi-for-coding";
                        fallback := [lit "anthropic/claude-haiku-4-5"] |}
         | MEDIUM => {| primary := lit "anthropic/claude-sonnet-4-5";
                        fallback := [lit "anthropic/claude-opus-4-6"] |}
         | COMPLEX | REASONING =>
             {| primary := lit "anthropic/claude-opus-4-6";
                fallback := [lit "anthropic/claude-haiku-4-5"] |}
         end.

(** The overrides of [DEFAULT_ROUTING_CONFIG]. *)
Definition default_overrides : OverridesConfig :=
  {| maxTokensForceComplex := 100000%Z;
     structuredOutputMinTier := MEDIUM;
     ambiguousDefaultTier := MEDIUM;
     agenticMode := Some false |}.

Definition no_stats : Stats :=
  {| requests := 0%Z; errors := 0%Z; timeouts := 0%Z; byTier := []; byModel := [] |}.

(** An SSE event that reports an error to the client. *)
Definition is_error_event (w : Write) : bool :=
  match w with
  | WData (JObj fs) => match assoc (lit "error") fs with Some _ => true | None => false end
  | _ => false
  end.

Definition default_routing : @RoutingConfig sample_scorer :=
  @Build_RoutingConfig sample_scorer tt default_tier_table (Some default_tier_table)
    default_overrides.

Definition no_pricing : jsstring -> option (@ModelPricing sample_scorer) := fun _ => None.

(** ** The structured-output upgrade *)

(** The higher of two tiers. *)
Definition tier_max (a b : Tier) : Tier :=
  if (tierRank a <? tierRank b)%Z then b else a.

Section Upgrade.

Context {SC : Scorer}.

(** The large-context override fires. *)
Definition large_context (cfg : RoutingConfig) (prompt : jsstring)
  (systemPrompt : option jsstring) : bool :=
  (maxTokensForceComplex (overrides cfg)
   <? estimate_tokens
        (List.length (match systemPrompt with Some s => s | None => [] end) + 1
           + List.length prompt))%Z.

(** The tier before the structured-output step: the classifier's, or the
    default for an ambiguous prompt. *)
Definition scored_tier (cfg : RoutingConfig) (prompt : jsstring)
  (systemPrompt : option jsstring) : Tier :=
  match tier (classifyByRules prompt systemPrompt
                (estimate_tokens (List.length prompt)) (scoring cfg)) with
  | Some t => t
  | None => ambiguousDefaultTier (overrides cfg)
  end.

(** Every tier has an entry in the tables. *)
Definition tables_complete (cfg : RoutingConfig) : Prop :=
  forall t, tiers cfg t <> None
            /\ forall a, agenticTiers cfg = Some a -> a t <> None.

(** What the specification promises a matching user prompt: a decision
    whose tier is at least the configured minimum. *)
Definition upgraded_when_user_prompt_matches (options : RouterOptions)
  (prompt : jsstring) (systemPrompt : option jsstring) (maxOutputTokens : Z) : Prop :=
  exists d,
    route prompt systemPrompt maxOutputTokens options = Ok d
    /\ (structured_output_regex prompt = true ->
        (tierRank (structuredOutputMinTier (overrides (config options)))
         <= tierRank (rd_tier d))%Z).

End Upgrade.

(** The default routing with the structured-output minimum raised to
    REASONING. *)
Definition strict_routing : @RoutingConfig sample_scorer :=
  @Build_RoutingConfig sample_scorer tt default_tier_table (Some default_tier_table)
    {| maxTokensForceComplex := 100000%Z;
       structuredOutputMinTier := REASONING;
       ambiguousDefaultTier := MEDIUM;
       agenticMode := Some false |}.

(** A system prompt of 400 000 characters. *)
Definition long_system_prompt : jsstring := repeat 32%N (N.to_nat 400000).

(** ** Mode overrides *)

Definition nonempty (s : jsstring) : bool :=
  match s with
  | [] => false
  | _ => true
  end.

(** The three ways to write a directive: [/<word><spaces>],
    [<word><spaces>mode<separators>] and [[<word>]<spaces>]. *)
Inductive Directive : Type :=
| SlashForm (spaces : jsstring)
| WordForm (spaces mode separators : jsstring)
| BracketForm (spaces : jsstring).

Definition directive_ok (f : Directive) : bool :=
  match f with
  | SlashForm spaces => nonempty spaces && forallb is_space spaces
  | WordForm spaces mode separators =>
      nonempty spaces && forallb is_space spaces
      && str_eqb (toLowerCase mode) (lit "mode")
      && nonempty separators && forallb is_mode_sep separators
  | BracketForm spaces => forallb is_space spaces
  end.

Definition directive (f : Directive) (word : jsstring) : jsstring :=
  match f with
  | SlashForm spaces => lit "/" ++ word ++ spaces
  | WordForm spaces mode separators => word ++ spaces ++ mode ++ separators
  | BracketForm spaces => lit "[" ++ word ++ lit "]" ++ spaces
  end.

(** What the greedy match leaves of the text: the word form takes the
    separators the text starts with. *)
Definition unmatched (f : Directive) (text : jsstring) : jsstring :=
  match f with
  | WordForm _ _ _ => dropWhile is_mode_sep text
  | _ => text
  end.

(** A word of the pattern [[a-z]+]. *)
Definition is_word (w : jsstring) : bool := nonempty w && forallb is_letter w.

(** As the specification has it: the directive is detected and the
    text comes back as it was written. *)
Definition returns_the_text (f : Directive) (word text : jsstring) (t : Tier) : Prop :=
  detectModeOverride (directive f word ++ text)
  = Some {| mo_tier := TierName t; cleanedPrompt := text |}.

(** ** Sample configuration files *)

Definition config_path : jsstring := lit "/srv/freerouter.config.json".

(** A file system with one configuration file, found through
    [FREEROUTER_CONFIG]. *)
Definition fs_with (file : result jsstring) : Config.FsEnv :=
  {| Config.FREEROUTER_CONFIG := Some config_path;
     Config.cwd := lit "/srv";
     Config.homedir := lit "/root";
     Config.existsSync := fun p => str_eqb p config_path;
     Config.readFileSync := fun _ => file |}.

(** [{"host":"0.0.0.0"}], and the same file after an edit that dropped the
    closing brace. *)
Definition good_file : jsstring := object_text [("host", quoted "0.0.0.0")]%string.
Definition broken_file : jsstring := removelast good_file.

(** A file that sends the SIMPLE tier to a provider nobody configured. *)
Definition dangling_file : jsstring :=
  object_text
    [("tiers",
      object_text [("SIMPLE", object_text [("primary", quoted "nowhere/model-x")])])]%string.

End Spec.

(* ===================================================================== *)
(** * What a client reads off the stream                                  *)
(* ===================================================================== *)

(** The fields of the chunks a client of the chat-completion stream looks
    at, and the events of the upstream they come from. *)
Module Observed.

Import Provider Spec.

(** [v.k], [undefined] where the read throws. *)
Definition field (v : jsval) (k : string) : jsval :=
  match get_opt v (lit k) with
  | Ok x => x
  | Throw _ => None
  end.

(** [chunk.choices[0]]. *)
Definition first_choice (w : Write) : jsval :=
  match w with
  | WData c | WJson c =>
      match field (Some c) "choices" with
      | Some (JArr (choice0 :: _)) => Some choice0
      | _ => None
      end
  | WDone | WRaw _ => None
  end.

Definition finish_reason (w : Write) : jsval := field (first_choice w) "finish_reason".

(** [chunk.choices[0].delta.content]. *)
Definition delta_content (w : Write) : jsval :=
  field (field (first_choice w) "delta") "content".

(** [chunk.choices[0].delta.tool_calls[0]]. *)
Definition delta_tool_call (w : Write) : jsval :=
  match field (field (first_choice w) "delta") "tool_calls" with
  | Some (JArr (call :: _)) => Some call
  | _ => None
  end.

(** The index under which a chunk announces a tool call: the chunk that
    opens a call carries its [type], the chunks that continue it do not. *)
Definition announced_index (w : Write) : jsval :=
  match field (delta_tool_call w) "type" with
  | Some _ => field (delta_tool_call w) "index"
  | None => None
  end.

(** The values of a list of optional values. *)
Definition present (A : Type) (l : list (option A)) : list A :=
  flat_map (fun o => match o with Some a => [a] | None => [] end) l.

(** [Object.keys(v)] of an object. *)
Definition keys (v : json) : list jsstring :=
  match v with
  | JObj fs => map fst fs
  | _ => []
  end.

(** An event that opens a block of the given type. *)
Definition starts_block (type : string) (event : json) : bool :=
  is_str (event_type event) (lit "content_block_start")
  && is_str (block_type event) (lit type).

(** The text a [content_block_delta] event carries, when it is truthy. *)
Definition delta_text (event : json) : jsval :=
  if is_delta event then
    let text := field (field (Some event) "delta") "text" in
    if truthy text then text else None
  else None.

(** The text the upstream sends outside its thinking blocks: the truthy
    [text] of the deltas that arrive while the last block to start is not a
    thinking block. *)
Fixpoint text_outside_thinking (events : list json) (inside : bool) : list json :=
  match events with
  | [] => []
  | e :: rest =>
      (if inside then [] else present [delta_text e])
      ++ text_outside_thinking rest (inside_thinking_after [e] inside)
  end.

Section WithRuntime.

Context {RT : Runtime}.

(** The block a tool message becomes. *)
Definition result_of (msg : ChatMessage) : ContentBlock :=
  tool_result_block (match tool_call_id msg with Some i => i | None => [] end)
                    (tool_result_content (content msg)).

End WithRuntime.

(** A message of the conversation: any message that is not a system or
    developer message. *)
Definition in_conversation (msg : ChatMessage) : bool :=
  negb (str_eqb (role msg) (lit "system") || str_eqb (role msg) (lit "developer")).

(** The conversation: the role and the text of its messages. *)
Definition conversation (messages : list ChatMessage) : list (jsstring * jsstring) :=
  map (fun m => (role m, Server.message_text (content m)))
      (filter in_conversation messages).

(** The texts of the user messages. *)
Definition user_texts (messages : list ChatMessage) : list jsstring :=
  map (fun m => Server.message_text (content m))
      (filter (fun m => str_eqb (role m) (lit "user")) messages).

(** The sum of the counters of [stats.byTier] or [stats.byModel]. *)
Definition total (counters : list (jsstring * Z)) : Z :=
  fold_right Z.add 0%Z (map snd counters).

(** The messages of the 400 responses. *)
Definition rejections : list jsstring :=
  map lit ["Invalid JSON body"; "model field is required";
           "messages array is required"; "No user message found"]%string.

(** No object of the value has a key [__proto__], the one key under which
    an assignment changes the prototype instead of a property. *)
Fixpoint proto_free (v : json) : bool :=
  match v with
  | JArr items => forallb proto_free items
  | JObj fs =>
      (fix members (fs : list (jsstring * json)) : bool :=
         match fs with
         | [] => true
         | (k, x) :: rest =>
             negb (str_eqb k (lit "__proto__")) && proto_free x && members rest
         end) fs
  | _ => true
  end.

(** A tool message: the answer to the call [id]. *)
Definition tool_answer (id text : string) : ChatMessage :=
  {| role := lit "tool"; content := CString (lit text); tool_calls := None;
     tool_call_id := Some (lit id); name := None |}.

(** ** Attempts of the fallback loop *)

Section Attempt.

Context {RT : Runtime}.


End Attempt.

(** ** Credentials *)

(** The profile [loadAuthProfiles] keeps for a provider: the one the file
    names under [lastGood], when it belongs to the provider; else the first
    profile of the provider. *)
Definition chosen (data : Auth.AuthProfilesFile) (provider : jsstring)
  : option (jsstring * Auth.Profile) :=
  let of_provider (entry : jsstring * Auth.Profile) :=
    str_eqb (Auth.p_provider (snd entry)) provider in
  let good (entry : jsstring * Auth.Profile) :=
    match Auth.lastGood data with
    | Some names =>
        match assoc provider names with
        | Some name => str_eqb name (fst entry)
        | None => false
        end
    | None => false
    end in
  match find (fun entry => of_provider entry && good entry) (Auth.profiles data) with
  | Some entry => Some entry
  | None => find of_provider (Auth.profiles data)
  end.

(** The path of the profiles file. *)
Definition profiles_path (env : Auth.AuthEnv) : jsstring :=
  Auth.path_join env
    [Auth.homedir env; lit ".openclaw"; lit "agents"; lit "main"; lit "agent";
     lit "auth-profiles.json"].

(** What provider.ts reads of a [ProviderAuth]. *)
Definition credentials (a : Auth.ProviderAuth) : ProviderAuth :=
  {| token := Auth.token a; apiKey := Auth.apiKey a |}.

(** Sample files and environments. *)
Definition oauth_profile (tok : string) : Auth.Profile :=
  {| Auth.p_type := Auth.TokenProfile;
     Auth.p_provider := lit "anthropic";
     Auth.p_token := Some (lit tok);
     Auth.p_key := None |}.

Definition two_profiles : Auth.AuthProfilesFile :=
  {| Auth.version := 1%Z;
     Auth.profiles := [(lit "anthropic:work", oauth_profile "sk-ant-oat-work");
                       (lit "anthropic:home", oauth_profile "sk-ant-oat-home")];
     Auth.lastGood := Some [(lit "anthropic", lit "anthropic:home")] |}.

Definition auth_env (file : result Auth.AuthProfilesFile) : Auth.AuthEnv :=
  {| Auth.homedir := lit "/home/user";
     Auth.path_join := join (lit "/");
     Auth.read_profiles := fun _ => file |}.

Definition env_key_config : AuthConfigured.FreeRouterConfig :=
  {| AuthConfigured.providers :=
       [(lit "anthropic",
         {| AuthConfigured.baseUrl := lit "https://api.anthropic.com";
            AuthConfigured.api := lit "anthropic";
            AuthConfigured.headers := None;
            AuthConfigured.auth :=
              Some {| AuthConfigured.type := AuthConfigured.EnvAuth;
                      AuthConfigured.key := Some (lit "ANTHROPIC_API_KEY");
                      AuthConfigured.profilesPath := None;
                      AuthConfigured.filePath := None;
                      AuthConfigured.service := None;
                      AuthConfigured.account := None |} |})];
     AuthConfigured.auth_default := lit "openclaw";
     AuthConfigured.auth_strategies := [] |}.

Definition key_in_env (name : jsstring) : option jsstring :=
  if str_eqb name (lit "ANTHROPIC_API_KEY") then Some (lit "sk-ant-api03-key") else None.

(** The headers [handleRequest] sets on every response before it looks at
    the request. *)
Definition cors_headers : list (jsstring * jsstring) :=
  [(lit "Access-Control-Allow-Origin", lit "*");
   (lit "Access-Control-Allow-Methods", lit "GET, POST, OPTIONS");
   (lit "Access-Control-Allow-Headers", lit "Content-Type, Authorization")].

End Observed.

(* ===================================================================== *)
(** * Theorems                                                            *)
(* ===================================================================== *)

Import Provider Router Server Spec.

(** The closed examples below run on the sample runtime; the theorems are
    stated for every runtime. *)
#[local] Existing Instance sample_runtime.

(** ** Strings *)

Lemma str_eqb_refl (a : jsstring) : str_eqb a a = true.
Proof.
  induction a as [|x a IH]; simpl; [reflexivity|].
  rewrite N.eqb_refl; exact IH.
Qed.

Lemma str_eqb_eq (a b : jsstring) : str_eqb a b = true <-> a = b.
Proof.
  split.
  - revert b; induction a as [|x a IH]; intros [|y b] H; simpl in H;
      try discriminate; [reflexivity|].
    apply andb_true_iff in H as [Hx Hab].
    apply N.eqb_eq in Hx; subst y.
    f_equal; apply IH; exact Hab.
  - intros ->; apply str_eqb_refl.
Qed.

Lemma str_eqb_neq (a b : jsstring) : str_eqb a b = false <-> a <> b.
Proof.
  split.
  - intros H E; apply str_eqb_eq in E; congruence.
  - intros H; destruct (str_eqb a b) eqn:E; [|reflexivity].
    apply str_eqb_eq in E; contradiction.
Qed.

(** ** C9: tool_choice *)

Lemma convertToolChoice_never_throws (toolChoice : jsval) :
  exists r, convertToolChoiceToAnthropic toolChoice = Ok r.
Proof.
  unfold convertToolChoiceToAnthropic.
  destruct (is_str toolChoice (lit "none")); [eexists; reflexivity|].
  destruct (is_str toolChoice (lit "auto") || _); [eexists; reflexivity|].
  destruct (is_str toolChoice (lit "required")); [eexists; reflexivity|].
  destruct toolChoice as [[| | | |items|fs]|]; simpl; try (eexists; reflexivity).
  destruct (assoc (lit "function") fs) as [[| | | | |f]|]; simpl;
    try (eexists; reflexivity).
  destruct (truthy (assoc (lit "name") f)); eexists; reflexivity.
Qed.

(** C9.  The translation of tool_choice is total and defaults to auto:
    every value is translated (no read of the function throws), and every
    value other than ["none"], ["auto"], ["required"], [undefined] and an
    object carrying a (truthy) [function.name] is translated to
    [{ type: "auto" }]. *)
Theorem convertToolChoice_total_defaults_to_auto :
  forall toolChoice : jsval,
    (exists r, convertToolChoiceToAnthropic toolChoice = Ok r)
    /\ (has_own_translation toolChoice = false ->
        convertToolChoiceToAnthropic toolChoice = Ok (choice "auto")).
Proof.
  intros toolChoice; split; [apply convertToolChoice_never_throws|].
  unfold has_own_translation, convertToolChoiceToAnthropic.
  intros H.
  repeat (apply orb_false_iff in H; destruct H as [H ?]).
  rewrite H.
  destruct toolChoice as [[| | | |items|fs]|]; simpl in *;
    try reflexivity; try discriminate.
  - destruct (str_eqb s (lit "auto")); [discriminate|].
    destruct (str_eqb s (lit "required")); [discriminate|reflexivity].
  - unfold names_function in *.
    destruct (assoc (lit "function") fs) as [[| | | | |f]|]; simpl; try reflexivity.
    match goal with Hn : truthy _ = false |- _ => rewrite Hn end.
    destruct (assoc (lit "name") f); reflexivity.
Qed.

(** An arbitrary string and an object without a function name both become
    [{ type: "auto" }]. *)
Lemma convertToolChoice_total_defaults_to_auto_witness :
  convertToolChoiceToAnthropic (Some (JStr (lit "banana"))) = Ok (choice "auto")
  /\ convertToolChoiceToAnthropic
       (Some (JObj [(lit "type", JStr (lit "function"));
                    (lit "function", JObj [(lit "description", JStr (lit "x"))])]))
     = Ok (choice "auto").
Proof.
  split.
  - apply (proj2 (convertToolChoice_total_defaults_to_auto (Some (JStr (lit "banana"))))).
    reflexivity.
  - apply (proj2 (convertToolChoice_total_defaults_to_auto
                    (Some (JObj [(lit "type", JStr (lit "function"));
                                 (lit "function",
                                  JObj [(lit "description", JStr (lit "x"))])])))).
    reflexivity.
Defined.

(** ** C6: the tool-call round trip *)

Section ToolCalls.

Context {RT : Runtime}.

Lemma convert_assistant_calling (c : OpenAIToolCall) (calls : list OpenAIToolCall) :
  convertMessagesToAnthropic [assistant_calling (c :: calls)]
  = ([], [{| am_role := lit "assistant";
             am_content := ABlocks (map tool_use_of_call (c :: calls)) |}]).
Proof. reflexivity. Qed.

Lemma filter_tool_use_of_calls (calls : list OpenAIToolCall) :
  filter (fun b => str_eqb (cb_type b) (lit "tool_use")) (map tool_use_of_call calls)
  = map tool_use_of_call calls.
Proof.
  induction calls as [|c calls IH]; [reflexivity|].
  cbn [map filter]. rewrite IH. reflexivity.
Qed.

(** Blocks made from calls carry their id: no fresh id is drawn and the
    clock is not read. *)
Lemma tool_calls_of_tool_use_blocks (calls : list OpenAIToolCall) (idx clock : nat) :
  tool_calls_of_blocks (map tool_use_of_call calls) idx clock
  = (map (fun tc =>
            {| call_id := call_id tc; call_name := call_name tc;
               call_arguments :=
                 JSON_stringify
                   (nullish (Some (parse_arguments (call_arguments tc))) (JObj [])) |})
         calls,
     clock).
Proof.
  revert idx; induction calls as [|c calls IH]; intros idx; [reflexivity|].
  cbn [map tool_calls_of_blocks tool_use_of_call tool_use_block cb_id cb_name cb_input].
  rewrite IH. reflexivity.
Qed.

Lemma roundtrip_cons (c : OpenAIToolCall) (calls : list OpenAIToolCall) (clock : nat) :
  roundtrip (c :: calls) clock
  = map (fun tc =>
           {| call_id := call_id tc; call_name := call_name tc;
              call_arguments :=
                JSON_stringify
                  (nullish (Some (parse_arguments (call_arguments tc))) (JObj [])) |})
        (c :: calls).
Proof.
  unfold roundtrip. rewrite convert_assistant_calling.
  cbn [snd am_content]. unfold toolCalls_of_content.
  rewrite filter_tool_use_of_calls, tool_calls_of_tool_use_blocks. reflexivity.
Qed.

Lemma carried_is_preserved (tc : OpenAIToolCall) :
  carried_arguments tc ->
  preserved tc
    {| call_id := call_id tc; call_name := call_name tc;
       call_arguments :=
         JSON_stringify
           (nullish (Some (parse_arguments (call_arguments tc))) (JObj [])) |}.
Proof.
  intros (v & Hparse & Hnull & Hback).
  repeat split; cbn [call_id call_name call_arguments].
  exists v; split; [exact Hparse|].
  unfold parse_arguments; rewrite Hparse.
  destruct v; try exact Hback. contradiction.
Qed.

(** C6 (amended).  Translating the tool calls of an assistant message to
    Anthropic [tool_use] blocks and translating these blocks back gives, call
    by call and in order, the same id, the same name, and arguments that
    parse to the same JSON value, for arguments that parse to a value other
    than [null]. *)
Theorem tool_call_roundtrip_preserves :
  forall (c : OpenAIToolCall) (calls : list OpenAIToolCall) (clock : nat),
    Forall carried_arguments (c :: calls) ->
    Forall2 preserved (c :: calls) (roundtrip (c :: calls) clock).
Proof.
  intros c calls clock H.
  rewrite roundtrip_cons.
  induction H as [|tc l Htc _ IH]; cbn [map]; constructor.
  - apply carried_is_preserved; exact Htc.
  - exact IH.
Qed.

End ToolCalls.

(** The round trip of [get_weather({"city":"Paris"})]. *)
Lemma tool_call_roundtrip_preserves_witness :
  Forall carried_arguments [paris_call]
  /\ Forall2 preserved [paris_call] (roundtrip [paris_call] 0).
Proof.
  assert (H : Forall carried_arguments [paris_call]).
  { constructor; [|constructor].
    exists (JObj [(lit "city", JStr (lit "Paris"))]).
    split; [reflexivity|]. split; [discriminate|reflexivity]. }
  split; [exact H|].
  exact (@tool_call_roundtrip_preserves sample_runtime paris_call [] 0 H).
Defined.

(** Arguments [null] come back as [{}]: the statement without the restriction
    fails. *)
Lemma tool_call_roundtrip_null_arguments :
  JSON_parse (call_arguments null_call) = Some JNull
  /\ ~ Forall2 preserved [null_call] (roundtrip [null_call] 0).
Proof.
  split; [reflexivity|].
  intros H. inversion H as [|? ? ? ? Hp _]; subst.
  destruct Hp as (_ & _ & v & Hv & Hv').
  vm_compute in Hv, Hv'. congruence.
Qed.

(** ** The Anthropic stream translator *)

(** Case analysis on an event as the event handlers read it: the innermost
    scrutinee of the goal is split until none is left. *)
Ltac event_cases :=
  repeat match goal with
         | |- context [match ?x with _ => _ end] =>
             match x with
             | context [match _ with _ => _ end] => fail 1
             | _ => destruct x eqn:?
             end
         | |- context [if ?x then _ else _] =>
             match x with
             | context [if _ then _ else _] => fail 1
             | _ => destruct x eqn:?
             end
         end.

Section Stream.

Context {RT : Runtime}.

Variable modelName : jsstring.

Lemma handle_event_buffer (b : jsstring) (st : StreamState) (event : json) :
  handle_event modelName (with_buffer b st) event
  = match handle_event modelName st event with
    | Ok (st', ws) => Ok (with_buffer b st', ws)
    | Throw e => Throw e
    end.
Proof.
  unfold handle_event, emit, makeChunk, bind, get_opt, get.
  destruct event; cbn -[lit]; try reflexivity.
  event_cases; cbn -[lit] in *; try reflexivity; try congruence.
Qed.

(** An exception can only come from the read of [event.type]: the state is
    as it was before the event, and nothing was written. *)
Lemma handle_event_throws (st : StreamState) (event : json) (e : error) :
  handle_event modelName st event = Throw e -> event = JNull.
Proof.
  unfold handle_event, emit, makeChunk, bind, get_opt, get.
  destruct event; cbn -[lit]; try reflexivity; try discriminate.
  intros H; exfalso; revert H.
  event_cases; cbn -[lit] in *; try discriminate;
    match goal with
    | H : _ && false = true |- _ => rewrite andb_false_r in H; discriminate H
    end.
Qed.

Lemma handle_or_skip_buffer (b : jsstring) (st : StreamState) (event : json) :
  handle_or_skip modelName (with_buffer b st) event
  = (with_buffer b (fst (handle_or_skip modelName st event)),
     snd (handle_or_skip modelName st event)).
Proof.
  unfold handle_or_skip. rewrite handle_event_buffer.
  destruct (handle_event modelName st event) as [[st' ws]|e]; reflexivity.
Qed.

Lemma handle_events_buffer (b : jsstring) (events : list json) (st : StreamState) :
  handle_events modelName (with_buffer b st) events
  = (with_buffer b (fst (handle_events modelName st events)),
     snd (handle_events modelName st events)).
Proof.
  revert st; induction events as [|e events IH]; intros st; [reflexivity|].
  cbn [handle_events]. rewrite handle_or_skip_buffer.
  destruct (handle_or_skip modelName st e) as [st1 ws1]; cbn [fst snd].
  rewrite IH.
  destruct (handle_events modelName st1 events) as [st2 ws2]; reflexivity.
Qed.

Lemma handle_events_app (a b : list json) (st : StreamState) :
  handle_events modelName st (a ++ b)
  = (fst (handle_events modelName (fst (handle_events modelName st a)) b),
     snd (handle_events modelName st a)
       ++ snd (handle_events modelName (fst (handle_events modelName st a)) b)).
Proof.
  revert st; induction a as [|e a IH]; intros st.
  - cbn [app handle_events fst snd].
    destruct (handle_events modelName st b); reflexivity.
  - cbn [app handle_events].
    destruct (handle_or_skip modelName st e) as [st1 ws1].
    rewrite IH.
    destruct (handle_events modelName st1 a) as [st2 ws2]; cbn [fst snd].
    destruct (handle_events modelName st2 b) as [st3 ws3]; cbn [fst snd].
    rewrite app_assoc; reflexivity.
Qed.

Lemma process_lines_events (lines : list jsstring) (st : StreamState) :
  process_lines modelName st lines
  = handle_events modelName st (events_of_lines lines).
Proof.
  revert st; induction lines as [|line lines IH]; intros st; [reflexivity|].
  change (events_of_lines (line :: lines))
    with (match event_of_line line with Some e => [e] | None => [] end
          ++ events_of_lines lines).
  cbn [process_lines]. unfold process_line.
  destruct (event_of_line line) as [event|]; cbn [app handle_events].
  - fold (handle_or_skip modelName st event).
    destruct (handle_or_skip modelName st event) as [st1 ws1].
    rewrite IH. reflexivity.
  - rewrite IH.
    destruct (handle_events modelName st (events_of_lines lines)); reflexivity.
Qed.

Lemma events_of_lines_app (a b : list jsstring) :
  events_of_lines (a ++ b) = events_of_lines a ++ events_of_lines b.
Proof. apply flat_map_app. Qed.

Lemma handle_events_keeps_buffer (events : list json) (st : StreamState) :
  buffer (fst (handle_events modelName st events)) = buffer st.
Proof.
  replace st with (with_buffer (buffer st) st) at 1 by (destruct st; reflexivity).
  rewrite handle_events_buffer. reflexivity.
Qed.

(** The loop over the reads writes what the translator writes on the
    events the reads carry. *)
Lemma process_reads_events (values : list jsstring) (st : StreamState) :
  snd (process_reads modelName st values)
  = snd (handle_events modelName st
           (events_of_lines (lines_of_reads (buffer st) values))).
Proof.
  revert st; induction values as [|value values IH]; intros st; [reflexivity|].
  cbn [process_reads lines_of_reads].
  unfold process_read.
  rewrite process_lines_events, handle_events_buffer.
  set (lines := split_lines (buffer st ++ value)).
  set (first := handle_events modelName st (events_of_lines (removelast lines))).
  specialize (IH (with_buffer (last lines []) (fst first))).
  destruct (process_reads modelName (with_buffer (last lines []) (fst first)) values)
    as [st2 ws2].
  cbn [snd fst] in *.
  rewrite events_of_lines_app, handle_events_app. cbn [snd]. fold first.
  rewrite IH. cbn [buffer with_buffer].
  rewrite handle_events_buffer. reflexivity.
Qed.

Lemma anthropic_stream_client_sees (bs : BodyStream) (res : Res) (clock : nat) :
  fst (fst (anthropic_stream modelName (Some bs) res clock))
  = client_sees modelName (events_of_reads (bs_values bs)) res clock.
Proof.
  unfold anthropic_stream, client_sees, events_of_reads.
  destruct (writeHead 200 sse_headers res) as [r1|e]; [|reflexivity].
  pose proof (process_reads_events (bs_values bs) (initial_stream clock)) as H.
  destruct (process_reads modelName (initial_stream clock) (bs_values bs)) as [st ws].
  cbn [fst snd] in *. rewrite H. reflexivity.
Qed.

(** The translator's flag is the specification's: it tells whether the
    upstream is inside a thinking block. *)
Lemma handle_or_skip_flag (st : StreamState) (event : json) :
  insideThinking (fst (handle_or_skip modelName st event))
  = inside_thinking_after [event] (insideThinking st).
Proof.
  unfold handle_or_skip, handle_event, emit, makeChunk, bind, get_opt, get,
    inside_thinking_after, event_type, block_type, bind, get_opt, get.
  destruct event; cbn -[lit]; try reflexivity.
  event_cases; cbn -[lit] in *; try reflexivity; try congruence.
Qed.

Lemma inside_thinking_after_app (a b : list json) (inside : bool) :
  inside_thinking_after (a ++ b) inside
  = inside_thinking_after b (inside_thinking_after a inside).
Proof.
  revert inside; induction a as [|e a IH]; intros inside; [reflexivity|].
  cbn [app inside_thinking_after]. apply IH.
Qed.

Lemma handle_events_flag (events : list json) (st : StreamState) :
  insideThinking (fst (handle_events modelName st events))
  = inside_thinking_after events (insideThinking st).
Proof.
  revert st; induction events as [|e events IH]; intros st; [reflexivity|].
  cbn [handle_events].
  pose proof (handle_or_skip_flag st e) as He.
  destruct (handle_or_skip modelName st e) as [st1 ws1]; cbn [fst] in He.
  specialize (IH st1).
  destruct (handle_events modelName st1 events) as [st2 ws2]; cbn [fst] in *.
  rewrite IH, He. reflexivity.
Qed.

(** A delta that arrives while the flag is set changes nothing and writes
    nothing. *)
Lemma delta_inside_thinking_skipped (st : StreamState) (event : json) :
  is_delta event = true ->
  insideThinking st = true ->
  handle_or_skip modelName st event = (st, []).
Proof.
  unfold is_delta, event_type, handle_or_skip, handle_event, bind, get.
  intros Hd Hin.
  destruct event; cbn -[lit] in *; try discriminate.
  rewrite Hd, Hin.
  destruct (is_str (assoc (lit "type") fields) (lit "content_block_start")) eqn:E1.
  { destruct (assoc (lit "type") fields) as [[| | |s| |]|]; cbn -[lit] in *; try discriminate.
    apply str_eqb_eq in Hd, E1. subst s. discriminate. }
  destruct (is_str (assoc (lit "type") fields) (lit "content_block_stop")) eqn:E2.
  { destruct (assoc (lit "type") fields) as [[| | |s| |]|]; cbn -[lit] in *; try discriminate.
    apply str_eqb_eq in Hd, E2. subst s. discriminate. }
  reflexivity.
Qed.


(** C5.  No delta received inside a thinking block reaches the client: when
    the upstream delivers a [content_block_delta] event while the last
    block to start is a thinking block that has not stopped, the response
    is, write for write, the response to the stream without that event.
    Nothing the event carries appears in any chunk. *)
Theorem thinking_deltas_never_reach_client :
  forall (bs : BodyStream) (res : Res) (clock : nat) (pre post : list json) (e : json),
    events_of_reads (bs_values bs) = pre ++ e :: post ->
    is_delta e = true ->
    inside_thinking_after pre false = true ->
    fst (fst (anthropic_stream modelName (Some bs) res clock))
    = client_sees modelName (pre ++ post) res clock.
Proof.
  intros bs res clock pre post e Hev Hd Hin.
  rewrite anthropic_stream_client_sees, Hev.
  unfold client_sees.
  destruct (writeHead 200 sse_headers res) as [r1|err]; [|reflexivity].
  do 3 f_equal.
  rewrite !handle_events_app. cbn [snd]. f_equal.
  set (st1 := fst (handle_events modelName (initial_stream clock) pre)).
  assert (Hflag : insideThinking st1 = true).
  { unfold st1. rewrite handle_events_flag. exact Hin. }
  cbn [handle_events].
  rewrite (delta_inside_thinking_skipped st1 e Hd Hflag).
  destruct (handle_events modelName st1 post); reflexivity.
Qed.

(** *** The shape of the chunks *)

Lemma handle_or_skip_writes (st : StreamState) (event : json) :
  Forall (fun w => translator_write w /\ names_model modelName w)
         (snd (handle_or_skip modelName st event)).
Proof.
  unfold handle_or_skip, handle_event, emit, makeChunk, bind, get_opt, get.
  destruct event; cbn -[lit]; try constructor.
  event_cases; cbn -[lit] in *; repeat constructor; eexists; split; reflexivity.
Qed.

Lemma handle_events_writes (events : list json) (st : StreamState) :
  Forall (fun w => translator_write w /\ names_model modelName w)
         (snd (handle_events modelName st events)).
Proof.
  revert st; induction events as [|e events IH]; intros st; [constructor|].
  cbn [handle_events].
  pose proof (handle_or_skip_writes st e) as He.
  destruct (handle_or_skip modelName st e) as [st1 ws1]; cbn [snd] in He.
  specialize (IH st1).
  destruct (handle_events modelName st1 events) as [st2 ws2]; cbn [snd] in *.
  apply Forall_app; split; assumption.
Qed.

End Stream.

(** *** What [write] and [end] add to the body *)

Lemma body_write (w : Write) (r : Res) :
  body (write w r) = body r ++ (if writableEnded r then [] else [w]).
Proof.
  unfold write. destruct (writableEnded r); cbn [body]; [rewrite app_nil_r|]; reflexivity.
Qed.

Lemma body_write_all (ws : list Write) (r : Res) :
  body (write_all ws r) = body r ++ (if writableEnded r then [] else ws).
Proof.
  unfold write_all. revert r; induction ws as [|w ws IH]; intros r; cbn [fold_left].
  - destruct (writableEnded r); rewrite app_nil_r; reflexivity.
  - rewrite IH, body_write.
    unfold write at 1. destruct (writableEnded r) eqn:E.
    + rewrite E, !app_nil_r. reflexivity.
    + cbn [writableEnded]. rewrite <- app_assoc. reflexivity.
Qed.

Lemma writableEnded_write_all (ws : list Write) (r : Res) :
  writableEnded (write_all ws r) = writableEnded r.
Proof.
  unfold write_all. revert r; induction ws as [|w ws IH]; intros r; cbn [fold_left];
    [reflexivity|].
  rewrite IH. unfold write. destruct (writableEnded r) eqn:E; [exact E|reflexivity].
Qed.

Lemma body_writeHead (status : Z) (hs : list (jsstring * jsstring)) (r r1 : Res) :
  writeHead status hs r = Ok r1 ->
  body r1 = body r /\ writableEnded r1 = writableEnded r /\ headersSent r = false
  /\ headersSent r1 = true.
Proof.
  unfold writeHead. destruct (headersSent r) eqn:E; [discriminate|].
  intros H; injection H as <-. repeat split.
Qed.

(** Everything a list of writes adds to an open or closed response
    satisfies what every write of the list satisfies. *)
Lemma written_Forall (P : Write -> Prop) (ws : list Write) (ended : bool) :
  Forall P ws -> Forall P (if ended then [] else ws).
Proof. destruct ended; [constructor|trivial]. Qed.

Section Responses.

Context {RT : Runtime}.

Lemma anthropic_stream_writes (modelName : jsstring) (stream_view : option BodyStream)
  (res : Res) (clock : nat) :
  exists ws,
    body (fst (fst (anthropic_stream modelName stream_view res clock))) = body res ++ ws
    /\ Forall (fun w => translator_write w /\ names_model modelName w) ws.
Proof.
  unfold anthropic_stream.
  destruct (writeHead 200 sse_headers res) as [r1|err] eqn:Hw;
    [|exists []; rewrite app_nil_r; split; [reflexivity|constructor]].
  apply body_writeHead in Hw as (Hb & He & _ & _).
  destruct stream_view as [bs|];
    [|exists []; cbn [fst]; rewrite app_nil_r; split; [exact Hb|constructor]].
  pose proof (process_reads_events modelName (bs_values bs) (initial_stream clock)) as Hp.
  destruct (process_reads modelName (initial_stream clock) (bs_values bs)) as [st ws].
  cbn [fst snd] in *.
  eexists; split.
  - unfold end_; cbn [body]. rewrite body_write, body_write_all, writableEnded_write_all, Hb.
    rewrite <- app_assoc. reflexivity.
  - apply Forall_app; split; apply written_Forall.
    + rewrite Hp. apply handle_events_writes.
    + repeat constructor.
Qed.

(** C10.  Every SSE event the Anthropic stream translator writes is the
    terminator or a chunk whose [object] is ["chat.completion.chunk"] and
    whose [choices] is an array of exactly one element, of [index] 0: the
    text chunks, the tool-call chunks and the finish chunk alike. *)
Theorem anthropic_stream_chunk_shape :
  forall (modelName : jsstring) (stream_view : option BodyStream) (res : Res) (clock : nat),
    exists ws,
      body (fst (fst (anthropic_stream modelName stream_view res clock))) = body res ++ ws
      /\ Forall translator_write ws.
Proof.
  intros modelName stream_view res clock.
  destruct (anthropic_stream_writes modelName stream_view res clock) as (ws & Hb & Hf).
  exists ws; split; [exact Hb|].
  eapply Forall_impl; [|exact Hf]. intros w [H _]; exact H.
Qed.

End Responses.

(** The reply that thinks first: the delta of the thinking block is the
    second event, and the client receives the reply as if it had not been
    sent. *)
Lemma thinking_deltas_never_reach_client_witness :
  events_of_reads (bs_values thinking_reply)
  = [block_start_event "thinking"] ++ text_delta_event "the secret plan"
      :: skipn 2 (events_of_reads (bs_values thinking_reply))
  /\ fst (fst (anthropic_stream (lit "claude-sonnet-4-5") (Some thinking_reply) fresh_res 0))
     = client_sees (lit "claude-sonnet-4-5")
         ([block_start_event "thinking"]
            ++ skipn 2 (events_of_reads (bs_values thinking_reply)))
         fresh_res 0.
Proof.
  assert (H : events_of_reads (bs_values thinking_reply)
              = [block_start_event "thinking"] ++ text_delta_event "the secret plan"
                  :: skipn 2 (events_of_reads (bs_values thinking_reply)))
    by (vm_compute; reflexivity).
  split; [exact H|].
  apply (@thinking_deltas_never_reach_client sample_runtime (lit "claude-sonnet-4-5")
           thinking_reply fresh_res 0 [block_start_event "thinking"]
           (skipn 2 (events_of_reads (bs_values thinking_reply)))
           (text_delta_event "the secret plan") H);
    vm_compute; reflexivity.
Defined.

(** *** The revision without tool calls

    Its event handler keeps the same flag and writes chunks of the same
    shape under the same model name. *)

Section StreamWithoutTools.

Context {RT : Runtime}.

Variable modelName : jsstring.

Lemma without_tools_flag (inside : bool) (clock : nat) (event : json) :
  match ProviderWithoutTools.handle_event modelName (inside, clock) event with
  | Ok (inside', _, _) => inside' = inside_thinking_after [event] inside
  | Throw _ => event = JNull
  end.
Proof.
  unfold ProviderWithoutTools.handle_event, ProviderWithoutTools.chunk,
    inside_thinking_after, event_type, block_type, bind, get_opt, get.
  destruct event; cbn -[lit]; try reflexivity.
  event_cases; cbn -[lit] in *; try reflexivity; try congruence.
Qed.

Lemma without_tools_delta_inside_thinking_skipped (clock : nat) (event : json) :
  is_delta event = true ->
  ProviderWithoutTools.handle_event modelName (true, clock) event = Ok (true, clock, []).
Proof.
  unfold is_delta, event_type, ProviderWithoutTools.handle_event, bind, get.
  intros Hd.
  destruct event; cbn -[lit] in *; try discriminate.
  rewrite Hd.
  destruct (is_str (assoc (lit "type") fields) (lit "content_block_start")) eqn:E1.
  { destruct (assoc (lit "type") fields) as [[| | |s| |]|]; cbn -[lit] in *; try discriminate.
    apply str_eqb_eq in Hd, E1. subst s. discriminate. }
  destruct (is_str (assoc (lit "type") fields) (lit "content_block_stop")) eqn:E2.
  { destruct (assoc (lit "type") fields) as [[| | |s| |]|]; cbn -[lit] in *; try discriminate.
    apply str_eqb_eq in Hd, E2. subst s. discriminate. }
  reflexivity.
Qed.

Lemma without_tools_writes (st : bool * nat) (event : json) :
  match ProviderWithoutTools.handle_event modelName st event with
  | Ok (_, ws) => Forall (fun w => translator_write w /\ names_model modelName w) ws
  | Throw _ => True
  end.
Proof.
  unfold ProviderWithoutTools.handle_event, ProviderWithoutTools.chunk, bind, get_opt, get.
  destruct st as [inside clock].
  destruct event; cbn -[lit]; try constructor.
  event_cases; cbn -[lit] in *; repeat constructor; eexists; split; reflexivity.
Qed.

Lemma without_tools_completion_model (data : AnthropicResponse) (clock : nat) :
  names_model modelName (WJson (fst (ProviderWithoutTools.completion modelName data clock))).
Proof. reflexivity. Qed.

End StreamWithoutTools.

(** ** C2: the model field of the responses *)

Lemma assoc_set_field (A : Type) (k : jsstring) (v : A) (fs : list (jsstring * A)) :
  assoc k (set_field k v fs) = Some v.
Proof.
  induction fs as [|[k' v'] fs IH]; cbn [set_field assoc].
  - rewrite str_eqb_refl. reflexivity.
  - destruct (str_eqb k k') eqn:E; cbn [assoc]; rewrite E; [reflexivity|exact IH].
Qed.

Section ModelField.

Context {RT : Runtime}.












End ModelField.



(** ** C4: fallback and failures after the headers *)

Section Fallback.

Context {RT : Runtime} {SC : Scorer}.

(** One turn of the fallback loop: a failed attempt is followed by the
    next entry of the chain exactly when the response headers have not
    been sent; a timeout is counted either way. *)
Lemma try_models_after_failure (B : Backend) (chatReq : ChatRequest)
  (routedModel tier : jsstring) (stream : bool) (modelToTry : jsstring)
  (rest : list jsstring) (lastError : jsstring) (stats : Stats) (res : Res) (clock : nat)
  (res1 : Res) (clock1 : nat) (err : error) :
  match (if str_eqb modelToTry routedModel then Ok res
         else setHeader (lit "X-ClawRouter-Model") modelToTry res) with
  | Throw e => (res, clock, Throw e)
  | Ok r0 => forwardRequest B chatReq modelToTry tier stream r0 clock
  end = (res1, clock1, Throw err) ->
  try_models B chatReq routedModel tier stream (modelToTry :: rest) lastError stats res clock
  = let stats1 := if is_timeout err then count_timeout stats else stats in
    if headersSent res1
    then (stats1, res1, clock1, Failed (error_message err))
    else try_models B chatReq routedModel tier stream rest (error_message err)
           stats1 res1 clock1.
Proof. intros H. cbn [try_models]. rewrite H. reflexivity. Qed.

Lemma try_models_after_success (B : Backend) (chatReq : ChatRequest)
  (routedModel tier : jsstring) (stream : bool) (modelToTry : jsstring)
  (rest : list jsstring) (lastError : jsstring) (stats : Stats) (res : Res) (clock : nat)
  (res1 : Res) (clock1 : nat) :
  match (if str_eqb modelToTry routedModel then Ok res
         else setHeader (lit "X-ClawRouter-Model") modelToTry res) with
  | Throw e => (res, clock, Throw e)
  | Ok r0 => forwardRequest B chatReq modelToTry tier stream r0 clock
  end = (res1, clock1, Ok tt) ->
  try_models B chatReq routedModel tier stream (modelToTry :: rest) lastError stats res clock
  = (stats, res1, clock1, Succeeded).
Proof. intros H. cbn [try_models]. rewrite H. reflexivity. Qed.

(** A stream that breaks after the headers: the [finally] block of the
    translator has written the terminator and ended the response, so the
    handler, which writes its error event only to a response that has not
    ended, writes nothing. *)
Lemma broken_stream_is_ended_by_the_translator (modelName : jsstring) (bs : BodyStream)
  (e : error) (res : Res) (clock : nat) (lastError : jsstring) :
  headersSent res = false ->
  bs_end bs = ReadThrows e ->
  let '(res1, _, outcome) := anthropic_stream modelName (Some bs) res clock in
  outcome = Throw e
  /\ headersSent res1 = true
  /\ writableEnded res1 = true
  /\ fail_response lastError res1 = Ok res1.
Proof.
  intros Hh He. unfold anthropic_stream, writeHead. rewrite Hh.
  destruct (process_reads modelName (initial_stream clock) (bs_values bs)) as [st ws].
  rewrite He. repeat split.
Qed.

End Fallback.

(** C4 (the code at the failing input).  A streaming request routed to
    the MEDIUM tier, whose chain is claude-sonnet-4-5 then claude-opus-4-6,
    on an upstream whose stream breaks after the first delta: no fallback
    is attempted, the error is counted, and the client receives the chunk
    and the terminator, with no error event between them. *)
Theorem broken_stream_gets_no_error_event :
  let '(stats, res, _, outcome) :=
    handleChatCompletions (SC := sample_scorer) breaking_backend default_routing no_pricing
      (Some (chat_request "auto" (lit "/medium hello") true)) no_stats fresh_res 0 in
  outcome = Ok tt
  /\ errors stats = 1%Z
  /\ assoc (lit "X-ClawRouter-Model") (headers res)
     = Some (lit "anthropic/claude-sonnet-4-5")
  /\ writableEnded res = true
  /\ map is_error_event (body res) = [false; false]
  /\ last (body res) (WRaw []) = WDone.
Proof. vm_compute. repeat split. Qed.

(** A failure before the headers, for comparison: the primary of the SIMPLE
    tier cannot be reached, and the request is answered by the fallback. *)
Lemma unreachable_primary_falls_back :
  let backend :=
    {| getAuth := sample_auth;
       fetch_anthropic := fun _ => FetchOk (Ok hello_response) None;
       fetch_openai := fun _ => FetchThrows (Error (lit "fetch failed")) |} in
  let '(stats, res, _, outcome) :=
    handleChatCompletions (SC := sample_scorer) backend default_routing no_pricing
      (Some (chat_request "auto" (lit "hello") false)) no_stats fresh_res 0 in
  outcome = Ok tt
  /\ errors stats = 0%Z
  /\ statusCode res = Some 200%Z
  /\ assoc (lit "X-ClawRouter-Model") (headers res)
     = Some (lit "anthropic/claude-haiku-4-5")
  /\ List.length (body res) = 1.
Proof. vm_compute. repeat split. Qed.

(** ** C8: timeouts, as far as the handler goes

    The deadlines themselves are timers of the provider; what the handler
    does with their outcome is the loop above: an attempt that ends in a
    [TimeoutError] is counted, and is followed by the next entry of the
    chain when the headers have not been sent. *)
Lemma timeout_is_counted (s : Stats) (m : jsstring) :
  (if is_timeout (TimeoutError m) then count_timeout s else s) = count_timeout s
  /\ timeouts (count_timeout s) = (timeouts s + 1)%Z.
Proof. split; reflexivity. Qed.

(** ** C3: reloading the configuration *)

Section Reload.

Context {RT : Runtime}.

Lemma loadConfig_ignores_state (fs : Config.FsEnv) (st st' : Config.ConfigState) :
  Config.loadConfig fs st = Config.loadConfig fs st'.
Proof. reflexivity. Qed.

(** C3 (amended).  When a configuration file is found and reading or
    parsing it fails during a reload, the active configuration afterwards
    is the built-in default configuration, with no configuration path,
    whatever snapshot was active before; the endpoint leaves the same
    state behind. *)
Theorem failed_reload_installs_defaults :
  forall (fs : Config.FsEnv) (st : Config.ConfigState) (path : jsstring) (res : Res),
    Config.findConfigFile fs = Some path ->
    (exists e, Config.readFileSync fs path = Throw e)
    \/ (exists raw, Config.readFileSync fs path = Ok raw /\ JSON_parse raw = None) ->
    Config.reloadConfig fs st = Config.defaults_state
    /\ fst (handleReloadConfig fs st res) = Config.defaults_state.
Proof.
  intros fs st path res Hfind Hfail.
  assert (H : Config.reloadConfig fs st = Config.defaults_state).
  { unfold Config.reloadConfig, Config.loadConfig. rewrite Hfind.
    unfold Config.load_from, bind.
    destruct Hfail as [[e He]|(raw & Hr & Hp)].
    - rewrite He. reflexivity.
    - rewrite Hr, Hp. reflexivity. }
  split; [exact H|].
  unfold handleReloadConfig. rewrite H. reflexivity.
Qed.

End Reload.

(** A reload that meets the file with the missing brace. *)
Lemma failed_reload_installs_defaults_witness :
  Config.findConfigFile (fs_with (Ok broken_file)) = Some config_path
  /\ JSON_parse broken_file = None
  /\ Config.reloadConfig (fs_with (Ok broken_file))
       (Config.loadConfig (fs_with (Ok good_file)) Config.defaults_state)
     = Config.defaults_state.
Proof.
  assert (Hfind : Config.findConfigFile (fs_with (Ok broken_file)) = Some config_path)
    by reflexivity.
  assert (Hparse : JSON_parse broken_file = None) by reflexivity.
  split; [exact Hfind|]. split; [exact Hparse|].
  apply (@failed_reload_installs_defaults sample_runtime (fs_with (Ok broken_file))
           (Config.loadConfig (fs_with (Ok good_file)) Config.defaults_state)
           config_path fresh_res Hfind).
  right. exists broken_file. split; [reflexivity|exact Hparse].
Defined.

(** The snapshot loaded from the good file listens on 0.0.0.0; after the
    failed reload the active configuration is another one: the previous
    snapshot does not remain. *)
Lemma failed_reload_drops_the_snapshot :
  let before := Config.loadConfig (fs_with (Ok good_file)) Config.defaults_state in
  let after := Config.reloadConfig (fs_with (Ok broken_file)) before in
  option_map (assoc (lit "host")) (Config._config before)
  = Some (Some (JStr (lit "0.0.0.0")))
  /\ Config._configPath before = Some config_path
  /\ Config._config after <> Config._config before
  /\ Config._configPath after = None.
Proof.
  cbv zeta. split; [reflexivity|]. split; [reflexivity|]. split; [|reflexivity].
  intros H. apply (f_equal (option_map (assoc (lit "host")))) in H.
  vm_compute in H. discriminate H.
Qed.

(** The endpoint answers the failed reload like a successful one: status
    200, the body reporting the built-in defaults as reloaded. *)
Lemma failed_reload_is_answered_200 :
  let out := handleReloadConfig (fs_with (Ok broken_file))
               (Config.loadConfig (fs_with (Ok good_file)) Config.defaults_state)
               fresh_res in
  fst out = Config.defaults_state
  /\ exists r, snd out = Ok r
       /\ statusCode r = Some 200%Z
       /\ writableEnded r = true
       /\ body r = [WJson (JObj [(lit "status", JStr (lit "reloaded"));
                                 (lit "configPath", JNull);
                                 (lit "providers",
                                  JArr [JStr (lit "anthropic"); JStr (lit "kimi-coding")]);
                                 (lit "tiers",
                                  JArr [JStr (lit "SIMPLE"); JStr (lit "MEDIUM");
                                        JStr (lit "COMPLEX"); JStr (lit "REASONING")])])].
Proof.
  cbv zeta. split; [reflexivity|].
  eexists. split; [vm_compute; reflexivity|].
  repeat split.
Qed.

(** No validation stands between the file and the snapshot: a tier whose
    primary names a provider that is not configured is published. *)
Lemma reload_publishes_a_dangling_tier :
  let after := Config.reloadConfig (fs_with (Ok dangling_file)) Config.defaults_state in
  Config._configPath after = Some config_path
  /\ option_map
       (fun c => nullish (assoc (lit "SIMPLE") match assoc (lit "tiers") c with
                                               | Some (JObj t) => t
                                               | _ => []
                                               end) JNull)
       (Config._config after)
     = Some (JObj [(lit "primary", JStr (lit "nowhere/model-x"));
                   (lit "fallback", JArr [JStr (lit "anthropic/claude-haiku-4-5")])]).
Proof. vm_compute. split; reflexivity. Qed.

(** ** C1: the structured-output upgrade *)

Section StructuredOutput.

Context {SC : Scorer}.

Lemma selectModel_tier (t : Tier) (conf : number) (method reasoning : jsstring)
  (tierConfigs : TierTable) (pricing : jsstring -> option ModelPricing)
  (inTokens outTokens : Z) :
  tierConfigs t <> None ->
  exists d, selectModel t conf method reasoning tierConfigs pricing inTokens outTokens = Ok d
            /\ rd_tier d = t.
Proof.
  intros H. unfold selectModel.
  destruct (tierConfigs t) as [tierConfig|]; [|contradiction].
  eexists; split; reflexivity.
Qed.

Lemma selected_table_complete (cfg : RoutingConfig) (use : bool) (t : Tier) :
  tables_complete cfg ->
  match agenticTiers cfg with
  | Some a => if use then a else tiers cfg
  | None => tiers cfg
  end t <> None.
Proof.
  intros H. destruct (H t) as [Ht Ha].
  destruct (agenticTiers cfg) as [a|]; [|exact Ht].
  destruct use; [apply Ha; reflexivity|exact Ht].
Qed.

(** C1 (amended).  With complete tier tables [route] returns a decision.
    When the large-context override fires its tier is COMPLEX, whatever the
    prompts contain.  Otherwise its tier is the scored tier raised to
    [structuredOutputMinTier] exactly when the user prompt matches
    [/json|structured|schema/i]; for a user prompt that does not match it
    is the scored tier as it is, whatever the system prompt contains. *)
Theorem structured_output_upgrade_follows_user_prompt :
  forall (options : RouterOptions) (prompt : jsstring) (systemPrompt : option jsstring)
         (maxOutputTokens : Z),
    tables_complete (config options) ->
    exists d,
      route prompt systemPrompt maxOutputTokens options = Ok d
      /\ rd_tier d
         = (if large_context (config options) prompt systemPrompt then COMPLEX
            else if structured_output_regex prompt
                 then tier_max (scored_tier (config options) prompt systemPrompt)
                        (structuredOutputMinTier (overrides (config options)))
                 else scored_tier (config options) prompt systemPrompt).
Proof.
  intros options prompt systemPrompt maxOutputTokens Hc.
  unfold route, large_context, scored_tier, tier_max.
  set (cfg := config options).
  set (ruleResult := classifyByRules prompt systemPrompt _ (scoring cfg)).
  destruct (_ <? _)%Z.
  - apply selectModel_tier, selected_table_complete, Hc.
  - destruct (tier ruleResult) as [t|];
      destruct (structured_output_regex prompt); cbn [andb];
      try destruct (tierRank _ <? tierRank _)%Z;
      apply selectModel_tier, selected_table_complete, Hc.
Qed.

End StructuredOutput.

(** A greeting under a system prompt that asks for JSON: the user prompt
    does not match, and the tier stays SIMPLE. *)
Lemma structured_output_upgrade_follows_user_prompt_witness :
  exists d,
    route (SC := sample_scorer) (lit "hello") (Some (lit "Always answer in JSON.")) 4096
      {| config := default_routing; modelPricing := no_pricing |} = Ok d
    /\ rd_tier d = SIMPLE.
Proof.
  assert (Hc : tables_complete default_routing).
  { intros t; split.
    - destruct t; discriminate.
    - intros a Ha; injection Ha as <-; destruct t; discriminate. }
  exact (@structured_output_upgrade_follows_user_prompt sample_scorer
           {| config := default_routing; modelPricing := no_pricing |}
           (lit "hello") (Some (lit "Always answer in JSON.")) 4096 Hc).
Defined.

(** With the minimum raised to REASONING, a prompt that asks for JSON under
    a system prompt long enough for the large-context override is routed to
    COMPLEX: the tier is not raised to the minimum although the user prompt
    matches. *)
Lemma large_context_preempts_the_upgrade :
  structured_output_regex (lit "Reply in JSON.") = true
  /\ ~ upgraded_when_user_prompt_matches (SC := sample_scorer)
         {| config := strict_routing; modelPricing := no_pricing |}
         (lit "Reply in JSON.") (Some long_system_prompt) 4096.
Proof.
  split; [reflexivity|].
  intros (d & Hd & Hup).
  specialize (Hup eq_refl).
  assert (Ht : rd_tier d = COMPLEX).
  { revert Hd. vm_compute. intros H; injection H as <-. reflexivity. }
  rewrite Ht in Hup. vm_compute in Hup. apply Hup. reflexivity.
Qed.

(** The revision before release 1.2.0 tested the system prompt: the same
    greeting under the same system prompt was raised to MEDIUM. *)
Lemma before_1_2_0_system_prompt_upgrades :
  exists d,
    RouterBefore_1_2_0.route (SC := sample_scorer) (lit "hello")
      (Some (lit "Always answer in JSON.")) 4096
      {| config := default_routing; modelPricing := no_pricing |} = Ok d
    /\ rd_tier d = MEDIUM.
Proof. eexists; split; vm_compute; reflexivity. Qed.

(** ** C7: mode overrides *)

Lemma takeWhile_app (p : N -> bool) (w r : jsstring) :
  forallb p w = true -> takeWhile p (w ++ r) = w ++ takeWhile p r.
Proof.
  induction w as [|c w IH]; cbn [forallb app takeWhile]; [reflexivity|].
  intros H. apply andb_true_iff in H as [Hc Hw]. rewrite Hc, IH by exact Hw. reflexivity.
Qed.

Lemma dropWhile_app (p : N -> bool) (w r : jsstring) :
  forallb p w = true -> dropWhile p (w ++ r) = dropWhile p r.
Proof.
  induction w as [|c w IH]; cbn [forallb app dropWhile]; [reflexivity|].
  intros H. apply andb_true_iff in H as [Hc Hw]. rewrite Hc. apply IH, Hw.
Qed.

Lemma takeWhile_app_stop (p : N -> bool) (w : jsstring) (c : N) (r : jsstring) :
  forallb p w = true -> p c = false -> takeWhile p (w ++ c :: r) = w.
Proof.
  intros Hw Hc. rewrite takeWhile_app by exact Hw.
  cbn [takeWhile]. rewrite Hc. apply app_nil_r.
Qed.

Lemma dropWhile_app_stop (p : N -> bool) (w : jsstring) (c : N) (r : jsstring) :
  forallb p w = true -> p c = false -> dropWhile p (w ++ c :: r) = c :: r.
Proof.
  intros Hw Hc. rewrite dropWhile_app by exact Hw.
  cbn [dropWhile]. rewrite Hc. reflexivity.
Qed.

Lemma takeWhile_dropWhile (p : N -> bool) (s : jsstring) :
  takeWhile p s ++ dropWhile p s = s.
Proof.
  induction s as [|c s IH]; cbn [takeWhile dropWhile]; [reflexivity|].
  destruct (p c); cbn [app]; [rewrite IH|]; reflexivity.
Qed.

Lemma dropWhile_idem (p : N -> bool) (s : jsstring) :
  dropWhile p (dropWhile p s) = dropWhile p s.
Proof.
  induction s as [|c s IH]; cbn [dropWhile]; [reflexivity|].
  destruct (p c) eqn:E; [exact IH|]. cbn [dropWhile]. rewrite E. reflexivity.
Qed.

Lemma trim_dropWhile_space (s : jsstring) : trim (dropWhile is_space s) = trim s.
Proof. unfold trim, trimStart. rewrite dropWhile_idem. reflexivity. Qed.

Lemma skipn_length_app (A : Type) (a b : list A) : skipn (List.length a) (a ++ b) = b.
Proof. induction a as [|x a IH]; [reflexivity|exact IH]. Qed.

(** *** The character classes are disjoint *)

Ltac chars :=
  unfold is_mode_sep, is_space, is_letter, is_upper, is_lower, ascii_lower in *;
  repeat match goal with
         | H : _ || _ = true |- _ => apply orb_true_iff in H; destruct H as [H|H]
         | H : _ && _ = true |- _ => apply andb_true_iff in H; destruct H
         | H : (_ <=? _)%N = true |- _ => apply N.leb_le in H
         | H : N.eqb _ _ = true |- _ => apply N.eqb_eq in H
         end.

Lemma letter_not_space (c : N) : is_letter c = true -> is_space c = false.
Proof.
  intros H. destruct (is_space c) eqn:E; [exfalso|reflexivity].
  chars; lia.
Qed.

Lemma space_not_letter (c : N) : is_space c = true -> is_letter c = false.
Proof.
  intros H. destruct (is_letter c) eqn:E; [|reflexivity].
  apply letter_not_space in E. congruence.
Qed.

Lemma letter_not_punctuation (c : N) :
  is_letter c = true -> N.eqb c 47 = false /\ N.eqb c 91 = false /\ N.eqb c 93 = false.
Proof.
  intros H. repeat split; apply N.eqb_neq; intros ->; discriminate H.
Qed.

Lemma lower_of_letter (c : N) : is_lower (ascii_lower c) = true -> is_letter c = true.
Proof.
  unfold ascii_lower, is_letter. destruct (is_upper c) eqn:E; [reflexivity|].
  intros ->. reflexivity.
Qed.

Lemma lowered_word (w : jsstring) :
  forallb is_lower (toLowerCase w) = true -> forallb is_letter w = true.
Proof.
  induction w as [|c w IH]; cbn [toLowerCase map forallb]; [reflexivity|].
  intros H. apply andb_true_iff in H as [Hc Hw].
  rewrite (lower_of_letter _ Hc). exact (IH Hw).
Qed.

(** The own keys of [modeMap] are words of lower-case letters. *)
Lemma modeMap_own_key (m : jsstring) (t : Tier) :
  modeMap m = Own t -> nonempty m = true /\ forallb is_lower m = true.
Proof.
  unfold modeMap. intros H.
  repeat match type of H with
         | context [str_eqb m ?l] =>
             let E := fresh "E" in
             destruct (str_eqb m l) eqn:E;
             [apply str_eqb_eq in E; subst m; split; reflexivity | cbn [orb] in H]
         end.
  destruct (inherited m); discriminate H.
Qed.

Lemma alias_is_word (word : jsstring) (t : Tier) :
  modeMap (toLowerCase word) = Own t -> is_word word = true.
Proof.
  intros H. apply modeMap_own_key in H as [Hn Hl].
  unfold is_word. rewrite (lowered_word _ Hl).
  destruct word; [discriminate Hn|reflexivity].
Qed.

(** *** The three patterns on a directive *)

Ltac lengths :=
  repeat first [rewrite length_app | progress cbn [List.length app]]; lia.

Lemma match_slash_directive (word spaces text : jsstring) :
  is_word word = true ->
  nonempty spaces && forallb is_space spaces = true ->
  match_slash (lit "/" ++ word ++ spaces ++ text)
  = Some (word, List.length (lit "/" ++ word ++ spaces ++ takeWhile is_space text)).
Proof.
  unfold is_word. intros Hw Hs.
  apply andb_true_iff in Hw as [Hwn Hw], Hs as [Hsn Hs].
  destruct spaces as [|s spaces]; [discriminate Hsn|].
  pose proof Hs as Hs'. cbn [forallb] in Hs'. apply andb_true_iff in Hs' as [Hs0 _].
  change (lit "/" ++ ?x) with (47%N :: x). cbn [match_slash N.eqb Pos.eqb].
  change ((s :: spaces) ++ text) with (s :: spaces ++ text).
  rewrite takeWhile_app_stop, dropWhile_app_stop
    by (try exact Hw; apply space_not_letter, Hs0).
  change (s :: spaces ++ text) with ((s :: spaces) ++ text).
  rewrite takeWhile_app by exact Hs.
  destruct word as [|c word]; [discriminate Hwn|].
  cbn [app]. apply f_equal, f_equal. lengths.
Qed.

Lemma match_prefix_directive (word spaces mode separators text : jsstring) :
  is_word word = true ->
  directive_ok (WordForm spaces mode separators) = true ->
  match_prefix (word ++ spaces ++ mode ++ separators ++ text)
  = Some (word,
          List.length (word ++ spaces ++ mode ++ separators ++ takeWhile is_mode_sep text)).
Proof.
  unfold is_word, directive_ok. intros Hw Hf.
  apply andb_true_iff in Hw as [Hwn Hw].
  apply andb_true_iff in Hf as [Hf Hp].
  apply andb_true_iff in Hf as [Hf Hpn].
  apply andb_true_iff in Hf as [Hf Hm].
  apply andb_true_iff in Hf as [Hsn Hs].
  apply str_eqb_eq in Hm.
  destruct spaces as [|s spaces]; [discriminate Hsn|].
  pose proof Hs as Hs'. cbn [forallb] in Hs'. apply andb_true_iff in Hs' as [Hs0 _].
  destruct mode as [|m1 [|m2 [|m3 [|m4 [|m5 mode]]]]]; try discriminate Hm.
  cbn [toLowerCase map] in Hm. injection Hm as H1 H2 H3 H4.
  assert (Hm1 : is_space m1 = false).
  { apply letter_not_space, lower_of_letter. rewrite H1. reflexivity. }
  unfold match_prefix.
  change ((s :: spaces) ++ ?x) with (s :: spaces ++ x).
  rewrite takeWhile_app_stop, dropWhile_app_stop
    by (try exact Hw; apply space_not_letter, Hs0).
  change (s :: spaces ++ ?x) with ((s :: spaces) ++ x).
  change ([m1; m2; m3; m4] ++ ?x) with (m1 :: [m2; m3; m4] ++ x).
  rewrite takeWhile_app_stop, dropWhile_app_stop by (try exact Hs; exact Hm1).
  change (lit "mode") with [109; 111; 100; 101]%N.
  cbn [startsWith_ci app]. unfold ci_eqb. rewrite H1, H2, H3, H4.
  change (ascii_lower 109) with 109%N. change (ascii_lower 111) with 111%N.
  change (ascii_lower 100) with 100%N. change (ascii_lower 101) with 101%N.
  rewrite !N.eqb_refl. cbn [andb skipn].
  rewrite takeWhile_app by exact Hp.
  destruct word as [|c word]; [discriminate Hwn|].
  destruct separators as [|p separators]; [discriminate Hpn|].
  cbn [app]. apply f_equal, f_equal. lengths.
Qed.

Lemma match_bracket_directive (word spaces text : jsstring) :
  is_word word = true ->
  forallb is_space spaces = true ->
  match_bracket (lit "[" ++ word ++ lit "]" ++ spaces ++ text)
  = Some (word,
          List.length (lit "[" ++ word ++ lit "]" ++ spaces ++ takeWhile is_space text)).
Proof.
  unfold is_word. intros Hw Hs.
  apply andb_true_iff in Hw as [Hwn Hw].
  change (lit "[" ++ ?x) with (91%N :: x).
  change (lit "]" ++ ?x) with (93%N :: x).
  cbn [match_bracket N.eqb Pos.eqb].
  rewrite takeWhile_app_stop, dropWhile_app_stop by (try exact Hw; reflexivity).
  destruct word as [|c word]; [discriminate Hwn|].
  cbn [N.eqb Pos.eqb].
  rewrite takeWhile_app by exact Hs.
  apply f_equal, f_equal. lengths.
Qed.

(** Patterns that do not apply to the other forms. *)
Lemma match_slash_letter (c : N) (r : jsstring) :
  is_letter c = true -> match_slash (c :: r) = None.
Proof.
  intros H. cbn [match_slash].
  destruct (letter_not_punctuation c H) as (-> & _ & _). reflexivity.
Qed.

Lemma match_bracket_letter (c : N) (r : jsstring) :
  is_letter c = true -> match_bracket (c :: r) = None.
Proof.
  intros H. cbn [match_bracket].
  destruct (letter_not_punctuation c H) as (_ & -> & _). reflexivity.
Qed.

Lemma match_prefix_slash (r : jsstring) : match_prefix (47%N :: r) = None.
Proof. reflexivity. Qed.

Lemma match_prefix_bracket (r : jsstring) : match_prefix (91%N :: r) = None.
Proof. reflexivity. Qed.

Lemma match_slash_bracket (r : jsstring) : match_slash (91%N :: r) = None.
Proof. reflexivity. Qed.

Lemma match_bracket_slash (r : jsstring) : match_bracket (47%N :: r) = None.
Proof. reflexivity. Qed.

Lemma skipn_matched (p : N -> bool) (pre text : jsstring) :
  skipn (List.length (pre ++ takeWhile p text)) (pre ++ text) = dropWhile p text.
Proof.
  transitivity (skipn (List.length (pre ++ takeWhile p text))
                      ((pre ++ takeWhile p text) ++ dropWhile p text)).
  - f_equal. rewrite <- app_assoc, takeWhile_dropWhile. reflexivity.
  - apply skipn_length_app.
Qed.

(** The pattern that applies to a directive, and what it leaves. *)
Lemma directive_match (f : Directive) (word text : jsstring) :
  is_word word = true ->
  directive_ok f = true ->
  exists len,
    match f with
    | SlashForm _ => match_slash
    | WordForm _ _ _ => match_prefix
    | BracketForm _ => match_bracket
    end (directive f word ++ text) = Some (word, len)
    /\ trim (slice_from len (directive f word ++ text)) = trim (unmatched f text).
Proof.
  intros Hw Hf. destruct f as [spaces|spaces mode separators|spaces];
    cbn [directive unmatched]; rewrite <- ?app_assoc.
  - eexists; split; [apply match_slash_directive; assumption|].
    rewrite !app_assoc. unfold slice_from. rewrite skipn_matched.
    apply trim_dropWhile_space.
  - eexists; split; [apply match_prefix_directive; assumption|].
    rewrite !app_assoc. unfold slice_from. rewrite skipn_matched. reflexivity.
  - eexists; split; [apply match_bracket_directive; assumption|].
    rewrite !app_assoc. unfold slice_from. rewrite skipn_matched.
    apply trim_dropWhile_space.
Qed.

Lemma directive_starts (f : Directive) (word text : jsstring) :
  is_word word = true ->
  exists c r,
    directive f word ++ text = c :: r
    /\ match f with
       | SlashForm _ => c = 47%N
       | WordForm _ _ _ => is_letter c = true
       | BracketForm _ => c = 91%N
       end.
Proof.
  unfold is_word. intros Hw. apply andb_true_iff in Hw as [Hn Hw].
  destruct word as [|c word]; [discriminate Hn|].
  cbn [forallb] in Hw. apply andb_true_iff in Hw as [Hc _].
  destruct f; cbn [directive]; eexists; eexists; (split; [reflexivity|]);
    first [reflexivity | exact Hc].
Qed.

(** C7 (amended).  For every alias of the table, in either case of its
    letters, and every form of the directive, [detectModeOverride] on the
    directive followed by a text returns the tier of the alias together
    with what the greedy match leaves of the text, trimmed of white space
    at both ends.  For a word that is neither an own key of the table nor
    a name inherited from [Object.prototype] it returns no override. *)
Theorem mode_override_recognises_aliases :
  forall (f : Directive) (word text : jsstring),
    directive_ok f = true ->
    (forall t, modeMap (toLowerCase word) = Own t ->
               detectModeOverride (directive f word ++ text)
               = Some {| mo_tier := TierName t;
                         cleanedPrompt := trim (unmatched f text) |})
    /\ (is_word word = true ->
        modeMap (toLowerCase word) = Missing ->
        detectModeOverride (directive f word ++ text) = None).
Proof.
  intros f word text Hf.
  assert (Hcases : forall look,
             is_word word = true ->
             modeMap (toLowerCase word) = look ->
             detectModeOverride (directive f word ++ text)
             = match look with
               | Own t => Some {| mo_tier := TierName t;
                                  cleanedPrompt := trim (unmatched f text) |}
               | Inherited => Some {| mo_tier := InheritedMember (toLowerCase word);
                                      cleanedPrompt := trim (unmatched f text) |}
               | Missing => None
               end).
  { intros look Hw Hlook.
    destruct (directive_match f word text Hw Hf) as (len & Hm & Hrest).
    destruct (directive_starts f word text Hw) as (c & r & Hd & Hc).
    unfold detectModeOverride.
    destruct f as [spaces|spaces mode separators|spaces].
    - rewrite Hm. cbn [override_of]. rewrite Hlook, Hrest.
      destruct look; reflexivity.
    - rewrite Hd in Hm, Hrest |- *.
      rewrite (match_slash_letter _ _ Hc). cbn [override_of].
      rewrite Hm. cbn [override_of]. rewrite Hlook, Hrest.
      destruct look; try reflexivity.
      rewrite (match_bracket_letter _ _ Hc). reflexivity.
    - rewrite Hd in Hm, Hrest |- *. subst c.
      rewrite match_slash_bracket, match_prefix_bracket. cbn [override_of].
      rewrite Hm. cbn [override_of]. rewrite Hlook, Hrest.
      destruct look; reflexivity. }
  split.
  - intros t Ht. exact (Hcases (Own t) (alias_is_word _ Ht) Ht).
  - intros Hw Hmiss. exact (Hcases Missing Hw Hmiss).
Qed.

(** [/MAX analyze this distributed system], and a word that is no alias. *)
Lemma mode_override_recognises_aliases_witness :
  detectModeOverride (lit "/MAX analyze this distributed system")
  = Some {| mo_tier := TierName REASONING;
            cleanedPrompt := lit "analyze this distributed system" |}
  /\ detectModeOverride (lit "turbo mode: go") = None.
Proof.
  split.
  - exact (proj1 (mode_override_recognises_aliases (SlashForm (lit " ")) (lit "MAX")
                    (lit "analyze this distributed system") eq_refl)
                 REASONING eq_refl).
  - exact (proj2 (mode_override_recognises_aliases
                    (WordForm (lit " ") (lit "mode") (lit ": ")) (lit "turbo")
                    (lit "go") eq_refl)
                 eq_refl eq_refl).
Defined.

(** A text that ends in a space does not come back as it was written. *)
Lemma mode_override_trims_the_text :
  detectModeOverride (directive (SlashForm (lit " ")) (lit "max") ++ lit "analyze this ")
  = Some {| mo_tier := TierName REASONING; cleanedPrompt := lit "analyze this" |}
  /\ ~ returns_the_text (SlashForm (lit " ")) (lit "max") (lit "analyze this ") REASONING.
Proof.
  split; [reflexivity|].
  unfold returns_the_text. intros H. vm_compute in H. discriminate H.
Qed.

(** The word [constructor] is no alias, and yet it is found in [modeMap]:
    the override carries the inherited member for a tier, and the request
    ends in the 500 of [handleRequest]. *)
Lemma mode_override_finds_constructor :
  detectModeOverride (lit "/constructor hello")
  = Some {| mo_tier := InheritedMember (lit "constructor"); cleanedPrompt := lit "hello" |}
  /\ let '(_, res, _) :=
       handleRequest_chat (SC := sample_scorer) healthy_backend default_routing no_pricing
         (Some (chat_request "auto" (lit "/constructor hello") false))
         no_stats fresh_res 0 in
     statusCode res = Some 500%Z.
Proof. split; vm_compute; reflexivity. Qed.

(** The handler forwards the request as it came: the directive is still in
    the message the upstream receives. *)
Lemma mode_override_forwards_the_directive :
  let backend :=
    {| getAuth := sample_auth;
       fetch_anthropic :=
         fun areq =>
           match areq_messages areq with
           | [{| am_content := AText t |}] =>
               if str_eqb t (lit "/max hello")
               then FetchOk (Ok hello_response) None
               else FetchThrows (Error (lit "stripped"))
           | _ => FetchThrows (Error (lit "unexpected"))
           end;
       fetch_openai := fun _ => FetchThrows (Error (lit "fetch failed")) |} in
  let '(_, res, _) :=
    handleRequest_chat (SC := sample_scorer) backend default_routing no_pricing
      (Some (chat_request "auto" (lit "/max hello") false)) no_stats fresh_res 0 in
  statusCode res = Some 200%Z.
Proof. vm_compute. reflexivity. Qed.

(* ===================================================================== *)
(** * Further properties of the code                                      *)
(* ===================================================================== *)

Import Observed Selector.

(** ** parseModelId *)

Lemma indexOf_none (c : N) (s : jsstring) : indexOf c s = None -> ~ In c s.
Proof.
  induction s as [|x s IH]; cbn [indexOf]; [intros _ []|].
  destruct (N.eqb x c) eqn:E; [discriminate|].
  destruct (indexOf c s); [discriminate|].
  intros _ [H|H]; [apply N.eqb_neq in E; contradiction|exact (IH eq_refl H)].
Qed.

Lemma indexOf_some (c : N) (s : jsstring) (n : nat) :
  indexOf c s = Some n ->
  firstn n s ++ c :: skipn (n + 1) s = s /\ ~ In c (firstn n s).
Proof.
  revert n; induction s as [|x s IH]; intros n; cbn [indexOf]; [discriminate|].
  destruct (N.eqb x c) eqn:E.
  - intros H; injection H as <-. apply N.eqb_eq in E; subst x.
    split; [reflexivity|intros []].
  - destruct (indexOf c s) as [m|]; [|discriminate].
    intros H; injection H as <-.
    destruct (IH m eq_refl) as [Hs Hn].
    cbn [firstn skipn Nat.add app]. split; [f_equal; exact Hs|].
    intros [H|H]; [apply N.eqb_neq in E; contradiction|exact (Hn H)].
Qed.

(** X1.  A model id that contains a slash is cut at its first slash: the
    provider holds no slash, and provider, slash and model give the id
    back.  An id without a slash is a model of the provider [anthropic]. *)
Theorem parseModelId_splits_at_the_first_slash :
  forall modelId : jsstring,
    (In 47%N modelId ->
     fst (parseModelId modelId) ++ [47%N] ++ snd (parseModelId modelId) = modelId
     /\ ~ In 47%N (fst (parseModelId modelId)))
    /\ (~ In 47%N modelId -> parseModelId modelId = (lit "anthropic", modelId)).
Proof.
  intros modelId. unfold parseModelId, slice_to, slice_from.
  destruct (indexOf 47 modelId) as [slash|] eqn:E.
  - apply indexOf_some in E as [Hs Hn]. split.
    + intros _. cbn [fst snd app]. split; assumption.
    + intros H. exfalso. apply H. rewrite <- Hs. apply in_or_app. right. left. reflexivity.
  - apply indexOf_none in E. split; [intros H; contradiction|reflexivity].
Qed.

Lemma parseModelId_splits_at_the_first_slash_witness :
  fst (parseModelId (lit "openai/org/gpt-4o")) ++ [47%N] ++ snd (parseModelId (lit "openai/org/gpt-4o"))
  = lit "openai/org/gpt-4o"
  /\ parseModelId (lit "claude-opus-4-6") = (lit "anthropic", lit "claude-opus-4-6").
Proof.
  split.
  - apply (proj1 (parseModelId_splits_at_the_first_slash (lit "openai/org/gpt-4o"))).
    vm_compute. tauto.
  - apply (proj2 (parseModelId_splits_at_the_first_slash (lit "claude-opus-4-6"))).
    vm_compute. intuition discriminate.
Defined.

(** ** Failed attempts *)

Lemma headersSent_write (w : Write) (r : Res) :
  headersSent r = true -> headersSent (write w r) = true.
Proof. unfold write. destruct (writableEnded r); [trivial|reflexivity]. Qed.

Lemma headersSent_write_all (ws : list Write) (r : Res) :
  headersSent r = true -> headersSent (write_all ws r) = true.
Proof.
  unfold write_all. revert r; induction ws as [|w ws IH]; intros r H; cbn [fold_left];
    [exact H|].
  apply IH, headersSent_write, H.
Qed.

Section Attempts.

Context {RT : Runtime}.

Lemma anthropic_stream_failure (modelName : jsstring) (stream_view : option BodyStream)
  (res res' : Res) (clock clock' : nat) (e : error) :
  anthropic_stream modelName stream_view res clock = (res', clock', Throw e) ->
  headersSent res' = false -> res' = res.
Proof.
  unfold anthropic_stream.
  destruct (writeHead 200 sse_headers res) as [r1|err] eqn:Hw.
  - apply body_writeHead in Hw as (_ & _ & _ & Hs).
    destruct stream_view as [bs|].
    + destruct (process_reads modelName (initial_stream clock) (bs_values bs)) as [st ws].
      intros H; injection H as <- _ _. discriminate.
    + intros H; injection H as <- _ _. congruence.
  - intros H; injection H as <- _ _. reflexivity.
Qed.

Lemma openai_stream_failure (modelName : jsstring) (stream_view : option BodyStream)
  (res res' : Res) (e : error) :
  openai_stream modelName stream_view res = (res', Throw e) ->
  headersSent res' = false -> res' = res.
Proof.
  unfold openai_stream.
  destruct (writeHead 200 sse_headers res) as [r1|err] eqn:Hw.
  - apply body_writeHead in Hw as (_ & _ & _ & Hs).
    destruct stream_view as [bs|].
    + intros H; injection H as <- _.
      pose proof (headersSent_write_all (fst (passthrough_reads modelName [] (bs_values bs))) r1 Hs) as H2.
      destruct (writableEnded _); [congruence|discriminate].
    + intros H; injection H as <- _. congruence.
  - intros H; injection H as <- _. reflexivity.
Qed.

Lemma forwardToOpenAI_failure (B : Backend) (chatReq : ChatRequest)
  (provider model tier : jsstring) (stream : bool) (res res' : Res) (e : error) :
  forwardToOpenAI B chatReq provider model tier stream res = (res', Throw e) ->
  (stream = true -> headersSent res' = false) -> res' = res.
Proof.
  unfold forwardToOpenAI.
  destruct (getAuth B provider) as [[tok [[|c key]|]]|];
    try (intros H; injection H as <- _; reflexivity).
  destruct (PROVIDERS provider) as [config| |];
    try (intros H; injection H as <- _; reflexivity).
  destruct (fetch_openai B _) as [err|status [errText|err]|json_view stream_view];
    try (intros H; injection H as <- _; reflexivity).
  destruct stream.
  - intros Hs Hh. eapply openai_stream_failure; [exact Hs|apply Hh; reflexivity].
  - destruct json_view as [data|err]; [|intros H; injection H as <- _; reflexivity].
    destruct (rewrite_model model data) as [data'|err];
      [|intros H; injection H as <- _; reflexivity].
    destruct (writeHead 200 json_headers res) as [r1|err];
      [discriminate|intros H; injection H as <- _; reflexivity].
Qed.

Lemma forwardToAnthropic_failure (B : Backend) (chatReq : ChatRequest)
  (model tier : jsstring) (stream : bool) (res res' : Res) (clock clock' : nat) (e : error) :
  forwardToAnthropic B chatReq model tier stream res clock = (res', clock', Throw e) ->
  (stream = true -> headersSent res' = false) -> res' = res.
Proof.
  unfold forwardToAnthropic.
  destruct (getAuth B (lit "anthropic")) as [[[[|c tok]|] key]|];
    try (intros H; injection H as <- _ _; reflexivity).
  destruct (anthropic_request _ chatReq model tier stream) as [areq|err];
    [|intros H; injection H as <- _ _; reflexivity].
  destruct (fetch_anthropic B areq) as [err|status [errText|err]|json_view stream_view];
    try (intros H; injection H as <- _ _; reflexivity).
  destruct stream.
  - intros Hs Hh. eapply anthropic_stream_failure; [exact Hs|apply Hh; reflexivity].
  - destruct json_view as [data|err]; [|intros H; injection H as <- _ _; reflexivity].
    destruct (anthropic_completion model data clock) as [completion clock1].
    destruct (writeHead 200 json_headers res) as [r1|err];
      [discriminate|intros H; injection H as <- _ _; reflexivity].
Qed.

(** A failed attempt has left the response as it was, unless it was a
    streaming attempt that sent the headers. *)
Lemma forwardRequest_failure (B : Backend) (chatReq : ChatRequest)
  (routedModel tier : jsstring) (stream : bool) (res res' : Res) (clock clock' : nat)
  (e : error) :
  forwardRequest B chatReq routedModel tier stream res clock = (res', clock', Throw e) ->
  (stream = true -> headersSent res' = false) -> res' = res.
Proof.
  unfold forwardRequest.
  destruct (parseModelId routedModel) as [provider model].
  assert (Ho : (let (r, o) := forwardToOpenAI B chatReq provider model tier stream res in
                (r, clock, o)) = (res', clock', Throw e) ->
               (stream = true -> headersSent res' = false) -> res' = res).
  { destruct (forwardToOpenAI B chatReq provider model tier stream res) as [r o] eqn:E.
    intros H Hh; injection H as <- _ ->.
    eapply forwardToOpenAI_failure; [exact E|exact Hh]. }
  destruct (PROVIDERS provider) as [[url [|] hs]| |];
    [|exact Ho|exact Ho|intros H; injection H as <- _ _; reflexivity].
  apply forwardToAnthropic_failure.
Qed.

End Attempts.

(** X2.  An attempt that fails without streaming, or before the headers
    of a stream were sent, leaves the response exactly as it found it:
    the next model of the chain starts from the same response. *)
Theorem failed_attempt_leaves_the_response_untouched :
  forall {RT : Runtime} (B : Backend) (chatReq : ChatRequest) (routedModel tier : jsstring)
         (stream : bool) (res res' : Res) (clock clock' : nat) (e : error),
    forwardRequest B chatReq routedModel tier stream res clock = (res', clock', Throw e) ->
    stream = false \/ headersSent res' = false ->
    res' = res.
Proof.
  intros RT B chatReq routedModel tier stream res res' clock clock' e H Hc.
  eapply forwardRequest_failure; [exact H|].
  intros Hs. destruct Hc as [Hc|Hc]; [congruence|exact Hc].
Qed.

Lemma failed_attempt_leaves_the_response_untouched_witness :
  forwardRequest breaking_backend (chat_request "auto" (lit "hello") false)
    (lit "kimi-coding/kimi-for-coding") (lit "SIMPLE") false fresh_res 0
  = (fresh_res, 0, Throw (Error (lit "fetch failed"))).
Proof.
  assert (H : exists res' clock' e,
             forwardRequest breaking_backend (chat_request "auto" (lit "hello") false)
               (lit "kimi-coding/kimi-for-coding") (lit "SIMPLE") false fresh_res 0
             = (res', clock', Throw e)
             /\ clock' = 0 /\ e = Error (lit "fetch failed")).
  { do 3 eexists. split; [vm_compute; reflexivity|split; reflexivity]. }
  destruct H as (res' & clock' & e & H & -> & ->).
  rewrite H. f_equal. f_equal.
  apply (@failed_attempt_leaves_the_response_untouched sample_runtime _ _ _ _ _ _ _ _ _ _ H).
  left. reflexivity.
Defined.

Section Exhausted.

Context {RT : Runtime}.






End Exhausted.



(** ** Lines and reads *)

Lemma split_lines_nonempty (s : jsstring) : split_lines s <> [].
Proof.
  destruct s as [|c r]; cbn [split_lines]; [discriminate|].
  destruct (N.eqb c 10); [discriminate|].
  destruct (split_lines r); discriminate.
Qed.

Lemma removelast_cons (A : Type) (x : A) (l : list A) :
  l <> [] -> removelast (x :: l) = x :: removelast l.
Proof. destruct l; [contradiction|reflexivity]. Qed.

Lemma last_cons (A : Type) (x d : A) (l : list A) :
  l <> [] -> last (x :: l) d = last l d.
Proof. destruct l; [contradiction|reflexivity]. Qed.

(** Splitting a text in two pieces and splitting the second with the
    unfinished line of the first in front gives the lines of the whole. *)
Lemma split_lines_app (a b : jsstring) :
  split_lines (a ++ b)
  = removelast (split_lines a) ++ split_lines (last (split_lines a) [] ++ b).
Proof.
  induction a as [|c a IH]; [reflexivity|].
  cbn [app split_lines].
  destruct (N.eqb c 10) eqn:Ec.
  - rewrite removelast_cons, last_cons by apply split_lines_nonempty.
    cbn [app]. rewrite IH. reflexivity.
  - rewrite IH.
    destruct (split_lines a) as [|l [|l' ls]] eqn:E;
      [exfalso; exact (split_lines_nonempty a E)| |].
    + cbn [removelast last app split_lines]. rewrite Ec. reflexivity.
    + change (removelast ((c :: l) :: l' :: ls))
        with ((c :: l) :: removelast (l' :: ls)).
      change (removelast (l :: l' :: ls)) with (l :: removelast (l' :: ls)).
      change (last ((c :: l) :: l' :: ls) []) with (last (l' :: ls) []).
      change (last (l :: l' :: ls) []) with (last (l' :: ls) []).
      reflexivity.
Qed.

Lemma split_lines_no_feed (s : jsstring) : ~ In 10%N s -> split_lines s = [s].
Proof.
  induction s as [|c s IH]; intros H; [reflexivity|].
  cbn [split_lines].
  destruct (N.eqb c 10) eqn:Ec.
  - exfalso. apply H. left. apply N.eqb_eq in Ec. exact Ec.
  - rewrite IH; [reflexivity|]. intros Hs. apply H. right. exact Hs.
Qed.

Lemma last_split_lines_no_feed (s : jsstring) : ~ In 10%N (last (split_lines s) []).
Proof.
  induction s as [|c s IH]; [intros []|].
  cbn [split_lines].
  destruct (N.eqb c 10) eqn:Ec.
  - rewrite last_cons by apply split_lines_nonempty. exact IH.
  - destruct (split_lines s) as [|l [|l' ls]] eqn:E;
      [exfalso; exact (split_lines_nonempty s E)| |].
    + cbn [last] in *. intros [H|H]; [|exact (IH H)].
      apply N.eqb_neq in Ec. congruence.
    + exact IH.
Qed.

Lemma removelast_app_nonempty (A : Type) (a b : list A) :
  b <> [] -> removelast (a ++ b) = a ++ removelast b.
Proof. intros H. apply removelast_app. exact H. Qed.

Lemma last_app_nonempty (A : Type) (a b : list A) (d : A) :
  b <> [] -> last (a ++ b) d = last b d.
Proof.
  intros H. induction a as [|x a IH]; [reflexivity|].
  cbn [app]. rewrite last_cons; [exact IH|].
  destruct a; [exact H|discriminate].
Qed.

(** The complete lines the reads deliver are the complete lines of the
    text the reads carry together. *)
Lemma lines_of_reads_concat (values : list jsstring) (buf : jsstring) :
  ~ In 10%N buf ->
  lines_of_reads buf values = removelast (split_lines (buf ++ List.concat values)).
Proof.
  revert buf; induction values as [|value values IH]; intros buf Hb.
  - cbn [lines_of_reads List.concat]. rewrite app_nil_r, split_lines_no_feed by exact Hb.
    reflexivity.
  - cbn [lines_of_reads List.concat].
    rewrite IH by apply last_split_lines_no_feed.
    rewrite app_assoc, (split_lines_app (buf ++ value)).
    rewrite removelast_app_nonempty by apply split_lines_nonempty.
    reflexivity.
Qed.

Section Reads.

Context {RT : Runtime}.

Variable modelName : jsstring.

Lemma handle_events_ticks_buffer (b : jsstring) (events : list json) (st : StreamState) :
  ticks (fst (handle_events modelName (with_buffer b st) events))
  = ticks (fst (handle_events modelName st events)).
Proof. rewrite handle_events_buffer. reflexivity. Qed.

(** The loop over the reads leaves the clock where the translator leaves it
    on the events the reads carry. *)
Lemma process_reads_ticks (values : list jsstring) (st : StreamState) :
  ticks (fst (process_reads modelName st values))
  = ticks (fst (handle_events modelName st
                  (events_of_lines (lines_of_reads (buffer st) values)))).
Proof.
  revert st; induction values as [|value values IH]; intros st; [reflexivity|].
  cbn [process_reads lines_of_reads].
  unfold process_read.
  rewrite process_lines_events, handle_events_buffer.
  set (lines := split_lines (buffer st ++ value)).
  set (first := handle_events modelName st (events_of_lines (removelast lines))).
  specialize (IH (with_buffer (last lines []) (fst first))).
  destruct (process_reads modelName (with_buffer (last lines []) (fst first)) values)
    as [st2 ws2].
  cbn [snd fst] in *.
  rewrite events_of_lines_app, handle_events_app. cbn [fst]. fold first.
  rewrite IH. cbn [buffer with_buffer].
  apply handle_events_ticks_buffer.
Qed.

(** The streaming half of [forwardToAnthropic] in terms of the text the
    upstream sent. *)
Lemma anthropic_stream_of_text (bs : BodyStream) (res : Res) (clock : nat) :
  anthropic_stream modelName (Some bs) res clock
  = match writeHead 200 sse_headers res with
    | Throw e => (res, clock, Throw e)
    | Ok r1 =>
        let run :=
          handle_events modelName (initial_stream clock)
            (events_of_lines (removelast (split_lines (List.concat (bs_values bs))))) in
        (end_ (write WDone (write_all (snd run) r1)), ticks (fst run),
         match bs_end bs with
         | ReadDone => Ok tt
         | ReadThrows e => Throw e
         end)
    end.
Proof.
  unfold anthropic_stream.
  destruct (writeHead 200 sse_headers res) as [r1|e]; [|reflexivity].
  pose proof (process_reads_events modelName (bs_values bs) (initial_stream clock)) as Hw.
  pose proof (process_reads_ticks (bs_values bs) (initial_stream clock)) as Ht.
  destruct (process_reads modelName (initial_stream clock) (bs_values bs)) as [st ws].
  cbn [fst snd buffer initial_stream] in Hw, Ht.
  rewrite lines_of_reads_concat in Hw, Ht by (intros []).
  cbn [app] in Hw, Ht. cbv zeta. rewrite Hw, Ht. reflexivity.
Qed.

End Reads.

(** X4.  How the upstream cuts its text into reads does not matter: two
    bodies with the same text and the same end give the same response. *)
Theorem anthropic_stream_ignores_read_boundaries :
  forall {RT : Runtime} (modelName : jsstring) (bs bs' : BodyStream) (res : Res)
         (clock : nat),
    List.concat (bs_values bs) = List.concat (bs_values bs') ->
    bs_end bs = bs_end bs' ->
    anthropic_stream modelName (Some bs) res clock
    = anthropic_stream modelName (Some bs') res clock.
Proof.
  intros RT modelName bs bs' res clock Hv He.
  rewrite !anthropic_stream_of_text, Hv, He. reflexivity.
Qed.

Lemma anthropic_stream_ignores_read_boundaries_witness :
  anthropic_stream (lit "claude-sonnet-4-5") (Some thinking_reply) fresh_res 0
  = anthropic_stream (lit "claude-sonnet-4-5")
      (Some {| bs_values := [List.concat (bs_values thinking_reply)]; bs_end := ReadDone |})
      fresh_res 0.
Proof.
  apply (@anthropic_stream_ignores_read_boundaries sample_runtime).
  - vm_compute. reflexivity.
  - reflexivity.
Defined.

(** X5.  What follows the last line feed of the upstream body is never
    translated: a last read without a line feed changes nothing. *)
Theorem anthropic_stream_drops_the_unfinished_line :
  forall {RT : Runtime} (modelName : jsstring) (values : list jsstring) (rest : jsstring)
         (stream_end : ReadEnd) (res : Res) (clock : nat),
    ~ In 10%N rest ->
    anthropic_stream modelName
      (Some {| bs_values := values ++ [rest]; bs_end := stream_end |}) res clock
    = anthropic_stream modelName
        (Some {| bs_values := values; bs_end := stream_end |}) res clock.
Proof.
  intros RT modelName values rest stream_end res clock Hr.
  rewrite !anthropic_stream_of_text. cbn [bs_values bs_end].
  rewrite concat_app. cbn [List.concat]. rewrite app_nil_r.
  rewrite split_lines_app.
  rewrite (split_lines_no_feed (last _ [] ++ rest)).
  - rewrite removelast_app_nonempty by discriminate. cbn [removelast].
    rewrite app_nil_r. reflexivity.
  - intros H. apply in_app_or in H as [H|H]; [|exact (Hr H)].
    exact (last_split_lines_no_feed _ H).
Qed.

Lemma anthropic_stream_drops_the_unfinished_line_witness :
  anthropic_stream (lit "claude-sonnet-4-5")
    (Some {| bs_values := [block_start "text" ++ text_delta "Hello"]
                          ++ [removelast message_stop];
             bs_end := ReadDone |}) fresh_res 0
  = anthropic_stream (lit "claude-sonnet-4-5")
      (Some {| bs_values := [block_start "text" ++ text_delta "Hello"];
               bs_end := ReadDone |}) fresh_res 0.
Proof.
  apply (@anthropic_stream_drops_the_unfinished_line sample_runtime).
  vm_compute. intuition discriminate.
Defined.

(** ** What the translator writes, event by event *)

Section Emitted.

Context {RT : Runtime}.

Variable modelName : jsstring.

(** An event makes the translator write nothing or one chunk, whose
    [finish_reason] is [null], ["stop"] or ["tool_calls"]. *)
Lemma handle_or_skip_emits (st : StreamState) (event : json) :
  snd (handle_or_skip modelName st event) = []
  \/ exists delta finish,
       snd (handle_or_skip modelName st event)
       = [WData (fst (makeChunk modelName delta finish (ticks st)))]
       /\ (finish = JNull \/ finish = JStr (lit "stop") \/ finish = JStr (lit "tool_calls")).
Proof.
  unfold handle_or_skip, handle_event, emit, makeChunk, bind, get_opt, get.
  destruct event; cbn -[lit]; try (left; reflexivity).
  event_cases; cbn -[lit] in *; try (left; reflexivity);
    right; do 2 eexists; (split; [reflexivity|]); auto.
Qed.

End Emitted.

(** ** Status and headers across the writes *)

Lemma assoc_set_field_other (A : Type) (k k' : jsstring) (v : A)
  (fs : list (jsstring * A)) :
  k <> k' -> assoc k (set_field k' v fs) = assoc k fs.
Proof.
  intros Hk. induction fs as [|[k0 v0] fs IH]; cbn [set_field assoc].
  - apply str_eqb_neq in Hk. rewrite Hk. reflexivity.
  - destruct (str_eqb k' k0) eqn:E; cbn [assoc].
    + apply str_eqb_eq in E; subst k0.
      apply str_eqb_neq in Hk. rewrite Hk. reflexivity.
    + destruct (str_eqb k k0); [reflexivity|exact IH].
Qed.

Lemma assoc_set_fields_other (k : jsstring) (hs fs : list (jsstring * jsstring)) :
  ~ In k (map fst hs) ->
  assoc k (fold_left (fun acc h => set_field (fst h) (snd h) acc) hs fs) = assoc k fs.
Proof.
  revert fs; induction hs as [|[k' v] hs IH]; intros fs Hk; cbn [fold_left fst snd];
    [reflexivity|].
  rewrite IH by (intros H; apply Hk; right; exact H).
  apply assoc_set_field_other. intros ->. apply Hk. left. reflexivity.
Qed.

Lemma headers_write (w : Write) (r : Res) : headers (write w r) = headers r.
Proof. unfold write. destruct (writableEnded r); reflexivity. Qed.

Lemma headers_write_all (ws : list Write) (r : Res) : headers (write_all ws r) = headers r.
Proof.
  unfold write_all. revert r; induction ws as [|w ws IH]; intros r; cbn [fold_left];
    [reflexivity|].
  rewrite IH. apply headers_write.
Qed.

Lemma statusCode_write (w : Write) (r : Res) (c : Z) :
  statusCode r = Some c -> statusCode (write w r) = Some c.
Proof.
  intros H. unfold write. destruct (writableEnded r); [exact H|].
  cbn [statusCode]. rewrite H. reflexivity.
Qed.

Lemma statusCode_write_all (ws : list Write) (r : Res) (c : Z) :
  statusCode r = Some c -> statusCode (write_all ws r) = Some c.
Proof.
  unfold write_all. revert r; induction ws as [|w ws IH]; intros r H; cbn [fold_left];
    [exact H|].
  apply IH, statusCode_write, H.
Qed.

Lemma statusCode_end (r : Res) (c : Z) :
  statusCode r = Some c -> statusCode (end_ r) = Some c.
Proof. intros H. unfold end_; cbn [statusCode]. rewrite H. reflexivity. Qed.

Section Chunks.

Context {RT : Runtime}.

Variable modelName : jsstring.

Lemma handle_events_Forall (P : Write -> Prop) :
  (forall st e, Forall P (snd (handle_or_skip modelName st e))) ->
  forall events st, Forall P (snd (handle_events modelName st events)).
Proof.
  intros HP events; induction events as [|e events IH]; intros st; [constructor|].
  cbn [handle_events].
  pose proof (HP st e) as He.
  destruct (handle_or_skip modelName st e) as [st1 ws1]; cbn [snd] in He.
  specialize (IH st1).
  destruct (handle_events modelName st1 events) as [st2 ws2]; cbn [snd] in *.
  apply Forall_app; split; assumption.
Qed.

(** What the streaming half of [forwardToAnthropic] adds to a response
    that is still open. *)
Lemma anthropic_stream_body (bs : BodyStream) (res : Res) (clock : nat) :
  headersSent res = false ->
  writableEnded res = false ->
  let res' := fst (fst (anthropic_stream modelName (Some bs) res clock)) in
  body res'
  = body res
    ++ snd (handle_events modelName (initial_stream clock) (events_of_reads (bs_values bs)))
    ++ [WDone]
  /\ writableEnded res' = true
  /\ statusCode res' = Some 200%Z
  /\ assoc (lit "Content-Type") (headers res') = Some (lit "text/event-stream").
Proof.
  intros Hh He. cbv zeta.
  rewrite anthropic_stream_client_sees. unfold client_sees, writeHead. rewrite Hh.
  set (ws := snd (handle_events _ _ _)).
  split; [|split; [reflexivity|split]].
  - unfold end_; cbn [body]. rewrite body_write, body_write_all, writableEnded_write_all.
    cbn [body writableEnded]. rewrite He, app_assoc. reflexivity.
  - apply statusCode_end, statusCode_write, statusCode_write_all. reflexivity.
  - unfold end_; cbn [headers]. rewrite headers_write, headers_write_all.
    cbn [headers sse_headers fold_left fst snd].
    rewrite !assoc_set_field_other by (intros H; vm_compute in H; discriminate H).
    apply assoc_set_field.
Qed.

End Chunks.

(** X6.  The translator ends every stream it has started, whether the
    reads end or fail: status 200, the event-stream content type,
    chunks, then one terminator; the response is closed. *)
Theorem anthropic_stream_ends_with_its_only_done :
  forall {RT : Runtime} (modelName : jsstring) (bs : BodyStream) (res : Res) (clock : nat),
    headersSent res = false ->
    writableEnded res = false ->
    let res' := fst (fst (anthropic_stream modelName (Some bs) res clock)) in
    writableEnded res' = true
    /\ statusCode res' = Some 200%Z
    /\ assoc (lit "Content-Type") (headers res') = Some (lit "text/event-stream")
    /\ exists chunks,
         body res' = body res ++ map WData chunks ++ [WDone].
Proof.
  intros RT modelName bs res clock Hh He.
  destruct (@anthropic_stream_body RT modelName bs res clock Hh He) as (Hb & H1 & H2 & H3).
  cbv zeta. repeat split; try assumption.
  rewrite Hb.
  assert (Hd : forall ws, Forall (fun w => exists c, w = WData c) ws ->
                          exists chunks, ws = map WData chunks).
  { induction ws as [|w ws IH]; intros H; [exists []; reflexivity|].
    inversion H as [|? ? [c ->] Hws]; subst.
    destruct (IH Hws) as (chunks & ->). exists (c :: chunks). reflexivity. }
  destruct (Hd (snd (handle_events modelName (initial_stream clock)
                       (events_of_reads (bs_values bs))))) as (chunks & ->).
  - apply handle_events_Forall. intros st e.
    destruct (@handle_or_skip_emits RT modelName st e) as [->|(d & f & -> & _)];
      repeat constructor. eexists; reflexivity.
  - exists chunks. reflexivity.
Qed.

Lemma anthropic_stream_ends_with_its_only_done_witness :
  let res' := fst (fst (anthropic_stream (lit "claude-sonnet-4-5") (Some broken_reply)
                          fresh_res 0)) in
  writableEnded res' = true
  /\ statusCode res' = Some 200%Z
  /\ assoc (lit "Content-Type") (headers res') = Some (lit "text/event-stream")
  /\ exists chunks, body res' = body fresh_res ++ map WData chunks ++ [WDone].
Proof.
  apply (@anthropic_stream_ends_with_its_only_done sample_runtime
           (lit "claude-sonnet-4-5") broken_reply fresh_res 0); reflexivity.
Defined.

(** ** Finish reasons *)

(** X7.  The streaming translator reports [stop] or [tool_calls] and
    nothing else, whatever reason the upstream gave; the translation of
    a complete response hands every other reason of the upstream on as
    it is. *)
Theorem finish_reason_streaming_and_not :
  forall {RT : Runtime} (modelName : jsstring),
    (forall (bs : BodyStream) (res : Res) (clock : nat),
        headersSent res = false ->
        writableEnded res = false ->
        exists ws,
          body (fst (fst (anthropic_stream modelName (Some bs) res clock)))
          = body res ++ ws ++ [WDone]
          /\ Forall (fun w => finish_reason w = Some JNull
                              \/ finish_reason w = Some (JStr (lit "stop"))
                              \/ finish_reason w = Some (JStr (lit "tool_calls"))) ws)
    /\ (forall (data : AnthropicResponse) (clock : nat) (reason : jsstring),
           ar_stop_reason data = Some reason ->
           reason <> lit "tool_use" ->
           reason <> lit "end_turn" ->
           finish_reason (WJson (fst (anthropic_completion modelName data clock)))
           = Some (JStr reason)).
Proof.
  intros RT modelName. split.
  - intros bs res clock Hh He.
    destruct (@anthropic_stream_body RT modelName bs res clock Hh He) as (Hb & _).
    eexists. split; [exact Hb|].
    apply handle_events_Forall. intros st e.
    destruct (@handle_or_skip_emits RT modelName st e) as [->|(d & f & -> & Hf)];
      [constructor|].
    constructor; [|constructor].
    destruct Hf as [->| [->| ->]]; [left|right; left|right; right]; reflexivity.
  - intros data clock reason Hr H1 H2.
    unfold anthropic_completion.
    destruct (toolCalls_of_content (ar_content data) clock) as [calls clock1].
    cbn [fst]. rewrite Hr. unfold finish_reason_of.
    apply str_eqb_neq in H1, H2. rewrite H1, H2. reflexivity.
Qed.

Lemma finish_reason_streaming_and_not_witness :
  finish_reason
    (WJson (fst (anthropic_completion (lit "claude-haiku-4-5")
                   {| ar_content := [text_block (lit "Hel")]; ar_usage := None;
                      ar_stop_reason := Some (lit "max_tokens") |} 0)))
  = Some (JStr (lit "max_tokens"))
  /\ exists ws,
       body (fst (fst (anthropic_stream (lit "claude-haiku-4-5") (Some thinking_reply)
                         fresh_res 0)))
       = body fresh_res ++ ws ++ [WDone]
       /\ Forall (fun w => finish_reason w = Some JNull
                           \/ finish_reason w = Some (JStr (lit "stop"))
                           \/ finish_reason w = Some (JStr (lit "tool_calls"))) ws.
Proof.
  split.
  - apply (proj2 (@finish_reason_streaming_and_not sample_runtime (lit "claude-haiku-4-5")));
      [reflexivity|vm_compute; discriminate|vm_compute; discriminate].
  - apply (proj1 (@finish_reason_streaming_and_not sample_runtime (lit "claude-haiku-4-5")));
      reflexivity.
Defined.

(** ** The numbering of the tool calls *)

Lemma is_str_agree (v : jsval) (a b : jsstring) :
  is_str v a = true -> is_str v b = true -> a = b.
Proof.
  destruct v as [[| | |s| |]|]; cbn [is_str]; try discriminate.
  intros Ha Hb. apply str_eqb_eq in Ha, Hb. congruence.
Qed.

Ltac is_str_conflict :=
  match goal with
  | Ha : is_str ?v ?a = true, Hb : is_str ?v ?b = true |- _ =>
      exfalso; pose proof (is_str_agree _ _ _ Ha Hb) as Hab; vm_compute in Hab;
      discriminate Hab
  end.

Section ToolIndex.

Context {RT : Runtime}.

Variable modelName : jsstring.

Lemma handle_or_skip_index (st : StreamState) (event : json) :
  match is_str (event_type event) (lit "content_block_start"),
        is_str (block_type event) (lit "tool_use") with
  | true, true =>
      currentToolIndex (fst (handle_or_skip modelName st event))
      = (currentToolIndex st + 1)%Z
      /\ present (map announced_index (snd (handle_or_skip modelName st event)))
         = [JNum (currentToolIndex st + 1)]
  | _, _ =>
      currentToolIndex (fst (handle_or_skip modelName st event)) = currentToolIndex st
      /\ present (map announced_index (snd (handle_or_skip modelName st event))) = []
  end.
Proof.
  unfold handle_or_skip, handle_event, emit, makeChunk, bind, get_opt, get,
    event_type, block_type, bind, get_opt, get.
  destruct event; cbn -[lit]; try (split; reflexivity).
  event_cases; cbn -[lit] in *; try (split; reflexivity); try congruence;
    try is_str_conflict.
  all: destruct (assoc (lit "id") _), (assoc (lit "name") _); split; reflexivity.
Qed.

Lemma handle_events_index (events : list json) (st : StreamState) :
  present (map announced_index (snd (handle_events modelName st events)))
  = map (fun i => JNum (currentToolIndex st + 1 + Z.of_nat i))
        (seq 0 (List.length (filter (starts_block "tool_use") events))).
Proof.
  revert st; induction events as [|e events IH]; intros st; [reflexivity|].
  cbn [handle_events filter].
  pose proof (handle_or_skip_index st e) as He.
  destruct (handle_or_skip modelName st e) as [st1 ws1]; cbn [fst snd] in He.
  specialize (IH st1).
  destruct (handle_events modelName st1 events) as [st2 ws2]; cbn [snd] in *.
  unfold present in *. rewrite map_app, flat_map_app.
  unfold starts_block.
  destruct (is_str (event_type e) (lit "content_block_start"));
    [destruct (is_str (block_type e) (lit "tool_use"))|];
    destruct He as [Hi Hw];
    (etransitivity; [apply f_equal2; [exact Hw|exact IH]|]);
    rewrite Hi; cbn [andb app List.length seq map].
  - rewrite Z.add_0_r. f_equal.
    rewrite <- seq_shift, map_map. apply map_ext. intros i. f_equal. lia.
  - reflexivity.
  - reflexivity.
Qed.

End ToolIndex.

(** X8.  The chunks that open a tool call carry the indices 0, 1, 2, ...
    in the order in which the upstream opened its [tool_use] blocks. *)
Theorem tool_calls_are_numbered_from_zero :
  forall {RT : Runtime} (modelName : jsstring) (bs : BodyStream) (res : Res) (clock : nat),
    headersSent res = false ->
    writableEnded res = false ->
    exists ws,
      body (fst (fst (anthropic_stream modelName (Some bs) res clock)))
      = body res ++ ws ++ [WDone]
      /\ present (map announced_index ws)
         = map (fun i => JNum (Z.of_nat i))
               (seq 0 (List.length (filter (starts_block "tool_use")
                                      (events_of_reads (bs_values bs))))).
Proof.
  intros RT modelName bs res clock Hh He.
  destruct (@anthropic_stream_body RT modelName bs res clock Hh He) as (Hb & _).
  eexists. split; [exact Hb|].
  rewrite handle_events_index. apply map_ext. intros i. cbn [initial_stream currentToolIndex].
  f_equal.
Qed.

(** Two tool calls in one reply. *)
Lemma tool_calls_are_numbered_from_zero_witness :
  exists ws,
    body (fst (fst (anthropic_stream (lit "claude-opus-4-6")
                      (Some {| bs_values := [block_start "tool_use" ++ block_stop;
                                             block_start "tool_use" ++ block_stop
                                               ++ message_stop];
                               bs_end := ReadDone |})
                      fresh_res 0)))
    = body fresh_res ++ ws ++ [WDone]
    /\ present (map announced_index ws) = [JNum 0; JNum 1].
Proof.
  apply (@tool_calls_are_numbered_from_zero sample_runtime (lit "claude-opus-4-6")
           {| bs_values := [block_start "tool_use" ++ block_stop;
                            block_start "tool_use" ++ block_stop ++ message_stop];
              bs_end := ReadDone |} fresh_res 0); reflexivity.
Defined.

(** ** Text outside thinking blocks *)

Section Text.

Context {RT : Runtime}.

Variable modelName : jsstring.

Lemma not_tool_use (v : json) :
  v <> JStr (lit "tool_use") -> is_str (Some v) (lit "tool_use") = false.
Proof.
  intros H. destruct v as [| | |s| |]; cbn [is_str]; try reflexivity.
  apply str_eqb_neq. intros ->. apply H. reflexivity.
Qed.

Lemma handle_or_skip_block_type (st : StreamState) (event : json) :
  currentBlockType st <> JStr (lit "tool_use") ->
  starts_block "tool_use" event = false ->
  currentBlockType (fst (handle_or_skip modelName st event)) <> JStr (lit "tool_use").
Proof.
  unfold starts_block, handle_or_skip, handle_event, emit,
    makeChunk, bind, get_opt, get, event_type, block_type, bind, get_opt, get.
  intros Hbt.
  destruct event; cbn -[lit]; try (intros; assumption).
  event_cases; cbn -[lit] in *; intros; try assumption; try congruence;
    try discriminate.
  match goal with
  | H : is_str ?v (lit "tool_use") = false |- nullish ?v _ <> _ =>
      destruct v as [[| | |s| |]|]; cbn -[lit] in *; intros E;
      try (vm_compute in E; discriminate E);
      injection E as ->; rewrite str_eqb_refl in H; discriminate H
  end.
Qed.

Lemma handle_or_skip_text (st : StreamState) (event : json) :
  currentBlockType st <> JStr (lit "tool_use") ->
  present (map delta_content (snd (handle_or_skip modelName st event)))
  = if insideThinking st then [] else present [delta_text event].
Proof.
  unfold delta_text, is_delta, field, handle_or_skip, handle_event, emit,
    makeChunk, bind, get_opt, get, event_type, block_type, bind, get_opt, get.
  intros Hbt. rewrite (not_tool_use Hbt). clear Hbt.
  destruct event; cbn -[lit]; try (destruct (insideThinking st); reflexivity).
  event_cases; cbn -[lit] in *; try reflexivity; try congruence; try is_str_conflict.
Qed.

Lemma handle_events_text (events : list json) (st : StreamState) :
  currentBlockType st <> JStr (lit "tool_use") ->
  Forall (fun e => starts_block "tool_use" e = false) events ->
  present (map delta_content (snd (handle_events modelName st events)))
  = text_outside_thinking events (insideThinking st).
Proof.
  revert st; induction events as [|e events IH]; intros st Hbt Hev; [reflexivity|].
  inversion Hev as [|? ? He Hrest]; subst.
  cbn [handle_events text_outside_thinking].
  pose proof (handle_or_skip_text st e Hbt) as Ht.
  pose proof (handle_or_skip_block_type st e Hbt He) as Hb.
  pose proof (handle_or_skip_flag modelName st e) as Hf.
  destruct (handle_or_skip modelName st e) as [st1 ws1]; cbn [fst snd] in *.
  specialize (IH st1 Hb Hrest).
  destruct (handle_events modelName st1 events) as [st2 ws2]; cbn [snd] in *.
  unfold present in *. rewrite map_app, flat_map_app.
  apply f_equal2; [exact Ht|].
  rewrite <- Hf. exact IH.
Qed.

End Text.

(** X9.  In a stream without tool calls, the [content] of the chunks is,
    value for value and in order, the text of the deltas the upstream
    sent outside its thinking blocks. *)
Theorem text_outside_thinking_is_forwarded :
  forall {RT : Runtime} (modelName : jsstring) (bs : BodyStream) (res : Res) (clock : nat),
    headersSent res = false ->
    writableEnded res = false ->
    Forall (fun e => starts_block "tool_use" e = false) (events_of_reads (bs_values bs)) ->
    exists ws,
      body (fst (fst (anthropic_stream modelName (Some bs) res clock)))
      = body res ++ ws ++ [WDone]
      /\ present (map delta_content ws)
         = text_outside_thinking (events_of_reads (bs_values bs)) false.
Proof.
  intros RT modelName bs res clock Hh He Hev.
  destruct (@anthropic_stream_body RT modelName bs res clock Hh He) as (Hb & _).
  eexists. split; [exact Hb|].
  apply handle_events_text; [|exact Hev].
  cbn [initial_stream currentBlockType]. discriminate.
Qed.

(** The reply that thinks first: the plan stays behind, the greeting is
    forwarded. *)
Lemma text_outside_thinking_is_forwarded_witness :
  text_outside_thinking (events_of_reads (bs_values thinking_reply)) false
  = [JStr (lit "Hello")]
  /\ exists ws,
       body (fst (fst (anthropic_stream (lit "claude-sonnet-4-5") (Some thinking_reply)
                         fresh_res 0)))
       = body fresh_res ++ ws ++ [WDone]
       /\ present (map delta_content ws)
          = text_outside_thinking (events_of_reads (bs_values thinking_reply)) false.
Proof.
  split; [vm_compute; reflexivity|].
  apply (@text_outside_thinking_is_forwarded sample_runtime (lit "claude-sonnet-4-5")
           thinking_reply fresh_res 0); [reflexivity|reflexivity|].
  vm_compute. repeat constructor.
Defined.

(** ** The translation of a complete response *)

Lemma filter_filter_or (A : Type) (p q : A -> bool) (l : list A) :
  filter p (filter (fun a => p a || q a) l) = filter p l.
Proof.
  induction l as [|a l IH]; [reflexivity|].
  cbn [filter]. destruct (p a) eqn:E; cbn [orb filter].
  - rewrite E, IH. reflexivity.
  - destruct (q a); cbn [filter]; [rewrite E|]; exact IH.
Qed.

Lemma filter_filter_or_r (A : Type) (p q : A -> bool) (l : list A) :
  filter q (filter (fun a => p a || q a) l) = filter q l.
Proof.
  induction l as [|a l IH]; [reflexivity|].
  cbn [filter]. destruct (q a) eqn:E.
  - rewrite orb_true_r. cbn [filter]. rewrite E, IH. reflexivity.
  - rewrite orb_false_r. destruct (p a); cbn [filter]; [rewrite E|]; exact IH.
Qed.

(** X10.  Only the [text] and [tool_use] blocks of a complete response
    reach the client: the completion is that of the response without its
    other blocks, thinking blocks among them. *)
Theorem completion_ignores_other_blocks :
  forall {RT : Runtime} (modelName : jsstring) (data : AnthropicResponse) (clock : nat),
    anthropic_completion modelName data clock
    = anthropic_completion modelName
        {| ar_content :=
             filter (fun b => str_eqb (cb_type b) (lit "text")
                              || str_eqb (cb_type b) (lit "tool_use"))
                    (ar_content data);
           ar_usage := ar_usage data;
           ar_stop_reason := ar_stop_reason data |}
        clock.
Proof.
  intros RT modelName data clock.
  unfold anthropic_completion, toolCalls_of_content. cbn [ar_content ar_usage ar_stop_reason].
  rewrite filter_filter_or, filter_filter_or_r. reflexivity.
Qed.

(** ** The request sent to Anthropic *)

(** X11.  A request with messages always gives a body for
    [/v1/messages]; the body names a tool_choice only together with
    tools, carries no temperature when thinking is switched on, and asks
    for 4096 tokens of thinking budget on top of the tokens the client
    asked for. *)
Theorem anthropic_request_is_consistent :
  forall {RT : Runtime} (tok : jsstring) (req : ChatRequest) (modelName tier : jsstring)
         (stream : bool),
    (req_messages req <> None ->
     exists areq, anthropic_request tok req modelName tier stream = Ok areq)
    /\ forall areq,
         anthropic_request tok req modelName tier stream = Ok areq ->
         (areq_tools areq = None -> areq_tool_choice areq = None)
         /\ (areq_thinking areq <> None -> areq_temperature areq = None)
         /\ (forall budget,
                areq_thinking areq = Some (Enabled budget) ->
                areq_max_tokens areq
                = (match req_max_tokens req with Some m => m | None => 4096 end
                   + 4096)%Z).
Proof.
  intros RT tok req modelName tier stream.
  unfold anthropic_request.
  destruct (req_messages req) as [msgs|]; [|split; [intros H; contradiction|discriminate]].
  destruct (convertMessagesToAnthropic msgs) as [systemContent messages].
  assert (Hc : exists tc,
             match req_tools req, req_tool_choice req with
             | Some (_ :: _), Some tc =>
                 c <- convertToolChoiceToAnthropic (Some tc) ;; Ok (Some c)
             | _, _ => Ok None
             end = Ok tc
             /\ (match req_tools req with Some (_ :: _) => False | _ => True end
                 -> tc = None)).
  { destruct (req_tools req) as [[|t tools]|];
      try (exists None; split; [destruct (req_tool_choice req); reflexivity|reflexivity]).
    destruct (req_tool_choice req) as [tc|];
      [|exists None; split; [reflexivity|reflexivity]].
    destruct (convertToolChoice_never_throws (Some tc)) as (c & Hc).
    exists (Some c). unfold bind. rewrite Hc. split; [reflexivity|intros []]. }
  destruct Hc as (tc & Hc & Hnone). rewrite Hc. unfold bind.
  split; [intros _; eexists; reflexivity|].
  intros areq H; injection H as <-.
  cbn [areq_tools areq_tool_choice areq_thinking areq_temperature areq_max_tokens].
  split; [|split].
  - intros Ht. apply Hnone. destruct (req_tools req) as [[|t tools]|]; [exact I|discriminate|exact I].
  - destruct (getThinkingConfig tier modelName); [reflexivity|intros H; contradiction].
  - intros budget Hb. rewrite Hb.
    unfold getThinkingConfig in Hb.
    destruct (supportsAdaptiveThinking modelName && _); [discriminate|].
    destruct (str_eqb tier (lit "MEDIUM")); [|discriminate].
    injection Hb as <-. reflexivity.
Qed.

Lemma anthropic_request_is_consistent_witness :
  exists areq,
    anthropic_request (lit "sk-ant-api03-sample")
      {| req_model := Some (lit "auto");
         req_messages := Some [user_message (lit "hello")];
         req_max_tokens := Some 100%Z;
         req_temperature := Some (JNum 1);
         req_stream := None; req_top_p := None;
         req_tools := Some [];
         req_tool_choice := Some (JStr (lit "required")) |}
      (lit "claude-sonnet-4-5") (lit "MEDIUM") false = Ok areq
    /\ areq_tool_choice areq = None
    /\ areq_temperature areq = None
    /\ areq_max_tokens areq = 4196%Z.
Proof.
  set (req := {| req_model := Some (lit "auto");
                 req_messages := Some [user_message (lit "hello")];
                 req_max_tokens := Some 100%Z;
                 req_temperature := Some (JNum 1);
                 req_stream := None; req_top_p := None;
                 req_tools := Some [];
                 req_tool_choice := Some (JStr (lit "required")) |}).
  pose proof (@anthropic_request_is_consistent sample_runtime (lit "sk-ant-api03-sample")
                req (lit "claude-sonnet-4-5") (lit "MEDIUM") false) as [Hex Hall].
  destruct Hex as (areq & Hreq); [discriminate|].
  exists areq. split; [exact Hreq|].
  destruct (Hall areq Hreq) as (H1 & H2 & H3).
  assert (Hv : anthropic_request (lit "sk-ant-api03-sample") req (lit "claude-sonnet-4-5")
                 (lit "MEDIUM") false = Ok areq) by exact Hreq.
  vm_compute in Hv. injection Hv as <-.
  split; [apply H1; reflexivity|].
  split; [apply H2; discriminate|].
  apply (H3 4096%Z). reflexivity.
Defined.

(** ** The translation of the messages *)

Section Messages.

Context {RT : Runtime}.

Lemma convert_message_roles (acc : jsstring * list AnthropicMessage) (msg : ChatMessage) :
  Forall (fun m => am_role m = lit "user" \/ am_role m = lit "assistant") (snd acc) -> Forall (fun m => am_role m = lit "user" \/ am_role m = lit "assistant") (snd (convert_message acc msg)).
Proof.
  destruct acc as [systemContent messages]. unfold convert_message. cbn [snd].
  intros H.
  destruct (str_eqb (role msg) (lit "system") || str_eqb (role msg) (lit "developer"));
    [exact H|].
  destruct (str_eqb (role msg) (lit "tool")).
  - destruct messages as [|[r [s|bs]] earlier];
      try (constructor; [left; reflexivity|exact H]).
    destruct (str_eqb r (lit "user") && forallb is_tool_result bs) eqn:E;
      [|constructor; [left; reflexivity|exact H]].
    inversion H as [|? ? Hm Hrest]; subst.
    constructor; [|exact Hrest].
    apply andb_true_iff in E as [E _]. apply str_eqb_eq in E. left. exact E.
  - destruct (str_eqb (role msg) (lit "assistant")).
    + destruct (tool_calls msg) as [[|tc tcs]|];
        constructor; try exact H; right; reflexivity.
    + constructor; [left; reflexivity|exact H].
Qed.

Lemma fold_convert_roles (msgs : list ChatMessage) (acc : jsstring * list AnthropicMessage) :
  Forall (fun m => am_role m = lit "user" \/ am_role m = lit "assistant") (snd acc) ->
  Forall (fun m => am_role m = lit "user" \/ am_role m = lit "assistant") (snd (fold_left convert_message msgs acc)).
Proof.
  revert acc; induction msgs as [|msg msgs IH]; intros acc H; [exact H|].
  cbn [fold_left]. apply IH, convert_message_roles, H.
Qed.

End Messages.

(** X12.  Whatever roles the request uses, the messages sent to
    Anthropic speak as [user] or as [assistant]: system and developer
    texts leave the list, tool results travel in user messages, and a
    message of any other role is sent as a user message. *)
Theorem anthropic_messages_speak_as_user_or_assistant :
  forall {RT : Runtime} (openaiMessages : list ChatMessage),
    Forall (fun m => am_role m = lit "user" \/ am_role m = lit "assistant")
           (snd (convertMessagesToAnthropic openaiMessages)).
Proof.
  intros RT openaiMessages. unfold convertMessagesToAnthropic.
  pose proof (fold_convert_roles openaiMessages ([], []) (Forall_nil _)) as H.
  destruct (fold_left convert_message openaiMessages ([], [])) as [systemContent messages].
  cbn [snd] in *. apply Forall_rev. exact H.
Qed.

Section ToolResults.

Context {RT : Runtime}.

Lemma convert_tool_message (acc : jsstring * list AnthropicMessage) (msg : ChatMessage) :
  role msg = lit "tool" ->
  exists bs earlier,
    convert_message acc msg
    = (fst acc, {| am_role := lit "user"; am_content := ABlocks (bs ++ [result_of msg]) |}
                :: earlier)
    /\ forallb is_tool_result (bs ++ [result_of msg]) = true.
Proof.
  intros Hr. destruct acc as [systemContent messages]. unfold convert_message.
  rewrite Hr. cbn -[lit].
  replace (str_eqb (lit "tool") (lit "system") || str_eqb (lit "tool") (lit "developer"))
    with false by reflexivity.
  replace (str_eqb (lit "tool") (lit "tool")) with true by reflexivity.
  fold (result_of msg).
  destruct messages as [|[r [s|bs]] earlier];
    try (exists [], []; split; reflexivity);
    try (eexists [], (_ :: _); split; reflexivity).
  destruct (str_eqb r (lit "user") && forallb is_tool_result bs) eqn:E;
    [|eexists [], (_ :: _); split; reflexivity].
  apply andb_true_iff in E as [E1 E2]. apply str_eqb_eq in E1; subst r.
  exists bs, earlier. split; [reflexivity|].
  rewrite forallb_app, E2. reflexivity.
Qed.

End ToolResults.

(** X13.  A tool message that follows a tool message opens no message of
    its own: its result joins the results of the one before, in the same
    user message. *)
Theorem consecutive_tool_results_share_a_message :
  forall {RT : Runtime} (before : list ChatMessage) (first second : ChatMessage),
    role first = lit "tool" ->
    role second = lit "tool" ->
    exists earlier bs,
      snd (convertMessagesToAnthropic (before ++ [first]))
      = earlier ++ [{| am_role := lit "user"; am_content := ABlocks bs |}]
      /\ snd (convertMessagesToAnthropic (before ++ [first; second]))
         = earlier
           ++ [{| am_role := lit "user";
                  am_content := ABlocks (bs ++ [result_of second]) |}].
Proof.
  intros RT before first second H1 H2.
  unfold convertMessagesToAnthropic.
  replace (before ++ [first; second]) with ((before ++ [first]) ++ [second])
    by (rewrite <- app_assoc; reflexivity).
  rewrite (fold_left_app _ (before ++ [first])), fold_left_app.
  cbn [fold_left].
  destruct (convert_tool_message (fold_left convert_message before ([], [])) first H1)
    as (bs & earlier & -> & Hall).
  set (sys := fst (fold_left convert_message before ([], []))).
  exists (rev earlier), (bs ++ [result_of first]).
  split; [reflexivity|].
  unfold convert_message at 1. rewrite H2.
  replace (str_eqb (lit "tool") (lit "system") || str_eqb (lit "tool") (lit "developer"))
    with false by reflexivity.
  replace (str_eqb (lit "tool") (lit "tool")) with true by reflexivity.
  rewrite Hall, str_eqb_refl. reflexivity.
Qed.

(** Two results of the calls of one assistant turn. *)
Lemma consecutive_tool_results_share_a_message_witness :
  snd (convertMessagesToAnthropic
         ([user_message (lit "weather?"); assistant_calling [paris_call; null_call]]
            ++ [tool_answer "call_1" "sunny"; tool_answer "call_2" "pong"]))
  = [{| am_role := lit "user"; am_content := AText (lit "weather?") |};
     {| am_role := lit "assistant";
        am_content := ABlocks (map tool_use_of_call [paris_call; null_call]) |};
     {| am_role := lit "user";
        am_content := ABlocks [tool_result_block (lit "call_1") (lit "sunny");
                               tool_result_block (lit "call_2") (lit "pong")] |}].
Proof.
  destruct (@consecutive_tool_results_share_a_message sample_runtime
              [user_message (lit "weather?"); assistant_calling [paris_call; null_call]]
              (tool_answer "call_1" "sunny") (tool_answer "call_2" "pong")
              eq_refl eq_refl) as (earlier & bs & H1 & H2).
  rewrite H2.
  vm_compute in H1.
  change [?a; ?b; ?c] with ([a; b] ++ [c]) in H1.
  apply app_inj_tail in H1 as [<- H1]. injection H1 as <-.
  vm_compute. reflexivity.
Defined.

(** ** The pass-through *)

Section PassThrough.

Context {RT : Runtime}.

Lemma set_field_keys (A : Type) (k : jsstring) (v : A) (fs : list (jsstring * A)) :
  assoc k fs <> None -> map fst (set_field k v fs) = map fst fs.
Proof.
  induction fs as [|[k' v'] fs IH]; cbn [assoc set_field map fst]; [congruence|].
  destruct (str_eqb k k'); cbn [map fst]; [reflexivity|].
  intros H. f_equal. apply IH, H.
Qed.

Lemma passthrough_reads_concat (modelName : jsstring) (values : list jsstring)
  (buf : jsstring) :
  ~ In 10%N buf ->
  fst (passthrough_reads modelName buf values)
  = map (passthrough_line modelName)
        (removelast (split_lines (buf ++ List.concat values))).
Proof.
  revert buf; induction values as [|value values IH]; intros buf Hb.
  - cbn [passthrough_reads List.concat fst].
    rewrite app_nil_r, split_lines_no_feed by exact Hb. reflexivity.
  - cbn [passthrough_reads List.concat].
    specialize (IH (last (split_lines (buf ++ value)) []) (last_split_lines_no_feed _)).
    destruct (passthrough_reads modelName (last (split_lines (buf ++ value)) []) values)
      as [ws buf'].
    cbn [fst] in *. rewrite IH.
    rewrite app_assoc, (split_lines_app (buf ++ value)).
    rewrite removelast_app_nonempty by apply split_lines_nonempty.
    rewrite map_app. reflexivity.
Qed.

End PassThrough.

(** X14.  The rewriting of the model name in a pass-through response
    changes nothing else: the keys of the object stay as they are, in
    their order, and so does the value under every key but [model]; a
    value that names no model is not changed at all. *)
Theorem rewrite_model_touches_the_model_only :
  forall {RT : Runtime} (modelName : jsstring) (v v' : json),
    rewrite_model modelName v = Ok v' ->
    keys v' = keys v
    /\ (forall k, k <> lit "model" -> get (Some v') k = get (Some v) k)
    /\ (truthy (field (Some v) "model") = false -> v' = v).
Proof.
  intros RT modelName v v'. unfold rewrite_model, field, bind, get_opt, get.
  destruct v as [| | | | |fs]; try discriminate;
    try (intros H; injection H as <-; repeat split; reflexivity).
  destruct (truthy (assoc (lit "model") fs)) eqn:E; intros H; injection H as <-;
    [|repeat split; reflexivity].
  split; [|split; [|discriminate]].
  - cbn [keys]. apply set_field_keys. intros Hn. rewrite Hn in E. discriminate E.
  - intros k Hk. f_equal. apply assoc_set_field_other. exact Hk.
Qed.

Lemma rewrite_model_touches_the_model_only_witness :
  let chunk := JObj [(lit "id", JStr (lit "cmpl-1"));
                     (lit "model", JStr (lit "kimi-for-coding"));
                     (lit "choices", JArr [])] in
  rewrite_model (lit "kimi-for-coding") chunk
  = Ok (JObj [(lit "id", JStr (lit "cmpl-1"));
              (lit "model", JStr (lit "clawrouter/kimi-for-coding"));
              (lit "choices", JArr [])])
  /\ keys (JObj [(lit "id", JStr (lit "cmpl-1"));
                 (lit "model", JStr (lit "clawrouter/kimi-for-coding"));
                 (lit "choices", JArr [])])
     = keys chunk.
Proof.
  cbv zeta.
  assert (H : rewrite_model (lit "kimi-for-coding")
                (JObj [(lit "id", JStr (lit "cmpl-1"));
                       (lit "model", JStr (lit "kimi-for-coding"));
                       (lit "choices", JArr [])])
              = Ok (JObj [(lit "id", JStr (lit "cmpl-1"));
                          (lit "model", JStr (lit "clawrouter/kimi-for-coding"));
                          (lit "choices", JArr [])])) by reflexivity.
  split; [exact H|].
  apply (@rewrite_model_touches_the_model_only sample_runtime _ _ _ H).
Defined.

(** X15.  What the pass-through writes to a response that is still open:
    one write for every complete line of the upstream, then a terminator
    of its own, also after the terminator of the upstream; the response
    is closed with status 200. *)
Theorem passthrough_stream_forwards_line_by_line :
  forall {RT : Runtime} (modelName : jsstring) (bs : BodyStream) (res : Res),
    headersSent res = false ->
    writableEnded res = false ->
    let res' := fst (openai_stream modelName (Some bs) res) in
    body res'
    = body res
      ++ map (passthrough_line modelName)
             (removelast (split_lines (List.concat (bs_values bs))))
      ++ [WDone]
    /\ writableEnded res' = true
    /\ statusCode res' = Some 200%Z.
Proof.
  intros RT modelName bs res Hh He. cbv zeta.
  unfold openai_stream, writeHead. rewrite Hh. cbn [fst].
  rewrite writableEnded_write_all. cbn [writableEnded]. rewrite He.
  rewrite passthrough_reads_concat by (intros []). cbn [app].
  split; [|split; [reflexivity|]].
  - unfold end_; cbn [body]. rewrite body_write, body_write_all, writableEnded_write_all.
    cbn [body writableEnded]. rewrite app_assoc. reflexivity.
  - apply statusCode_end, statusCode_write, statusCode_write_all. reflexivity.
Qed.

(** An upstream that ends its stream with [data: [DONE]]: the client reads
    the terminator twice. *)
Lemma passthrough_stream_forwards_line_by_line_witness :
  body (fst (openai_stream (lit "kimi-for-coding")
               (Some {| bs_values := [data_line (lit "[DONE]") ++ [10%N]];
                        bs_end := ReadDone |})
               fresh_res))
  = [WDone; WRaw [10%N]; WDone].
Proof.
  apply (proj1 (@passthrough_stream_forwards_line_by_line sample_runtime
                  (lit "kimi-for-coding")
                  {| bs_values := [data_line (lit "[DONE]") ++ [10%N]];
                     bs_end := ReadDone |}
                  fresh_res eq_refl eq_refl)).
Defined.

(** ** The prompt that is classified *)

Section Prompt.

Lemma fold_conversation (messages : list ChatMessage)
  (acc : option jsstring * list (jsstring * jsstring)) :
  snd (fold_left
         (fun (acc : option jsstring * list (jsstring * jsstring)) msg =>
            let text := message_text (content msg) in
            if str_eqb (role msg) (lit "system") || str_eqb (role msg) (lit "developer")
            then (Some (match fst acc with
                        | Some ((_ :: _) as sp) => sp ++ [10%N]
                        | _ => []
                        end ++ text),
                  snd acc)
            else (fst acc, snd acc ++ [(role msg, text)]))
         messages acc)
  = snd acc ++ conversation messages.
Proof.
  revert acc; induction messages as [|msg messages IH]; intros acc.
  - cbn [fold_left]. unfold conversation. cbn [filter map]. rewrite app_nil_r. reflexivity.
  - cbn [fold_left]. rewrite IH. unfold conversation, in_conversation. cbn [filter].
    destruct (str_eqb (role msg) (lit "system") || str_eqb (role msg) (lit "developer"));
      cbn [negb snd map]; [reflexivity|].
    rewrite <- app_assoc. reflexivity.
Qed.

(** The prompt is computed from the last three messages of the
    conversation. *)
Lemma extract_prompt (messages : list ChatMessage) :
  fst (extractPromptForClassification messages)
  = let recentMsgs := last_n 3 (conversation messages) in
    let lastUserMsg :=
      match rev (filter (fun m => str_eqb (fst m) (lit "user")) recentMsgs) with
      | m :: _ => snd m
      | [] => []
      end in
    let contextParts :=
      map (fun m => slice_to 500 (snd m))
          (filter (fun m => negb (str_eqb (snd m) lastUserMsg)) recentMsgs) in
    match contextParts with
    | [] => lastUserMsg
    | _ => join [10%N] contextParts ++ [10%N] ++ lastUserMsg
    end.
Proof.
  unfold extractPromptForClassification.
  pose proof (fold_conversation messages (None, [])) as H.
  destruct (fold_left _ messages (None, [])) as [systemPrompt conversationMsgs].
  cbn [snd app] in H. subst conversationMsgs. reflexivity.
Qed.

Lemma last_n_app (A : Type) (n : nat) (a b : list A) :
  n <= List.length b -> last_n n (a ++ b) = last_n n b.
Proof.
  intros H. unfold last_n. rewrite length_app, skipn_app.
  rewrite (skipn_all2 a) by lia. cbn [app]. f_equal. lia.
Qed.

Lemma conversation_app (a b : list ChatMessage) :
  conversation (a ++ b) = conversation a ++ conversation b.
Proof. unfold conversation. rewrite filter_app, map_app. reflexivity. Qed.

Lemma prompt_window (older recent : list ChatMessage) :
  3 <= List.length (filter in_conversation recent) ->
  fst (extractPromptForClassification (older ++ recent))
  = fst (extractPromptForClassification recent).
Proof.
  intros H. rewrite !extract_prompt, conversation_app.
  rewrite last_n_app; [reflexivity|].
  unfold conversation. rewrite length_map. exact H.
Qed.

Lemma join_length (sep : jsstring) (parts : list jsstring) (bound : nat) :
  parts <> [] ->
  Forall (fun p => List.length p <= bound) parts ->
  List.length (join sep parts) + List.length sep
  <= List.length parts * (bound + List.length sep).
Proof.
  induction parts as [|p parts IH]; intros Hne H; [contradiction|].
  inversion H as [|? ? Hp Hrest]; subst.
  destruct parts as [|q parts].
  - cbn [join List.length]. lia.
  - specialize (IH ltac:(discriminate) Hrest).
    change (join sep (p :: q :: parts)) with (p ++ sep ++ join sep (q :: parts)).
    rewrite !length_app. cbn [List.length] in *. lia.
Qed.

Lemma last_n_length (A : Type) (n : nat) (l : list A) : List.length (last_n n l) <= n.
Proof. unfold last_n. rewrite length_skipn. lia. Qed.

Lemma last_n_incl (A : Type) (n : nat) (l : list A) (a : A) :
  In a (last_n n l) -> In a l.
Proof.
  unfold last_n. intros H. rewrite <- (firstn_skipn (List.length l - n) l).
  apply in_or_app. right. exact H.
Qed.

Lemma filter_length_le (A : Type) (p : A -> bool) (l : list A) :
  List.length (filter p l) <= List.length l.
Proof.
  induction l as [|a l IH]; [reflexivity|].
  cbn [filter]. destruct (p a); cbn [List.length]; lia.
Qed.

Lemma prompt_shape (messages : list ChatMessage) :
  exists context tail,
    fst (extractPromptForClassification messages) = context ++ tail
    /\ List.length context <= 1503
    /\ (tail = [] \/ In tail (user_texts messages)).
Proof.
  rewrite extract_prompt. cbv zeta.
  set (recentMsgs := last_n 3 (conversation messages)).
  set (lastUserMsg := match rev (filter _ recentMsgs) with m :: _ => snd m | [] => [] end).
  assert (Htail : lastUserMsg = [] \/ In lastUserMsg (user_texts messages)).
  { unfold lastUserMsg.
    destruct (rev (filter (fun m => str_eqb (fst m) (lit "user")) recentMsgs))
      as [|m ms] eqn:E; [left; reflexivity|right].
    assert (Hin : In m (filter (fun m => str_eqb (fst m) (lit "user")) recentMsgs)).
    { apply in_rev. rewrite E. left. reflexivity. }
    apply filter_In in Hin as [Hin Hu].
    apply last_n_incl in Hin. unfold conversation in Hin.
    apply in_map_iff in Hin as (msg & <- & Hmsg).
    apply filter_In in Hmsg as [Hmsg _].
    unfold user_texts. apply in_map_iff. exists msg. split; [reflexivity|].
    apply filter_In. split; [exact Hmsg|exact Hu]. }
  set (contextParts := map _ (filter _ recentMsgs)).
  destruct contextParts as [|c cs] eqn:E.
  - exists [], lastUserMsg. repeat split; [cbn; lia|exact Htail].
  - exists (join [10%N] (c :: cs) ++ [10%N]), lastUserMsg.
    split; [rewrite <- app_assoc; reflexivity|]. split; [|exact Htail].
    rewrite length_app.
    assert (Hb : Forall (fun p => List.length p <= 500) (c :: cs)).
    { rewrite <- E. unfold contextParts. apply Forall_forall. intros p Hp.
      apply in_map_iff in Hp as (m & <- & _). unfold slice_to.
      rewrite length_firstn. lia. }
    pose proof (@join_length [10%N] (c :: cs) 500 ltac:(discriminate) Hb) as Hj.
    assert (Hn : List.length (c :: cs) <= 3).
    { rewrite <- E. unfold contextParts. rewrite length_map.
      etransitivity; [apply filter_length_le|]. apply last_n_length. }
    cbn [List.length] in *. nia.
Qed.

End Prompt.

(** X16.  Only the last three messages of the conversation are
    classified: what came before them does not change the prompt. *)
Theorem classification_reads_the_last_three_messages :
  forall (older recent : list ChatMessage),
    3 <= List.length (filter in_conversation recent) ->
    fst (extractPromptForClassification (older ++ recent))
    = fst (extractPromptForClassification recent).
Proof. exact prompt_window. Qed.

Lemma classification_reads_the_last_three_messages_witness :
  fst (extractPromptForClassification
         ([user_message (lit "prove the theorem step by step")]
            ++ [user_message (lit "a"); user_message (lit "b"); user_message (lit "hi")]))
  = fst (extractPromptForClassification
           [user_message (lit "a"); user_message (lit "b"); user_message (lit "hi")]).
Proof.
  apply (classification_reads_the_last_three_messages
           [user_message (lit "prove the theorem step by step")]
           [user_message (lit "a"); user_message (lit "b"); user_message (lit "hi")]).
  vm_compute. lia.
Defined.

(** X17.  The classified prompt is the text of a user message, or
    nothing, preceded by at most 1503 characters of context. *)
Theorem classified_prompt_is_a_user_text_after_bounded_context :
  forall (messages : list ChatMessage),
    exists context tail,
      fst (extractPromptForClassification messages) = context ++ tail
      /\ List.length context <= 1503
      /\ (tail = [] \/ In tail (user_texts messages)).
Proof. exact prompt_shape. Qed.

(** ** Requests that are not forwarded *)

Section Validation.

Context {RT : Runtime} {SC : Scorer}.

Lemma sendError_open (status : Z) (message type : jsstring) (res : Res) :
  headersSent res = false ->
  writableEnded res = false ->
  exists r,
    sendError status message type res = Ok r
    /\ statusCode r = Some status
    /\ writableEnded r = true
    /\ body r = body res ++ [WJson (error_body status message type)].
Proof.
  intros Hh He. unfold sendError, writeHead, bind. rewrite Hh.
  eexists. split; [reflexivity|].
  unfold end_, write; cbn [statusCode writableEnded body headersSent]. rewrite He.
  repeat split.
Qed.

Lemma request_complete_or_400 (B : Backend) (routingCfg : RoutingConfig)
  (pricing : jsstring -> option ModelPricing) (parsed : option ChatRequest)
  (stats : Stats) (res : Res) (clock : nat) :
  headersSent res = false ->
  writableEnded res = false ->
  (exists chatReq model messages,
      parsed = Some chatReq
      /\ req_model chatReq = Some model /\ model <> []
      /\ req_messages chatReq = Some messages /\ messages <> []
      /\ fst (extractPromptForClassification messages) <> [])
  \/ (exists message r,
        handleChatCompletions B routingCfg pricing parsed stats res clock
        = (stats, r, clock, Ok tt)
        /\ In message rejections
        /\ statusCode r = Some 400%Z
        /\ writableEnded r = true
        /\ body r = body res ++ [WJson (error_body 400 message (lit "server_error"))]).
Proof.
  intros Hh He.
  assert (Hrej : forall message,
             In message rejections ->
             exists message' r,
               match sendError 400 message (lit "server_error") res with
               | Ok r => (stats, r, clock, Ok tt)
               | Throw e => (stats, res, clock, Throw e)
               end = (stats, r, clock, Ok tt)
               /\ In message' rejections
               /\ statusCode r = Some 400%Z
               /\ writableEnded r = true
               /\ body r = body res ++ [WJson (error_body 400 message' (lit "server_error"))]).
  { intros message Hin.
    destruct (sendError_open 400 message (lit "server_error") res Hh He)
      as (r & -> & H1 & H2 & H3).
    exists message, r. repeat split; assumption. }
  unfold handleChatCompletions.
  destruct parsed as [chatReq|];
    [|right; apply Hrej; left; reflexivity].
  destruct (req_model chatReq) as [[|c model]|] eqn:Em;
    try (right; apply Hrej; right; left; reflexivity).
  destruct (req_messages chatReq) as [[|msg messages]|] eqn:Es;
    try (right; apply Hrej; right; right; left; reflexivity).
  destruct (extractPromptForClassification (msg :: messages)) as [prompt systemPrompt] eqn:Ep.
  destruct prompt as [|p prompt];
    [right; apply Hrej; right; right; right; left; reflexivity|].
  left. exists chatReq, (c :: model), (msg :: messages).
  rewrite Ep. cbn [fst]. repeat split; try reflexivity; try assumption; discriminate.
Qed.

End Validation.

(** X18.  A request is complete (a model, at least one message, a prompt
    to classify) or it is answered with status 400 and one of four
    messages; such a request is not counted, and nothing is asked of any
    upstream: the statistics and the clock are as before. *)
Theorem incomplete_requests_are_answered_400 :
  forall {RT : Runtime} {SC : Scorer} (B : Backend) (routingCfg : RoutingConfig)
         (pricing : jsstring -> option ModelPricing) (parsed : option ChatRequest)
         (stats : Stats) (res : Res) (clock : nat),
    headersSent res = false ->
    writableEnded res = false ->
    (exists chatReq model messages,
        parsed = Some chatReq
        /\ req_model chatReq = Some model /\ model <> []
        /\ req_messages chatReq = Some messages /\ messages <> []
        /\ fst (extractPromptForClassification messages) <> [])
    \/ (exists message r,
          handleChatCompletions B routingCfg pricing parsed stats res clock
          = (stats, r, clock, Ok tt)
          /\ In message rejections
          /\ statusCode r = Some 400%Z
          /\ writableEnded r = true
          /\ body r = body res ++ [WJson (error_body 400 message (lit "server_error"))]).
Proof. intros. apply request_complete_or_400; assumption. Qed.

(** A conversation in which only the assistant has spoken, and nothing. *)
Lemma incomplete_requests_are_answered_400_witness :
  exists message r,
    handleChatCompletions (SC := sample_scorer) healthy_backend default_routing no_pricing
      (Some {| req_model := Some (lit "auto");
               req_messages :=
                 Some [{| role := lit "assistant"; content := CString [];
                          tool_calls := None; tool_call_id := None; name := None |}];
               req_max_tokens := None; req_temperature := None; req_stream := None;
               req_top_p := None; req_tools := None; req_tool_choice := None |})
      no_stats fresh_res 0
    = (no_stats, r, 0, Ok tt)
    /\ In message rejections
    /\ statusCode r = Some 400%Z
    /\ writableEnded r = true
    /\ body r = body fresh_res ++ [WJson (error_body 400 message (lit "server_error"))].
Proof.
  destruct (@incomplete_requests_are_answered_400 sample_runtime sample_scorer
              healthy_backend default_routing no_pricing
              (Some {| req_model := Some (lit "auto");
                       req_messages :=
                         Some [{| role := lit "assistant"; content := CString [];
                                  tool_calls := None; tool_call_id := None;
                                  name := None |}];
                       req_max_tokens := None; req_temperature := None;
                       req_stream := None; req_top_p := None; req_tools := None;
                       req_tool_choice := None |})
              no_stats fresh_res 0 eq_refl eq_refl) as [H|H].
  - exfalso. destruct H as (chatReq & model & messages & Hp & _ & _ & Hm & _ & Hprompt).
    injection Hp as <-. cbn [req_messages] in Hm. injection Hm as <-.
    apply Hprompt. reflexivity.
  - exact H.
Defined.

(** ** Statistics *)

Section Statistics.

Context {RT : Runtime} {SC : Scorer}.

Lemma total_bump (k : jsstring) (m : list (jsstring * Z)) :
  total (bump k m) = (total m + 1)%Z.
Proof.
  unfold bump, total.
  induction m as [|[k' n] m IH]; cbn [assoc set_field map snd fold_right]; [lia|].
  destruct (str_eqb k k') eqn:E; cbn [map snd fold_right].
  - lia.
  - destruct (assoc k m) as [n'|]; cbn [map snd fold_right] in *; lia.
Qed.

Lemma try_models_counts (B : Backend) (chatReq : ChatRequest) (routedModel tier : jsstring)
  (stream : bool) (models : list jsstring) :
  forall (lastError : jsstring) (stats : Stats) (res : Res) (clock : nat),
    let '(stats', _, _, _) :=
      try_models B chatReq routedModel tier stream models lastError stats res clock in
    requests stats' = requests stats
    /\ errors stats' = errors stats
    /\ byTier stats' = byTier stats
    /\ byModel stats' = byModel stats
    /\ (timeouts stats <= timeouts stats' <= timeouts stats + Z.of_nat (List.length models))%Z.
Proof.
  induction models as [|m models IH]; intros lastError stats res clock; cbn [try_models].
  - repeat split; cbn [List.length]; lia.
  - destruct (match (if str_eqb m routedModel then Ok res
                     else setHeader (lit "X-ClawRouter-Model") m res) with
              | Throw e => (res, clock, Throw e)
              | Ok r0 => forwardRequest B chatReq m tier stream r0 clock
              end) as [[res1 clock1] [[]|err]].
    + repeat split; cbn [List.length]; lia.
    + set (stats1 := if is_timeout err then count_timeout stats else stats).
      assert (H1 : requests stats1 = requests stats /\ errors stats1 = errors stats
                   /\ byTier stats1 = byTier stats /\ byModel stats1 = byModel stats
                   /\ (timeouts stats <= timeouts stats1 <= timeouts stats + 1)%Z).
      { unfold stats1. destruct (is_timeout err); cbn; repeat split; lia. }
      destruct H1 as (Ha & Hb & Hc & Hd & He).
      destruct (headersSent res1).
      * repeat split; try assumption; cbn [List.length]; lia.
      * specialize (IH (error_message err) stats1 res1 clock1).
        destruct (try_models B chatReq routedModel tier stream models (error_message err)
                    stats1 res1 clock1) as [[[stats' res'] clock'] out].
        destruct IH as (Ia & Ib & Ic & Id & Ie).
        repeat split; try congruence; cbn [List.length]; lia.
Qed.

Lemma handled_counts (B : Backend) (routingCfg : RoutingConfig)
  (pricing : jsstring -> option ModelPricing) (parsed : option ChatRequest)
  (stats : Stats) (res : Res) (clock : nat) :
  let '(stats', _, _, _) :=
    handleChatCompletions B routingCfg pricing parsed stats res clock in
  (total (byTier stats) = requests stats -> total (byTier stats') = requests stats')
  /\ ((errors stats <= requests stats)%Z -> (errors stats' <= requests stats')%Z)
  /\ (requests stats <= requests stats' <= requests stats + 1)%Z.
Proof.
  unfold handleChatCompletions.
  assert (Hsame : forall message,
             let '(stats', _, _, _) :=
               match sendError 400 message (lit "server_error") res with
               | Ok r => (stats, r, clock, Ok tt)
               | Throw e => (stats, res, clock, Throw e)
               end in
             (total (byTier stats) = requests stats -> total (byTier stats') = requests stats')
             /\ ((errors stats <= requests stats)%Z -> (errors stats' <= requests stats')%Z)
             /\ (requests stats <= requests stats' <= requests stats + 1)%Z).
  { intros message. destruct (sendError 400 message (lit "server_error") res);
      repeat split; trivial; lia. }
  destruct parsed as [chatReq|]; [|apply Hsame].
  destruct (req_model chatReq) as [[|c model]|]; try apply Hsame.
  destruct (req_messages chatReq) as [[|msg messages]|]; try apply Hsame.
  destruct (extractPromptForClassification (msg :: messages)) as [prompt systemPrompt].
  destruct prompt as [|p prompt]; [apply Hsame|].
  destruct (choose_model _ _ _ _ _ _) as [[[routedModel tier] reasoning]|e];
    [|repeat split; trivial; lia].
  set (stats1 := count_request (tier_label tier) routedModel stats).
  assert (H1 : (total (byTier stats) = requests stats -> total (byTier stats1) = requests stats1)
               /\ errors stats1 = errors stats
               /\ requests stats1 = (requests stats + 1)%Z).
  { unfold stats1, count_request; cbn [byTier requests errors].
    rewrite total_bump. repeat split; lia. }
  destruct H1 as (Ha & Hc & Hd).
  destruct (set_routing_headers routedModel (tier_label tier) reasoning res)
    as [res1 [[]|e]]; [|repeat split; try assumption; lia].
  pose proof (try_models_counts B chatReq routedModel (tier_label tier)
                (match req_stream chatReq with Some b => b | None => false end)
                (models_to_try routingCfg routedModel tier) [] stats1 res1 clock) as Ht.
  destruct (try_models _ _ _ _ _ _ _ _ _ _) as [[[stats2 res2] clock2] [|lastError]].
  - destruct Ht as (Ta & Tb & Tc & _). rewrite Ta, Tb, Tc.
    repeat split; try assumption; lia.
  - destruct Ht as (Ta & Tb & Tc & _).
    destruct (fail_response lastError res2);
      unfold count_error; cbn [byTier requests errors];
      rewrite Ta, Tb, Tc; repeat split; try assumption; lia.
Qed.

End Statistics.

(** X19.  The counters stay consistent across a request, whatever its
    outcome: the counts by tier still add up to the number of requests,
    the errors do not outnumber the requests, and the request was
    counted at most once. *)
Theorem statistics_stay_consistent :
  forall {RT : Runtime} {SC : Scorer} (B : Backend) (routingCfg : RoutingConfig)
         (pricing : jsstring -> option ModelPricing) (parsed : option ChatRequest)
         (stats : Stats) (res : Res) (clock : nat),
    let '(stats', _, _, _) :=
      handleChatCompletions B routingCfg pricing parsed stats res clock in
    (total (byTier stats) = requests stats -> total (byTier stats') = requests stats')
    /\ ((errors stats <= requests stats)%Z -> (errors stats' <= requests stats')%Z)
    /\ (requests stats <= requests stats' <= requests stats + 1)%Z.
Proof. intros. apply handled_counts. Qed.

Lemma statistics_stay_consistent_witness :
  let '(stats', _, _, _) :=
    handleChatCompletions (SC := sample_scorer) breaking_backend default_routing no_pricing
      (Some (chat_request "auto" (lit "/medium hello") true)) no_stats fresh_res 0 in
  total (byTier stats') = requests stats'
  /\ (errors stats' <= requests stats')%Z.
Proof.
  pose proof (@statistics_stay_consistent sample_runtime sample_scorer breaking_backend
                default_routing no_pricing
                (Some (chat_request "auto" (lit "/medium hello") true))
                no_stats fresh_res 0) as H.
  destruct (handleChatCompletions _ _ _ _ _ _ _) as [[[stats' res'] clock'] out].
  destruct H as (H1 & H3 & _).
  split; [apply H1; reflexivity|].
  apply H3. vm_compute. discriminate.
Defined.

(** ** The header that names the model *)

Section ModelHeader.

Context {RT : Runtime}.

Variable k : jsstring.

Hypothesis k_json : ~ In k (map fst json_headers).
Hypothesis k_sse : ~ In k (map fst sse_headers).

Lemma headers_end (r : Res) : headers (end_ r) = headers r.
Proof. reflexivity. Qed.

Lemma writeHead_keeps (status : Z) (hs : list (jsstring * jsstring)) (r r1 : Res) :
  ~ In k (map fst hs) ->
  writeHead status hs r = Ok r1 -> assoc k (headers r1) = assoc k (headers r).
Proof.
  intros Hk. unfold writeHead. destruct (headersSent r); [discriminate|].
  intros H; injection H as <-. cbn [headers]. apply assoc_set_fields_other, Hk.
Qed.

Lemma anthropic_stream_keeps (modelName : jsstring) (stream_view : option BodyStream)
  (res : Res) (clock : nat) :
  assoc k (headers (fst (fst (anthropic_stream modelName stream_view res clock))))
  = assoc k (headers res).
Proof.
  unfold anthropic_stream.
  destruct (writeHead 200 sse_headers res) as [r1|e] eqn:Hw; [|reflexivity].
  eapply writeHead_keeps in Hw; [|exact k_sse].
  destruct stream_view as [bs|]; [|exact Hw].
  destruct (process_reads modelName (initial_stream clock) (bs_values bs)) as [st ws].
  cbn [fst]. rewrite headers_end, headers_write, headers_write_all. exact Hw.
Qed.

Lemma openai_stream_keeps (modelName : jsstring) (stream_view : option BodyStream)
  (res : Res) :
  assoc k (headers (fst (openai_stream modelName stream_view res))) = assoc k (headers res).
Proof.
  unfold openai_stream.
  destruct (writeHead 200 sse_headers res) as [r1|e] eqn:Hw; [|reflexivity].
  eapply writeHead_keeps in Hw; [|exact k_sse].
  destruct stream_view as [bs|]; [|exact Hw].
  cbn [fst]. destruct (writableEnded _);
    rewrite ?headers_end, ?headers_write, headers_write_all; exact Hw.
Qed.

(** An attempt leaves the headers the handler has set as they are. *)
Lemma forwardRequest_keeps (B : Backend) (chatReq : ChatRequest)
  (routedModel tier : jsstring) (stream : bool) (res : Res) (clock : nat) :
  assoc k (headers (fst (fst (forwardRequest B chatReq routedModel tier stream res clock))))
  = assoc k (headers res).
Proof.
  unfold forwardRequest.
  destruct (parseModelId routedModel) as [provider model].
  assert (Ho : assoc k (headers (fst (forwardToOpenAI B chatReq provider model tier stream res)))
               = assoc k (headers res)).
  { unfold forwardToOpenAI.
    destruct (getAuth B provider) as [[tok [[|c key]|]]|]; try reflexivity.
    destruct (PROVIDERS provider) as [config| |]; try reflexivity.
    destruct (fetch_openai B _) as [err|status [errText|err]|json_view stream_view];
      try reflexivity.
    destruct stream; [apply openai_stream_keeps|].
    destruct json_view as [data|err]; [|reflexivity].
    destruct (rewrite_model model data) as [data'|err]; [|reflexivity].
    destruct (writeHead 200 json_headers res) as [r1|err] eqn:Hw; [|reflexivity].
    cbn [fst]. rewrite headers_end, headers_write.
    eapply writeHead_keeps; [exact k_json|exact Hw]. }
  destruct (PROVIDERS provider) as [[url [|] hs]| |]; try reflexivity;
    try (destruct (forwardToOpenAI B chatReq provider model tier stream res); exact Ho).
  unfold forwardToAnthropic.
  destruct (getAuth B (lit "anthropic")) as [[[[|c tok]|] key]|]; try reflexivity.
  destruct (anthropic_request _ chatReq model tier stream) as [areq|err]; [|reflexivity].
  destruct (fetch_anthropic B areq) as [err|status [errText|err]|json_view stream_view];
    try reflexivity.
  destruct stream; [apply anthropic_stream_keeps|].
  destruct json_view as [data|err]; [|reflexivity].
  destruct (anthropic_completion model data clock) as [completion clock1].
  destruct (writeHead 200 json_headers res) as [r1|err] eqn:Hw; [|reflexivity].
  cbn [fst]. rewrite headers_end, headers_write.
  eapply writeHead_keeps; [exact k_json|exact Hw].
Qed.

End ModelHeader.

Section Answering.

Context {RT : Runtime}.

Lemma model_header_keeps (B : Backend) (chatReq : ChatRequest)
  (routedModel tier : jsstring) (stream : bool) (res : Res) (clock : nat) :
  assoc (lit "X-ClawRouter-Model")
        (headers (fst (fst (forwardRequest B chatReq routedModel tier stream res clock))))
  = assoc (lit "X-ClawRouter-Model") (headers res).
Proof.
  apply forwardRequest_keeps; vm_compute; intuition discriminate.
Qed.

Lemma try_fallbacks_answer (B : Backend) (chatReq : ChatRequest)
  (routedModel tier : jsstring) (stream : bool) (models : list jsstring) :
  forall (lastError : jsstring) (stats : Stats) (res : Res) (clock : nat)
         (stats' : Stats) (res' : Res) (clock' : nat),
    ~ In routedModel models ->
    headersSent res = false ->
    try_models B chatReq routedModel tier stream models lastError stats res clock
    = (stats', res', clock', Succeeded) ->
    exists m r0 c0,
      In m models
      /\ assoc (lit "X-ClawRouter-Model") (headers res') = Some m
      /\ forwardRequest B chatReq m tier stream r0 c0 = (res', clock', Ok tt).
Proof.
  induction models as [|m models IH]; intros lastError stats res clock stats' res' clock'
    Hnot Hh; cbn [try_models]; [discriminate|].
  assert (Hm : str_eqb m routedModel = false).
  { apply str_eqb_neq. intros ->. apply Hnot. left. reflexivity. }
  rewrite Hm. unfold setHeader. rewrite Hh.
  destruct (valid_header_value m); cbn [negb].
  - set (r0 := {| headersSent := false; writableEnded := writableEnded res;
                  statusCode := statusCode res;
                  headers := set_field (lit "X-ClawRouter-Model") m (headers res);
                  body := body res |}).
    pose proof (model_header_keeps B chatReq m tier stream r0 clock) as Hk.
    destruct (forwardRequest B chatReq m tier stream r0 clock)
      as [[res1 clock1] [[]|err]] eqn:E; cbn [fst] in Hk.
    + intros H; injection H as _ <- <-.
      exists m, r0, clock. split; [left; reflexivity|]. split; [|exact E].
      rewrite Hk. apply assoc_set_field.
    + destruct (headersSent res1) eqn:Hs; [discriminate|].
      intros H. apply IH in H as (m' & r' & c' & Hin & Hhd & Hf);
        [|intros Hin; apply Hnot; right; exact Hin|exact Hs].
      exists m', r', c'. split; [right; exact Hin|]. split; assumption.
  - rewrite Hh. intros H. apply IH in H as (m' & r' & c' & Hin & Hhd & Hf);
      [|intros Hin; apply Hnot; right; exact Hin|exact Hh].
    exists m', r', c'. split; [right; exact Hin|]. split; assumption.
Qed.

End Answering.

(** X20.  When an attempt succeeds, the header [X-ClawRouter-Model] of
    the response names the model of that attempt: the routed model, or
    the fallback that answered. *)
Theorem model_header_names_the_model_that_answered :
  forall {RT : Runtime} (B : Backend) (chatReq : ChatRequest)
         (routedModel tier : jsstring) (stream : bool) (fallbacks : list jsstring)
         (lastError : jsstring) (stats : Stats) (res : Res) (clock : nat)
         (stats' : Stats) (res' : Res) (clock' : nat),
    headersSent res = false ->
    assoc (lit "X-ClawRouter-Model") (headers res) = Some routedModel ->
    ~ In routedModel fallbacks ->
    try_models B chatReq routedModel tier stream (routedModel :: fallbacks) lastError
      stats res clock
    = (stats', res', clock', Succeeded) ->
    exists m r0 c0,
      In m (routedModel :: fallbacks)
      /\ assoc (lit "X-ClawRouter-Model") (headers res') = Some m
      /\ forwardRequest B chatReq m tier stream r0 c0 = (res', clock', Ok tt).
Proof.
  intros RT B chatReq routedModel tier stream fallbacks lastError stats res clock
    stats' res' clock' Hh Hhd Hnot.
  cbn [try_models]. rewrite str_eqb_refl.
  pose proof (model_header_keeps B chatReq routedModel tier stream res clock) as Hk.
  destruct (forwardRequest B chatReq routedModel tier stream res clock)
    as [[res1 clock1] [[]|err]] eqn:E; cbn [fst] in Hk.
  - intros H; injection H as _ <- <-.
    exists routedModel, res, clock. split; [left; reflexivity|]. split; [|exact E].
    rewrite Hk. exact Hhd.
  - destruct (headersSent res1) eqn:Hs; [discriminate|].
    intros H. apply try_fallbacks_answer in H as (m' & r' & c' & Hin & Hh' & Hf);
      [|exact Hnot|exact Hs].
    exists m', r', c'. split; [right; exact Hin|]. split; assumption.
Qed.

(** The primary of the SIMPLE tier cannot be reached and the fallback
    answers: the header names the fallback. *)
Lemma model_header_names_the_model_that_answered_witness :
  let B := {| getAuth := sample_auth;
              fetch_anthropic := fun _ => FetchOk (Ok hello_response) None;
              fetch_openai := fun _ => FetchThrows (Error (lit "fetch failed")) |} in
  let res := {| headersSent := false; writableEnded := false; statusCode := None;
                headers := [(lit "X-ClawRouter-Model", lit "kimi-coding/kimi-for-coding")];
                body := [] |} in
  exists stats' res' clock',
    try_models B (chat_request "auto" (lit "hello") false)
      (lit "kimi-coding/kimi-for-coding") (lit "SIMPLE") false
      [lit "kimi-coding/kimi-for-coding"; lit "anthropic/claude-haiku-4-5"]
      [] no_stats res 0
    = (stats', res', clock', Succeeded)
    /\ exists m r0 c0,
         In m [lit "kimi-coding/kimi-for-coding"; lit "anthropic/claude-haiku-4-5"]
         /\ assoc (lit "X-ClawRouter-Model") (headers res') = Some m
         /\ forwardRequest B (chat_request "auto" (lit "hello") false) m (lit "SIMPLE")
              false r0 c0
            = (res', clock', Ok tt).
Proof.
  cbv zeta.
  set (run := try_models _ _ _ _ _ _ _ _ _ _).
  let v := eval vm_compute in run in
  assert (Hrun : run = v) by (vm_compute; reflexivity).
  match type of Hrun with _ = (?s, ?r, ?c, _) => exists s, r, c end.
  split; [exact Hrun|].
  unfold run in Hrun.
  eapply (@model_header_names_the_model_that_answered sample_runtime) in Hrun;
    [exact Hrun|reflexivity|reflexivity|vm_compute; intuition discriminate].
Defined.

(** ** The merge of the configuration file *)

Section Merge.

Lemma assoc_absent (A : Type) (k : jsstring) (fs : list (jsstring * A)) :
  ~ In k (map fst fs) -> assoc k fs = None.
Proof.
  induction fs as [|[k' v] fs IH]; cbn [assoc map fst]; [reflexivity|].
  intros H. destruct (str_eqb k k') eqn:E.
  - apply str_eqb_eq in E. exfalso. apply H. left. symmetry. exact E.
  - apply IH. intros Hin. apply H. right. exact Hin.
Qed.

Lemma fold_set_lookup (f : jsstring -> json -> json) (source : list (jsstring * json)) :
  NoDup (map fst source) ->
  forall (acc : list (jsstring * json)) (k : jsstring),
    assoc k (fold_left (fun result kv => set_field (fst kv) (f (fst kv) (snd kv)) result)
                       source acc)
    = match assoc k source with
      | Some sv => Some (f k sv)
      | None => assoc k acc
      end.
Proof.
  induction source as [|[k0 v0] source IH]; intros Hnd acc k; [reflexivity|].
  cbn [map fst] in Hnd. inversion Hnd as [|? ? Hk0 Hrest]; subst.
  cbn [fold_left fst snd assoc]. rewrite (IH Hrest).
  destruct (str_eqb k k0) eqn:E.
  - apply str_eqb_eq in E; subst k0.
    rewrite (@assoc_absent _ k source Hk0). apply assoc_set_field.
  - destruct (assoc k source); [reflexivity|].
    apply assoc_set_field_other. apply str_eqb_neq. exact E.
Qed.

Lemma merge_members (tfs sfs acc : list (jsstring * json)) :
  (fix go (fs acc : list (jsstring * json)) {struct fs} : list (jsstring * json) :=
     match fs with
     | [] => acc
     | (k, v) :: rest =>
         go rest (set_field k (Config.merge_value (assoc k tfs) v) acc)
     end) sfs acc
  = fold_left
      (fun result kv =>
         set_field (fst kv) (Config.merge_value (assoc (fst kv) tfs) (snd kv)) result)
      sfs acc.
Proof.
  revert acc; induction sfs as [|[k v] sfs IH]; intros acc; [reflexivity|].
  cbn [fold_left fst snd]. apply IH.
Qed.

Lemma merge_value_objects (tfs sfs : list (jsstring * json)) :
  Config.merge_value (Some (JObj tfs)) (JObj sfs) = JObj (Config.deepMerge tfs sfs).
Proof.
  unfold Config.deepMerge. cbn [Config.merge_value]. f_equal. apply merge_members.
Qed.

Lemma merge_value_spec (tv : option json) (sv : json) :
  Config.merge_value tv sv
  = match sv, tv with
    | JObj sfs, Some (JObj tfs) => JObj (Config.deepMerge tfs sfs)
    | _, _ => sv
    end.
Proof.
  destruct sv as [| | | | |sfs]; try reflexivity.
  destruct tv as [[| | | | |tfs]|]; try reflexivity.
  apply merge_value_objects.
Qed.

Lemma set_field_keeps_keys (A : Type) (k k' : jsstring) (v : A)
  (fs : list (jsstring * A)) :
  In k (map fst fs) -> In k (map fst (set_field k' v fs)).
Proof.
  induction fs as [|[k0 v0] fs IH]; cbn [set_field map fst]; [intros []|].
  destruct (str_eqb k' k0); cbn [map fst]; [trivial|].
  intros [H|H]; [left; exact H|right; exact (IH H)].
Qed.

Lemma fold_set_keeps_keys (f : jsstring * json -> json) (source : list (jsstring * json)) :
  forall (acc : list (jsstring * json)) (k : jsstring),
    In k (map fst acc) ->
    In k (map fst (fold_left (fun result kv => set_field (fst kv) (f kv) result)
                             source acc)).
Proof.
  induction source as [|kv source IH]; intros acc k H; [exact H|].
  cbn [fold_left]. apply IH, set_field_keeps_keys, H.
Qed.

Lemma deepMerge_keeps_keys (target source : list (jsstring * json)) (k : jsstring) :
  In k (map fst target) -> In k (map fst (Config.deepMerge target source)).
Proof.
  unfold Config.deepMerge.
  apply (fold_set_keeps_keys
           (fun kv => Config.merge_value (assoc (fst kv) target) (snd kv))).
Qed.

End Merge.

(** X21.  What the merged configuration holds under a key: the default
    where the file is silent; the merge of the two values where the file
    and the defaults both hold an object; the value of the file in every
    other case, arrays included.  No key of the defaults is lost. *)
Theorem deepMerge_lookup :
  forall (target source : list (jsstring * json)) (k : jsstring),
    (NoDup (map fst source) ->
     proto_free (JObj source) = true ->
     assoc k (Config.deepMerge target source)
     = match assoc k source with
       | None => assoc k target
       | Some sv =>
           Some match sv, assoc k target with
                | JObj sfs, Some (JObj tfs) => JObj (Config.deepMerge tfs sfs)
                | _, _ => sv
                end
       end)
    /\ (In k (map fst target) -> In k (map fst (Config.deepMerge target source))).
Proof.
  intros target source k. split; [|apply deepMerge_keeps_keys].
  intros Hnd _. unfold Config.deepMerge.
  rewrite (@fold_set_lookup (fun k sv => Config.merge_value (assoc k target) sv)
             source Hnd).
  destruct (assoc k source) as [sv|]; [|reflexivity].
  rewrite merge_value_spec. reflexivity.
Qed.

(** A file that moves the port and one provider's address. *)
Lemma deepMerge_lookup_witness :
  let file := [(lit "port", JNum 8080);
               (lit "providers",
                JObj [(lit "anthropic",
                       JObj [(lit "baseUrl", JStr (lit "http://localhost:9000"))])])] in
  assoc (lit "port") (Config.deepMerge Config.DEFAULT_CONFIG file) = Some (JNum 8080)
  /\ assoc (lit "host") (Config.deepMerge Config.DEFAULT_CONFIG file)
     = Some (JStr (lit "127.0.0.1"))
  /\ In (lit "tiers") (map fst (Config.deepMerge Config.DEFAULT_CONFIG file)).
Proof.
  cbv zeta.
  set (file := [(lit "port", JNum 8080);
                (lit "providers",
                 JObj [(lit "anthropic",
                        JObj [(lit "baseUrl", JStr (lit "http://localhost:9000"))])])]).
  assert (Hnd : NoDup (map fst file)).
  { repeat constructor; vm_compute; intuition discriminate. }
  split; [|split].
  - rewrite (proj1 (deepMerge_lookup Config.DEFAULT_CONFIG file (lit "port")) Hnd eq_refl).
    reflexivity.
  - rewrite (proj1 (deepMerge_lookup Config.DEFAULT_CONFIG file (lit "host")) Hnd eq_refl).
    reflexivity.
  - apply (proj2 (deepMerge_lookup Config.DEFAULT_CONFIG file (lit "tiers"))).
    vm_compute. tauto.
Defined.

(** ** The configuration that is active *)

Section Active.

Context {RT : Runtime}.

(** The log lines of [loadConfig] make sure of it: the providers and the
    tiers of a configuration that was loaded can be enumerated. *)
Lemma load_from_enumerable (fs : Config.FsEnv) (configPath : jsstring)
  (merged : list (jsstring * json)) :
  Config.load_from fs configPath = Ok merged ->
  (exists ps, Config.own_entries (nullish (assoc (lit "providers") merged) JNull) = Ok ps)
  /\ (exists ts, Config.own_entries (nullish (assoc (lit "tiers") merged) JNull) = Ok ts)
  /\ exists raw fileConfig entries,
       Config.readFileSync fs configPath = Ok raw
       /\ JSON_parse raw = Some fileConfig
       /\ Config.own_entries fileConfig = Ok entries
       /\ merged = Config.deepMerge Config.DEFAULT_CONFIG entries.
Proof.
  unfold Config.load_from, bind.
  destruct (Config.readFileSync fs configPath) as [raw|e] eqn:Er; [|discriminate].
  destruct (JSON_parse raw) as [fileConfig|] eqn:Ej; [|discriminate].
  destruct (Config.own_entries fileConfig) as [entries|e] eqn:Ee; [|discriminate].
  destruct (Config.own_entries (nullish (assoc (lit "providers") _) JNull))
    as [ps|e] eqn:Ep; [|discriminate].
  destruct (Config.own_entries (nullish (assoc (lit "tiers") _) JNull))
    as [ts|e] eqn:Et; [|discriminate].
  intros H; injection H as <-.
  split; [exists ps; exact Ep|]. split; [exists ts; exact Et|].
  exists raw, fileConfig, entries. repeat split; assumption.
Qed.

Lemma loadConfig_cases (fs : Config.FsEnv) (st : Config.ConfigState) :
  Config.loadConfig fs st = Config.defaults_state
  \/ exists configPath merged,
       Config.findConfigFile fs = Some configPath
       /\ Config.load_from fs configPath = Ok merged
       /\ Config.loadConfig fs st
          = {| Config._config := Some merged; Config._configPath := Some configPath |}.
Proof.
  unfold Config.loadConfig.
  destruct (Config.findConfigFile fs) as [configPath|]; [|left; reflexivity].
  destruct (Config.load_from fs configPath) as [merged|e] eqn:El; [|left; reflexivity].
  right. exists configPath, merged. split; [reflexivity|]. split; [exact El|reflexivity].
Qed.

Lemma findConfigFile_exists (fs : Config.FsEnv) (configPath : jsstring) :
  Config.findConfigFile fs = Some configPath -> Config.existsSync fs configPath = true.
Proof.
  unfold Config.findConfigFile.
  destruct (Config.FREEROUTER_CONFIG fs) as [[|c envPath]|];
    repeat match goal with
           | |- context [if Config.existsSync fs ?p then _ else _] =>
               destruct (Config.existsSync fs p) eqn:?
           end;
    intros H; try discriminate; injection H as <-; assumption.
Qed.

End Active.

Section Usable.

Context {RT : Runtime}.

Lemma loadConfig_usable (fs : Config.FsEnv) (st : Config.ConfigState) :
  exists cfg,
    Config._config (Config.loadConfig fs st) = Some cfg
    /\ (exists ps, Config.own_entries (nullish (assoc (lit "providers") cfg) JNull) = Ok ps)
    /\ (exists ts, Config.own_entries (nullish (assoc (lit "tiers") cfg) JNull) = Ok ts)
    /\ match Config._configPath (Config.loadConfig fs st) with
       | None => cfg = Config.DEFAULT_CONFIG
       | Some configPath =>
           Config.existsSync fs configPath = true
           /\ exists raw fileConfig entries,
                Config.readFileSync fs configPath = Ok raw
                /\ JSON_parse raw = Some fileConfig
                /\ Config.own_entries fileConfig = Ok entries
                /\ cfg = Config.deepMerge Config.DEFAULT_CONFIG entries
       end.
Proof.
  destruct (loadConfig_cases fs st) as [->|(configPath & merged & Hf & Hl & ->)].
  - exists Config.DEFAULT_CONFIG. cbn [Config._config Config._configPath Config.defaults_state].
    split; [reflexivity|]. split; [eexists; reflexivity|]. split; [eexists; reflexivity|].
    reflexivity.
  - exists merged. cbn [Config._config Config._configPath].
    destruct (load_from_enumerable _ _ Hl) as (Hp & Ht & Hraw).
    split; [reflexivity|]. split; [exact Hp|]. split; [exact Ht|].
    split; [apply findConfigFile_exists, Hf|exact Hraw].
Qed.

Lemma getConfig_loaded (fs fs' : Config.FsEnv) (st : Config.ConfigState) :
  fst (Config.getConfig fs' (Config.loadConfig fs st)) = Config.loadConfig fs st
  /\ Some (snd (Config.getConfig fs' (Config.loadConfig fs st)))
     = Config._config (Config.loadConfig fs st).
Proof.
  destruct (loadConfig_cases fs st) as [->|(configPath & merged & _ & _ & ->)];
    split; reflexivity.
Qed.

End Usable.

(** X22.  After [loadConfig] there is an active configuration whose
    providers and tiers can be enumerated.  It is the built-in default
    and [getConfigPath()] is [null], or [getConfigPath()] is a file that
    exists, was read and parsed, and the configuration is the merge of
    its content into the defaults. *)
Theorem loadConfig_leaves_a_usable_configuration :
  forall {RT : Runtime} (fs : Config.FsEnv) (st : Config.ConfigState),
    exists cfg,
      Config._config (Config.loadConfig fs st) = Some cfg
      /\ (exists ps, Config.own_entries (nullish (assoc (lit "providers") cfg) JNull) = Ok ps)
      /\ (exists ts, Config.own_entries (nullish (assoc (lit "tiers") cfg) JNull) = Ok ts)
      /\ match Config._configPath (Config.loadConfig fs st) with
         | None => cfg = Config.DEFAULT_CONFIG
         | Some configPath =>
             Config.existsSync fs configPath = true
             /\ exists raw fileConfig entries,
                  Config.readFileSync fs configPath = Ok raw
                  /\ JSON_parse raw = Some fileConfig
                  /\ Config.own_entries fileConfig = Ok entries
                  /\ cfg = Config.deepMerge Config.DEFAULT_CONFIG entries
         end.
Proof. intros. apply loadConfig_usable. Qed.

(** X23.  Once a configuration is loaded, [getConfig] answers from
    memory: the file system it would read plays no part, and the state
    stays as it is, until [reloadConfig] is called. *)
Theorem getConfig_answers_from_memory :
  forall {RT : Runtime} (fs fs' : Config.FsEnv) (st : Config.ConfigState),
    fst (Config.getConfig fs' (Config.loadConfig fs st)) = Config.loadConfig fs st
    /\ Some (snd (Config.getConfig fs' (Config.loadConfig fs st)))
       = Config._config (Config.loadConfig fs st).
Proof. intros. apply getConfig_loaded. Qed.



(** ** Model selection *)

Section Selection.

Context {SC : Scorer}.

Lemma selectModel_costs (t : Tier) (conf : number) (method reasoning : jsstring)
  (tierConfigs : TierTable) (pricing : jsstring -> option ModelPricing)
  (inTokens outTokens : Z) (d : RoutingDecision) :
  selectModel t conf method reasoning tierConfigs pricing inTokens outTokens = Ok d ->
  (exists tierConfig, tierConfigs t = Some tierConfig /\ rd_model d = primary tierConfig)
  /\ rd_tier d = t
  /\ {| costEstimate := rd_costEstimate d;
        baselineCost := rd_baselineCost d;
        savings := rd_savings d |}
     = calculateModelCost (rd_model d) pricing inTokens outTokens.
Proof.
  unfold selectModel, calculateModelCost.
  destruct (tierConfigs t) as [tierConfig|]; [|discriminate].
  intros H; injection H as <-. cbn [rd_model rd_tier rd_costEstimate rd_baselineCost rd_savings].
  split; [exists tierConfig; split; reflexivity|]. split; [reflexivity|].
  destruct (pricing (primary tierConfig)), (pricing (lit "anthropic/claude-opus-4-6"));
    reflexivity.
Qed.

End Selection.

(** X25.  The decision [selectModel] builds names the primary model of
    its tier, and its three cost figures are those [calculateModelCost]
    computes for that model. *)
Theorem selectModel_agrees_with_calculateModelCost :
  forall {SC : Scorer} (t : Tier) (conf : number) (method reasoning : jsstring)
         (tierConfigs : TierTable) (pricing : jsstring -> option ModelPricing)
         (inTokens outTokens : Z) (d : RoutingDecision),
    selectModel t conf method reasoning tierConfigs pricing inTokens outTokens = Ok d ->
    (exists tierConfig, tierConfigs t = Some tierConfig /\ rd_model d = primary tierConfig)
    /\ rd_tier d = t
    /\ {| costEstimate := rd_costEstimate d;
          baselineCost := rd_baselineCost d;
          savings := rd_savings d |}
       = calculateModelCost (rd_model d) pricing inTokens outTokens.
Proof.
  intros SC t conf method reasoning tierConfigs pricing inTokens outTokens d.
  apply selectModel_costs.
Qed.

Section Filtered.

Variable holds : Z -> Z -> bool.

Lemma filtered_chain (t : Tier) (tierConfigs : TierTable) (estimatedTotalTokens : Z)
  (getContextWindow : jsstring -> option Z) (fullChain : list jsstring) :
  getFallbackChain t tierConfigs = Ok fullChain ->
  exists chain,
    getFallbackChainFiltered holds t tierConfigs estimatedTotalTokens getContextWindow
    = Ok chain
    /\ chain <> []
    /\ (chain = fullChain
        \/ Forall (fun modelId =>
                     forall contextWindow,
                       getContextWindow modelId = Some contextWindow ->
                       holds contextWindow estimatedTotalTokens = true) chain)
    /\ (forall modelId, In modelId chain -> In modelId fullChain)
    /\ (forall modelId,
           In modelId fullChain -> getContextWindow modelId = None -> In modelId chain).
Proof.
  intros Hc. unfold getFallbackChainFiltered, bind. rewrite Hc.
  assert (Hne : fullChain <> []).
  { unfold getFallbackChain in Hc. destruct (tierConfigs t); [|discriminate].
    injection Hc as <-. discriminate. }
  set (keep := fun modelId => match getContextWindow modelId with
                              | None => true
                              | Some contextWindow => holds contextWindow estimatedTotalTokens
                              end).
  destruct (filter keep fullChain) as [|m ms] eqn:E.
  - exists fullChain. split; [reflexivity|]. split; [exact Hne|].
    split; [left; reflexivity|]. split; trivial.
  - exists (m :: ms). split; [reflexivity|]. split; [discriminate|].
    rewrite <- E. split; [right|split].
    + apply Forall_forall. intros modelId Hin contextWindow Hw.
      apply filter_In in Hin as [_ Hk]. unfold keep in Hk. rewrite Hw in Hk. exact Hk.
    + intros modelId Hin. apply filter_In in Hin as [Hin _]. exact Hin.
    + intros modelId Hin Hw. apply filter_In. split; [exact Hin|].
      unfold keep. rewrite Hw. reflexivity.
Qed.

End Filtered.

(** X26.  The filtered chain is never empty: when no model of the chain
    has room for the context the whole chain comes back; otherwise the
    chain holds models of the full chain only, each with room or with an
    unknown window, and every model whose window is unknown is kept. *)
Theorem filtered_chain_is_never_empty :
  forall (holds : Z -> Z -> bool) (t : Tier) (tierConfigs : TierTable)
         (estimatedTotalTokens : Z) (getContextWindow : jsstring -> option Z)
         (fullChain : list jsstring),
    getFallbackChain t tierConfigs = Ok fullChain ->
    exists chain,
      getFallbackChainFiltered holds t tierConfigs estimatedTotalTokens getContextWindow
      = Ok chain
      /\ chain <> []
      /\ (chain = fullChain
          \/ Forall (fun modelId =>
                       forall contextWindow,
                         getContextWindow modelId = Some contextWindow ->
                         holds contextWindow estimatedTotalTokens = true) chain)
      /\ (forall modelId, In modelId chain -> In modelId fullChain)
      /\ (forall modelId,
             In modelId fullChain -> getContextWindow modelId = None -> In modelId chain).
Proof.
  intros holds t tierConfigs estimatedTotalTokens getContextWindow fullChain.
  apply filtered_chain.
Qed.

(** ** Credentials *)

Section Profiles.

Variable names : list (jsstring * jsstring).
Variable provider : jsstring.

Lemma visit_other (map : Auth.AuthMap) (entry : jsstring * Auth.Profile) :
  str_eqb (Auth.p_provider (snd entry)) provider = false ->
  assoc provider (Auth.visit names map entry) = assoc provider map.
Proof.
  intros Hp. apply str_eqb_neq in Hp. unfold Auth.visit.
  assert (Hk : provider <> Auth.p_provider (snd entry)) by congruence.
  destruct (assoc (Auth.p_provider (snd entry)) map);
    [destruct (negb _); [reflexivity|]|]; apply assoc_set_field_other; exact Hk.
Qed.

Lemma visit_kept (entries : list (jsstring * Auth.Profile)) (map : Auth.AuthMap) :
  NoDup (List.map fst entries) ->
  assoc provider (fold_left (Auth.visit names) entries map)
  = match find (fun entry =>
                  str_eqb (Auth.p_provider (snd entry)) provider
                  && match assoc provider names with
                     | Some name => str_eqb name (fst entry)
                     | None => false
                     end) entries with
    | Some entry => Some (Auth.auth_of (fst entry) (snd entry))
    | None =>
        match assoc provider map with
        | Some a => Some a
        | None =>
            option_map (fun entry => Auth.auth_of (fst entry) (snd entry))
              (find (fun entry => str_eqb (Auth.p_provider (snd entry)) provider) entries)
        end
    end.
Proof.
  revert map. induction entries as [|entry entries IH]; intros map Hnd.
  - cbn. destruct (assoc provider map); reflexivity.
  - cbn [fold_left find]. inversion Hnd as [|x xs Hnot Hnd']; subst.
    rewrite (IH _ Hnd').
    destruct (str_eqb (Auth.p_provider (snd entry)) provider) eqn:Hp; cbn [andb].
    + apply str_eqb_eq in Hp.
      destruct (assoc provider names) as [name|] eqn:Hg.
      * destruct (str_eqb name (fst entry)) eqn:Hn.
        -- apply str_eqb_eq in Hn.
           assert (Hnone :
                     find (fun e => str_eqb (Auth.p_provider (snd e)) provider
                                    && str_eqb name (fst e)) entries = None).
           { destruct (find _ entries) as [e|] eqn:Hf; [|reflexivity].
             apply find_some in Hf as [Hin Hb].
             apply andb_prop in Hb as [_ Hb]. apply str_eqb_eq in Hb.
             exfalso. apply Hnot. rewrite <- Hn, Hb. apply in_map. exact Hin. }
           rewrite Hnone.
           assert (Hset : assoc provider (Auth.visit names map entry)
                          = Some (Auth.auth_of (fst entry) (snd entry))).
           { unfold Auth.visit. rewrite Hp, Hg, Hn, str_eqb_refl. cbn [negb].
             destruct (assoc provider map); apply assoc_set_field. }
           rewrite Hset. reflexivity.
        -- destruct (find _ entries) as [e|]; [reflexivity|].
           unfold Auth.visit. rewrite Hp, Hg.
           assert (Hn' : str_eqb name (fst entry) = false) by exact Hn.
           rewrite Hn'. cbn [negb].
           destruct (assoc provider map) as [a|] eqn:Hm; [rewrite Hm; reflexivity|].
           rewrite assoc_set_field. reflexivity.
      * destruct (find _ entries) as [e|] eqn:Hf.
        { apply find_some in Hf as [_ Hb]. rewrite andb_false_r in Hb. discriminate. }
        unfold Auth.visit. rewrite Hp, Hg. cbn [negb].
        destruct (assoc provider map) as [a|] eqn:Hm; [rewrite Hm; reflexivity|].
        rewrite assoc_set_field. reflexivity.
    + rewrite (visit_other _ _ Hp). reflexivity.
Qed.

End Profiles.

Lemma best_profiles_chosen (data : Auth.AuthProfilesFile) (provider : jsstring) :
  NoDup (map fst (Auth.profiles data)) ->
  assoc provider (Auth.best_profiles data)
  = option_map (fun entry => Auth.auth_of (fst entry) (snd entry)) (chosen data provider).
Proof.
  intros Hnd. unfold Auth.best_profiles, chosen. rewrite (@visit_kept _ provider _ [] Hnd).
  cbn [assoc].
  destruct (Auth.lastGood data) as [names|].
  - destruct (find _ (Auth.profiles data)); reflexivity.
  - cbn [assoc].
    assert (Hn : forall l : list (jsstring * Auth.Profile),
               find (fun entry => str_eqb (Auth.p_provider (snd entry)) provider && false) l
               = None).
    { induction l as [|e l IH]; cbn [find]; [reflexivity|].
      rewrite andb_false_r. exact IH. }
    rewrite !Hn. reflexivity.
Qed.

(** X27.  Of the profiles of a provider, [getAuth] answers with the one
    the file names under [lastGood]; when [lastGood] names none of them,
    with the first in the file.  A provider without a profile has no
    credentials. *)
Theorem last_good_profile_is_preferred :
  forall (env : Auth.AuthEnv) (data : Auth.AuthProfilesFile) (provider : jsstring),
    Auth.read_profiles env (profiles_path env) = Ok data ->
    NoDup (map fst (Auth.profiles data)) ->
    snd (Auth.getAuth env None provider)
    = option_map (fun entry => Auth.auth_of (fst entry) (snd entry)) (chosen data provider).
Proof.
  intros env data provider Hread Hnd.
  unfold Auth.getAuth, Auth.loadAuthProfiles. cbn [snd].
  unfold profiles_path in Hread. rewrite Hread.
  apply best_profiles_chosen. exact Hnd.
Qed.

(** Two profiles of one provider, the second named under [lastGood]. *)
Lemma last_good_profile_is_preferred_witness :
  snd (Auth.getAuth (auth_env (Ok two_profiles)) None (lit "anthropic"))
  = option_map (fun entry => Auth.auth_of (fst entry) (snd entry))
      (chosen two_profiles (lit "anthropic"))
  /\ option_map Auth.profileName
       (snd (Auth.getAuth (auth_env (Ok two_profiles)) None (lit "anthropic")))
     = Some (lit "anthropic:home").
Proof.
  split; [|vm_compute; reflexivity].
  apply (@last_good_profile_is_preferred (auth_env (Ok two_profiles)) two_profiles
           (lit "anthropic")).
  - reflexivity.
  - repeat constructor; vm_compute; intuition discriminate.
Defined.

(** X28.  A profiles file that cannot be read at the first [getAuth]
    leaves every provider without credentials, also once the file has
    become readable; [reloadAuth] makes the next call read the file
    again. *)
Theorem unreadable_profiles_are_remembered :
  forall (env later : Auth.AuthEnv) (e : error) (first provider : jsstring),
    Auth.read_profiles env (profiles_path env) = Throw e ->
    let authCache := fst (Auth.getAuth env None first) in
    snd (Auth.getAuth later authCache provider) = None
    /\ snd (Auth.getAuth later (Auth.reloadAuth authCache) provider)
       = assoc provider (Auth.loadAuthProfiles later).
Proof.
  intros env later e first provider Hread authCache. subst authCache.
  unfold Auth.getAuth, Auth.loadAuthProfiles, Auth.reloadAuth. cbn [fst snd].
  unfold profiles_path in Hread. rewrite Hread. split; reflexivity.
Qed.

(** The file is missing at first, then holds two profiles. *)
Lemma unreadable_profiles_are_remembered_witness :
  let env := auth_env (Throw (Error (lit "ENOENT"))) in
  let later := auth_env (Ok two_profiles) in
  let authCache := fst (Auth.getAuth env None (lit "anthropic")) in
  snd (Auth.getAuth later authCache (lit "anthropic")) = None
  /\ snd (Auth.getAuth later (Auth.reloadAuth authCache) (lit "anthropic"))
     = assoc (lit "anthropic") (Auth.loadAuthProfiles later).
Proof.
  exact (@unreadable_profiles_are_remembered (auth_env (Throw (Error (lit "ENOENT"))))
           (auth_env (Ok two_profiles)) (Error (lit "ENOENT")) (lit "anthropic")
           (lit "anthropic") eq_refl).
Defined.

(** X29.  A key taken from the environment is an API key, and it is
    preferred to the profiles file: a configuration that gives the
    provider [anthropic] an environment variable makes every request to
    it fail for want of a token, whatever the profiles file holds. *)
Theorem environment_key_cannot_authenticate_anthropic :
  forall {RT : Runtime}
         (cfg : AuthConfigured.FreeRouterConfig) (process_env : jsstring -> option jsstring)
         (env : Auth.AuthEnv) (authCache : option Auth.AuthMap)
         (entry : AuthConfigured.ProviderConfigEntry) (ac : AuthConfigured.AuthConfig)
         (envKey value : jsstring) (B : Backend) (req : ChatRequest)
         (modelName tier : jsstring) (stream : bool) (res : Res) (clock : nat),
    assoc (lit "anthropic") (AuthConfigured.providers cfg) = Some entry ->
    AuthConfigured.auth entry = Some ac ->
    AuthConfigured.type ac = AuthConfigured.EnvAuth ->
    AuthConfigured.key ac = Some envKey ->
    envKey <> [] ->
    process_env envKey = Some value ->
    value <> [] ->
    getAuth B (lit "anthropic")
    = option_map credentials
        (snd (AuthConfigured.getAuth cfg process_env env authCache (lit "anthropic"))) ->
    fst (AuthConfigured.getAuth cfg process_env env authCache (lit "anthropic")) = authCache
    /\ forwardToAnthropic B req modelName tier stream res clock
       = (res, clock, Throw (Error (lit "No Anthropic auth token"))).
Proof.
  intros RT cfg process_env env authCache entry ac envKey value B req modelName tier stream
         res clock Hentry Hauth Htype Hkey Hk Hvalue Hv HB.
  assert (Henv : AuthConfigured.getEnvAuth cfg process_env (lit "anthropic")
                 = Some {| Auth.provider := lit "anthropic";
                           Auth.profileName := envKey;
                           Auth.token := None;
                           Auth.apiKey := Some value |}).
  { unfold AuthConfigured.getEnvAuth. rewrite Hentry.
    destruct entry as [b a h au]. cbn in Hauth. subst au.
    destruct ac as [ty k pp fp sv acc]. cbn in Htype, Hkey. subst ty k.
    destruct envKey as [|c envKey]; [contradiction|].
    rewrite Hvalue. destruct value as [|v value]; [contradiction|]. reflexivity. }
  unfold AuthConfigured.getAuth in *. rewrite Henv in *. cbn [fst snd option_map] in *.
  split; [reflexivity|].
  unfold forwardToAnthropic. rewrite HB. reflexivity.
Qed.

(** The variable ANTHROPIC_API_KEY is set, and the profiles file holds two
    tokens. *)
Lemma environment_key_cannot_authenticate_anthropic_witness :
  let get := AuthConfigured.getAuth env_key_config key_in_env (auth_env (Ok two_profiles)) in
  let B := {| getAuth := fun provider => option_map credentials (snd (get None provider));
              fetch_anthropic := fetch_anthropic healthy_backend;
              fetch_openai := fetch_openai healthy_backend |} in
  fst (get None (lit "anthropic")) = None
  /\ forwardToAnthropic B (chat_request "anthropic/claude-opus-4-6" (lit "hello") false)
       (lit "claude-opus-4-6") (lit "COMPLEX") false fresh_res 0
     = (fresh_res, 0, Throw (Error (lit "No Anthropic auth token"))).
Proof.
  intros get B.
  apply (@environment_key_cannot_authenticate_anthropic sample_runtime env_key_config
           key_in_env
           (auth_env (Ok two_profiles)) None
           {| AuthConfigured.baseUrl := lit "https://api.anthropic.com";
              AuthConfigured.api := lit "anthropic";
              AuthConfigured.headers := None;
              AuthConfigured.auth :=
                Some {| AuthConfigured.type := AuthConfigured.EnvAuth;
                        AuthConfigured.key := Some (lit "ANTHROPIC_API_KEY");
                        AuthConfigured.profilesPath := None;
                        AuthConfigured.filePath := None;
                        AuthConfigured.service := None;
                        AuthConfigured.account := None |} |}
           {| AuthConfigured.type := AuthConfigured.EnvAuth;
              AuthConfigured.key := Some (lit "ANTHROPIC_API_KEY");
              AuthConfigured.profilesPath := None;
              AuthConfigured.filePath := None;
              AuthConfigured.service := None;
              AuthConfigured.account := None |}
           (lit "ANTHROPIC_API_KEY") (lit "sk-ant-api03-key") B);
    try reflexivity; discriminate.
Defined.

(** ** The headers set before the handler runs *)

Section Kept.

Context {RT : Runtime} {SC : Scorer}.

Variable k : jsstring.

Hypothesis k_json : ~ In k (map fst json_headers).
Hypothesis k_sse : ~ In k (map fst sse_headers).
Hypothesis k_model : k <> lit "X-ClawRouter-Model".
Hypothesis k_tier : k <> lit "X-ClawRouter-Tier".
Hypothesis k_reasoning : k <> lit "X-ClawRouter-Reasoning".

Lemma setHeader_keeps (name value : jsstring) (r r1 : Res) :
  k <> name -> setHeader name value r = Ok r1 -> assoc k (headers r1) = assoc k (headers r).
Proof.
  intros Hk. unfold setHeader. destruct (headersSent r); [discriminate|].
  destruct (negb (valid_header_value value)); [discriminate|].
  intros H; injection H as <-. cbn [headers]. apply assoc_set_field_other, Hk.
Qed.

Lemma set_routing_headers_keeps (routedModel tier reasoning : jsstring) (r : Res) :
  assoc k (headers (fst (set_routing_headers routedModel tier reasoning r)))
  = assoc k (headers r).
Proof.
  unfold set_routing_headers.
  destruct (setHeader (lit "X-ClawRouter-Model") routedModel r) as [r1|e] eqn:H1;
    [|reflexivity].
  eapply setHeader_keeps in H1; [|exact k_model].
  destruct (setHeader (lit "X-ClawRouter-Tier") tier r1) as [r2|e] eqn:H2;
    [|exact H1].
  eapply setHeader_keeps in H2; [|exact k_tier].
  destruct (setHeader (lit "X-ClawRouter-Reasoning") (slice_to 200 reasoning) r2)
    as [r3|e] eqn:H3; cbn [fst]; [|congruence].
  eapply setHeader_keeps in H3; [|exact k_reasoning].
  congruence.
Qed.

Lemma sendError_keeps (status : Z) (message type : jsstring) (r r1 : Res) :
  sendError status message type r = Ok r1 -> assoc k (headers r1) = assoc k (headers r).
Proof.
  unfold sendError, bind.
  destruct (writeHead status json_headers r) as [r0|e] eqn:Hw; [|discriminate].
  intros H; injection H as <-. rewrite headers_end, headers_write.
  eapply writeHead_keeps; [exact k_json|exact Hw].
Qed.

Lemma try_models_keeps (B : Backend) (chatReq : ChatRequest)
  (routedModel tier : jsstring) (stream : bool) (models : list jsstring) :
  forall (lastError : jsstring) (stats : Stats) (res : Res) (clock : nat),
    assoc k (headers (snd (fst (fst (try_models B chatReq routedModel tier stream models
                                       lastError stats res clock)))))
    = assoc k (headers res).
Proof.
  induction models as [|m models IH]; intros lastError stats res clock; cbn [try_models];
    [reflexivity|].
  assert (Hset : forall r0,
             (if str_eqb m routedModel then Ok res
              else setHeader (lit "X-ClawRouter-Model") m res) = Ok r0 ->
             assoc k (headers r0) = assoc k (headers res)).
  { intros r0. destruct (str_eqb m routedModel).
    - intros H; injection H as <-. reflexivity.
    - apply setHeader_keeps, k_model. }
  destruct (if str_eqb m routedModel then Ok res
            else setHeader (lit "X-ClawRouter-Model") m res) as [r0|e].
  - pose proof (@forwardRequest_keeps RT k k_json k_sse B chatReq m tier stream r0 clock)
      as Hk.
    rewrite (Hset r0 eq_refl) in Hk.
    destruct (forwardRequest B chatReq m tier stream r0 clock) as [[res1 clock1] [[]|err]];
      cbn [fst] in Hk; [exact Hk|].
    destruct (headersSent res1); [exact Hk|].
    rewrite IH. exact Hk.
  - destruct (headersSent res); [reflexivity|]. apply IH.
Qed.

Lemma fail_response_keeps (lastError : jsstring) (r r1 : Res) :
  fail_response lastError r = Ok r1 -> assoc k (headers r1) = assoc k (headers r).
Proof.
  unfold fail_response. destruct (negb (headersSent r)); [apply sendError_keeps|].
  destruct (negb (writableEnded r)); intros H; injection H as <-; [|reflexivity].
  rewrite headers_end, !headers_write. reflexivity.
Qed.

Lemma handleChatCompletions_keeps (B : Backend) (routingCfg : RoutingConfig)
  (pricing : jsstring -> option ModelPricing) (body : option ChatRequest)
  (stats : Stats) (res : Res) (clock : nat) :
  assoc k (headers (snd (fst (fst (handleChatCompletions B routingCfg pricing body stats
                                     res clock)))))
  = assoc k (headers res).
Proof.
  assert (Hreject : forall message,
             assoc k (headers (snd (fst (fst
               match sendError 400 message (lit "server_error") res with
               | Ok r => (stats, r, clock, Ok tt)
               | Throw e => (stats, res, clock, Throw e)
               end))))
             = assoc k (headers res)).
  { intros message.
    destruct (sendError 400 message (lit "server_error") res) as [r|e] eqn:E;
      [|reflexivity].
    cbn [fst snd]. eapply sendError_keeps, E. }
  unfold handleChatCompletions.
  destruct body as [chatReq|]; [|apply Hreject].
  destruct (req_model chatReq) as [[|c requestedModel]|]; try apply Hreject.
  destruct (req_messages chatReq) as [[|message messages]|]; try apply Hreject.
  destruct (extractPromptForClassification (message :: messages)) as [prompt systemPrompt].
  destruct prompt as [|p prompt]; [apply Hreject|].
  destruct (choose_model _ _ _ _ _ _) as [[[routedModel tier] reasoning]|e]; [|reflexivity].
  pose proof (set_routing_headers_keeps routedModel (tier_label tier) reasoning res) as Hin.
  destruct (set_routing_headers routedModel (tier_label tier) reasoning res)
    as [r3 [[]|e]]; cbn [fst snd] in Hin |- *; [|exact Hin].
  pose proof (try_models_keeps B chatReq routedModel (tier_label tier)
                (match req_stream chatReq with Some b => b | None => false end)
                (models_to_try routingCfg routedModel tier) []
                (count_request (tier_label tier) routedModel stats) r3 clock) as Ht.
  destruct (try_models _ _ _ _ _ _ _ _ _ _) as [[[stats2 res2] clock2] [|lastError]];
    cbn [fst snd] in Ht |- *; [congruence|].
  destruct (fail_response lastError res2) as [res3|e] eqn:Hf; cbn [fst snd]; [|congruence].
  apply fail_response_keeps in Hf. congruence.
Qed.

Lemma handleRequest_chat_keeps (B : Backend) (routingCfg : RoutingConfig)
  (pricing : jsstring -> option ModelPricing) (body : option ChatRequest)
  (stats : Stats) (res : Res) (clock : nat) :
  assoc k (headers (snd (fst (handleRequest_chat B routingCfg pricing body stats res clock))))
  = assoc k (headers res).
Proof.
  unfold handleRequest_chat.
  pose proof (handleChatCompletions_keeps B routingCfg pricing body stats res clock) as Hk.
  destruct (handleChatCompletions B routingCfg pricing body stats res clock)
    as [[[stats1 res1] clock1] [[]|err]]; cbn [fst snd] in Hk |- *; [exact Hk|].
  destruct (headersSent res1); [exact Hk|].
  destruct (sendError 500 (error_message err) (lit "server_error") res1) as [r|e] eqn:E;
    cbn [fst snd]; [|exact Hk].
  apply sendError_keeps in E. congruence.
Qed.

End Kept.

(** X30.  Every answer of the chat endpoint, a completion, a stream, a
    rejection or an error, carries the access-control headers the
    request handler set before it looked at the request. *)
Theorem chat_answers_keep_the_access_control_headers :
  forall {RT : Runtime} {SC : Scorer} (B : Backend) (routingCfg : RoutingConfig)
         (pricing : jsstring -> option ModelPricing) (body : option ChatRequest)
         (stats : Stats) (res : Res) (clock : nat) (name value : jsstring),
    In (name, value) cors_headers ->
    assoc name (headers res) = Some value ->
    assoc name (headers (snd (fst (handleRequest_chat B routingCfg pricing body stats
                                     res clock))))
    = Some value.
Proof.
  intros RT SC B routingCfg pricing body stats res clock name value Hin Hres.
  rewrite <- Hres.
  destruct Hin as [H|[H|[H|[]]]]; injection H as <- <-;
    apply handleRequest_chat_keeps; vm_compute; intuition discriminate.
Qed.

(** A stream that breaks after its first chunk. *)
Lemma chat_answers_keep_the_access_control_headers_witness :
  let res :=
    {| headersSent := false; writableEnded := false; statusCode := None;
       headers := cors_headers; body := [] |} in
  assoc (lit "Access-Control-Allow-Origin")
    (headers (snd (fst (handleRequest_chat (SC := sample_scorer) breaking_backend
                          default_routing no_pricing
                          (Some (chat_request "auto" (lit "hello") true))
                          no_stats res 0))))
  = Some (lit "*").
Proof.
  intros res.
  apply (@chat_answers_keep_the_access_control_headers sample_runtime sample_scorer
           breaking_backend default_routing no_pricing
           (Some (chat_request "auto" (lit "hello") true)) no_stats res 0
           (lit "Access-Control-Allow-Origin") (lit "*")).
  - left. reflexivity.
  - reflexivity.
Defined.

(** The SIMPLE tier of the default table, without prices. *)
Lemma selectModel_agrees_with_calculateModelCost_witness :
  exists d,
    selectModel (SC := sample_scorer) SIMPLE 100%Z (lit "rules") (lit "short")
      default_tier_table no_pricing 10 4096 = Ok d
    /\ rd_model d = lit "kimi-coding/kimi-for-coding"
    /\ {| costEstimate := rd_costEstimate d;
          baselineCost := rd_baselineCost d;
          savings := rd_savings d |}
       = calculateModelCost (rd_model d) no_pricing 10 4096.
Proof.
  set (run := selectModel (SC := sample_scorer) SIMPLE 100%Z (lit "rules") (lit "short")
                default_tier_table no_pricing 10 4096).
  let v := eval vm_compute in run in
  assert (Hrun : run = v) by (vm_compute; reflexivity).
  match type of Hrun with _ = Ok ?d => exists d end.
  split; [exact Hrun|]. split; [reflexivity|].
  apply (@selectModel_agrees_with_calculateModelCost sample_scorer SIMPLE 100%Z
           (lit "rules") (lit "short") default_tier_table no_pricing 10 4096 _ Hrun).
Defined.

(** The MEDIUM chain when the window of its primary model is too small and
    the window of its fallback is not known. *)
Lemma filtered_chain_is_never_empty_witness :
  let holds (contextWindow tokens : Z) := (11 * tokens <=? 10 * contextWindow)%Z in
  let getContextWindow (modelId : jsstring) :=
    if str_eqb modelId (lit "anthropic/claude-sonnet-4-5") then Some 1000%Z else None in
  getFallbackChainFiltered holds MEDIUM default_tier_table 5000 getContextWindow
  = Ok [lit "anthropic/claude-opus-4-6"].
Proof.
  intros holds getContextWindow.
  destruct (@filtered_chain_is_never_empty holds MEDIUM default_tier_table
              5000%Z getContextWindow
              [lit "anthropic/claude-sonnet-4-5"; lit "anthropic/claude-opus-4-6"] eq_refl)
    as (chain & Hc & _).
  rewrite Hc. vm_compute in Hc. symmetry. exact Hc.
Defined.
